(** * The Jah-consciousness scoring and guidance engine

    A shallow embedding of the engine in
    [app/ark_engine/rasta_principles/jah_core.py],
    [app/ark_engine/rasta_principles/__init__.py],
    [app/ark_engine/rasta_principles/rasta_principles.py],
    [app/ark_engine/core/controller_jah_integrated.py],
    [app/ark_engine/core/controller_enhanced.py],
    [app/ark_engine/core/models_enhanced.py] and the routes of the daily
    practice, the rituals, the insights and the sacred numbers of
    [app/ark_engine/api/routers/divine_guidance.py], followed by the
    properties of its specification and further properties of the engine.

    Conventions of the embedding.
    - Python [str] is [string]: the UTF-8 bytes of the text.  [encode()] is
      then the identity, and [in] (substring) is exact; [len], [lower] and
      [strip] are exact on ASCII text.
    - Python [int] is [Z]; Python [float] is idealised as an exact rational
      [Q] (the properties below are about formulas and bounds, not about
      rounding).
    - A [dict] whose keys are fixed by the code is a record; a [dict] that is
      built key by key is an association list in insertion order.
    - The clock and [random] are explicit inputs (an [env], and the draws
      of a [random.sample] as a function from rounds to indices); mutable
      attributes ([revelation_history], [daily_practices],
      [revelations_received]) are threaded as state.
    - An operation that can raise returns [option]: [None] is the raised
      exception. *)

From Stdlib Require Import ZArith QArith Qabs Qminmax Qround.
From Stdlib Require Import List String Ascii Bool Arith Lia Lqa.
From Stdlib Require Import DecimalString.
From Stdlib Require Import Sorting.Permutation Sorting.Sorted.
From Stdlib Require OrderedTypeEx DecimalPos.
Import ListNotations.

Local Open Scope list_scope.
Local Open Scope string_scope.
Local Open Scope nat_scope.

(** ** Text: the [str] methods the engine uses *)

Module Text.

(** [str.isspace] on one ASCII character: TAB..CR, FS..US and SPACE. *)
Definition isspace (c : ascii) : bool :=
  let n := nat_of_ascii c in
  ((9 <=? n) && (n <=? 13)) || ((28 <=? n) && (n <=? 31)) || (n =? 32).

Definition lower_char (c : ascii) : ascii :=
  let n := nat_of_ascii c in
  if (65 <=? n) && (n <=? 90) then ascii_of_nat (n + 32) else c.

(** [s.lower()] *)
Fixpoint lower (s : string) : string :=
  match s with
  | EmptyString => EmptyString
  | String c t => String (lower_char c) (lower t)
  end.

(** [s.lstrip()] *)
Fixpoint lstrip (s : string) : string :=
  match s with
  | EmptyString => EmptyString
  | String c t => if isspace c then lstrip t else s
  end.

(** [s.rstrip()] *)
Fixpoint rstrip (s : string) : string :=
  match s with
  | EmptyString => EmptyString
  | String c t =>
      match rstrip t with
      | EmptyString => if isspace c then EmptyString else String c EmptyString
      | t' => String c t'
      end
  end.

(** [s.strip()] *)
Definition strip (s : string) : string := rstrip (lstrip s).

(** [bool(s)]: a text is truthy when it is not empty. *)
Definition truthy (s : string) : bool :=
  match s with EmptyString => false | _ => true end.

(** [s.startswith(p)] *)
Definition startswith (s p : string) : bool := String.prefix p s.

(** [sub in s] *)
Fixpoint contains (sub s : string) : bool :=
  String.prefix sub s
  || match s with
     | EmptyString => false
     | String _ t => contains sub t
     end.

(** [s.split] on the newline character: never empty, the empty text
    splits to one empty line. *)
Fixpoint split_lines (s : string) : list string :=
  match s with
  | EmptyString => [EmptyString]
  | String c t =>
      if Ascii.eqb c "010"%char then EmptyString :: split_lines t
      else match split_lines t with
           | h :: r => String c h :: r
           | [] => [String c EmptyString]
           end
  end.

(** [s.split()]: the maximal runs of non-space characters. *)
Fixpoint split (s : string) : list string :=
  match s with
  | EmptyString => []
  | String c t =>
      if isspace c then split t
      else match t with
           | EmptyString => [String c EmptyString]
           | String d _ =>
               if isspace d then String c EmptyString :: split t
               else match split t with
                    | w :: ws => String c w :: ws
                    | [] => [String c EmptyString]
                    end
           end
  end.

(** [sep.join(l)] *)
Fixpoint join (sep : string) (l : list string) : string :=
  match l with
  | [] => EmptyString
  | [x] => x
  | x :: r => x ++ sep ++ join sep r
  end.

(** [str(n)] for an integer. *)
Definition of_Z (z : Z) : string := NilZero.string_of_int (Z.to_int z).

(** The decimal digits of [n], left-padded with zeros to [width]
    (the [%02d]-style fields of [isoformat]). *)
Fixpoint pad (width : nat) (s : string) : string :=
  match width - String.length s with
  | O => s
  | S _ => match width with
           | O => s
           | S w => "0" ++ pad w s
           end
  end.

Definition of_nat_pad (width n : nat) : string :=
  pad width (of_Z (Z.of_nat n)).

(** [s[:n]] *)
Definition take (n : nat) (s : string) : string := String.substring 0 n s.

End Text.

(** ** Python's built-in helpers on numbers and sequences *)

Definition Qsum (l : list Q) : Q := fold_left Qplus l 0%Q.

Definition Qlen {A} (l : list A) : Q := inject_Z (Z.of_nat (List.length l)).

(** [a / b] on floats: [None] stands for [ZeroDivisionError]. *)
Definition py_div (a b : Q) : option Q :=
  if Qeq_bool b 0 then None else Some (a / b)%Q.

(** [l[:n]] *)
Definition py_take {A} (n : nat) (l : list A) : list A := firstn n l.

(** Stable insertion of [x], which stood before every element of [l], in
    a list sorted in descending key order: [x] passes the elements whose
    key is larger and stops in front of the first one whose key is not;
    [lt a b] says that the key of [a] is smaller than the key of [b]. *)
Fixpoint insert_desc {A} (lt : A -> A -> bool) (x : A) (l : list A) : list A :=
  match l with
  | [] => [x]
  | y :: r => if lt x y then y :: insert_desc lt x r else x :: l
  end.

(** [sorted(l, key=..., reverse=True)] and [l.sort(key=..., reverse=True)]:
    a stable sort in descending key order. *)
Definition sort_desc {A} (lt : A -> A -> bool) (l : list A) : list A :=
  fold_right (insert_desc lt) [] l.

(** An insertion-ordered [dict] with text keys. *)
Definition dict (V : Type) : Type := list (string * V).

Fixpoint dict_get {V} (k : string) (d : dict V) : option V :=
  match d with
  | [] => None
  | (k', v) :: r => if String.eqb k k' then Some v else dict_get k r
  end.

(** [d[k] = v]: an existing key keeps its position. *)
Fixpoint dict_set {V} (k : string) (v : V) (d : dict V) : dict V :=
  match d with
  | [] => [(k, v)]
  | (k', v') :: r =>
      if String.eqb k k' then (k', v) :: r else (k', v') :: dict_set k v r
  end.

Definition dict_values {V} (d : dict V) : list V := map snd d.

(** ** DivinePatternRecognizer *)

Module DivinePatternRecognizer.

(** The entry [golden_ratio] of [sacred_patterns]. *)
Definition golden_ratio : Q := 161803398875 # 100000000000.

Definition divine_indicators : list (string * list string) :=
  [ ("balance", ["symmetry"; "equilibrium"; "harmony"; "proportion"]);
    ("order", ["pattern"; "sequence"; "structure"; "organization"]);
    ("beauty", ["elegance"; "simplicity"; "grace"; "clarity"]);
    ("life", ["growth"; "evolution"; "adaptation"; "renewal"]);
    ("unity", ["connection"; "integration"; "wholeness"; "oneness"]) ].

(** The analysis mapping of [analyze_code_for_divine_patterns]. *)
Record analysis := {
  sacred_patterns_found : list string;
  found_indicators : list string;     (* key [divine_indicators] *)
  pattern_scores : dict Q;
  divine_alignment_score : Q
}.

Definition _analyze_indentation_pattern (lines : list string) : list Z :=
  flat_map
    (fun line =>
       if Text.truthy (Text.strip line)
       then [(Z.of_nat (String.length line)
              - Z.of_nat (String.length (Text.lstrip line)))%Z]
       else [])
    lines.

(** The loop [for i in range(2, len(sequence))] returns [False] at the
    first index that breaks the recurrence. *)
Definition _is_fibonacci_like (sequence : list Z) : bool :=
  if List.length sequence <? 3 then false
  else
    forallb
      (fun i =>
         (nth i sequence 0 =? nth (i - 1) sequence 0 + nth (i - 2) sequence 0)%Z)
      (seq 2 (List.length sequence - 2)).

(** State of the loop of [_extract_function_lengths]. *)
Record scan := {
  in_function : bool;
  function_lengths : list Z;
  current_length : Z
}.

Definition scan_line (st : scan) (line : string) : scan :=
  let stripped := Text.strip line in
  if Text.startswith stripped "def " || Text.startswith stripped "class "
  then
    {| in_function := true;
       function_lengths :=
         if in_function st && (0 <? current_length st)%Z
         then (function_lengths st ++ [current_length st])%list
         else function_lengths st;
       current_length := 0 |}
  else if in_function st && Text.truthy stripped
  then {| in_function := in_function st;
          function_lengths := function_lengths st;
          current_length := (current_length st + 1)%Z |}
  else st.

Definition _extract_function_lengths (code : string) : list Z :=
  let st :=
    fold_left scan_line (Text.split_lines code)
      {| in_function := false; function_lengths := []; current_length := 0 |}
  in
  if in_function st && (0 <? current_length st)%Z
  then (function_lengths st ++ [current_length st])%list
  else function_lengths st.

(** [lengths[i] / lengths[i - 1]] for [i] in [range(1, len(lengths))],
    kept when [lengths[i - 1] > 0]. *)
Definition ratios_of (lengths : list Z) : list Q :=
  flat_map
    (fun i =>
       let prev := nth (i - 1) lengths 0%Z in
       if (0 <? prev)%Z
       then [(inject_Z (nth i lengths 0%Z) / inject_Z prev)%Q]
       else [])
    (seq 1 (List.length lengths - 1)).

Definition _calculate_golden_ratio_alignment (lengths : list Z) : Q :=
  if List.length lengths <? 2 then 0%Q
  else
    let ratios := ratios_of lengths in
    match ratios with
    | [] => 0%Q
    | _ =>
        let deviations := map (fun ratio => Qabs (ratio - golden_ratio)) ratios in
        let avg_deviation := (Qsum deviations / Qlen deviations)%Q in
        let score := (1 / (1 + avg_deviation))%Q in
        Qmin 1 score
    end.

(** The indicators found in the lower-cased code, each name once, in the
    order of the table. *)
Definition scan_indicators (code_lower : string) : list string :=
  fold_left
    (fun found '(indicator, keywords) =>
       fold_left
         (fun found keyword =>
            if Text.contains keyword code_lower
               && negb (existsb (String.eqb indicator) found)
            then (found ++ [indicator])%list else found)
         keywords found)
    divine_indicators [].

Definition analyze_code_for_divine_patterns (code : string) : analysis :=
  let lines := Text.split_lines code in
  let indent_levels := _analyze_indentation_pattern lines in
  let fib := match lines with [] => false | _ => _is_fibonacci_like indent_levels end in
  let lengths := match lines with [] => [] | _ => _extract_function_lengths code end in
  let found1 := if fib then ["fibonacci_indentation"] else [] in
  let scores1 : dict Q :=
    if fib then dict_set "fibonacci_indentation" (8 # 10) [] else [] in
  let golden_score := _calculate_golden_ratio_alignment lengths in
  let scores2 :=
    match lengths with
    | [] => scores1
    | _ => dict_set "golden_ratio_alignment" golden_score scores1
    end in
  let found2 :=
    match lengths with
    | [] => found1
    | _ => if Qlt_le_dec (7 # 10) golden_score
           then (found1 ++ ["golden_ratio_pattern"])%list else found1
    end in
  {| sacred_patterns_found := found2;
     found_indicators := scan_indicators (Text.lower code);
     pattern_scores := scores2;
     divine_alignment_score :=
       match scores2 with
       | [] => 0%Q
       | _ => (Qsum (dict_values scores2) / Qlen scores2)%Q
       end |}.

End DivinePatternRecognizer.

(** ** ScripturalWisdom *)

Module ScripturalWisdom.

(** The attributes set by [__init__]. *)
Record t := {
  wisdom_database : dict (list string);
  coding_application : dict string
}.

Definition init : t :=
  {| wisdom_database :=
       [ ("Psalms",
          [ "The Earth is Jah's and the fullness thereof";
            "Blessed is the man that walketh not in the counsel of the ungodly";
            "He that dwelleth in the secret place of the most High";
            "The Lord is my shepherd; I shall not want";
            "Create in me a clean heart, O God" ]);
         ("Proverbs",
          [ "The fear of the Lord is the beginning of wisdom";
            "Trust in the Lord with all thine heart";
            "Wisdom is the principal thing; therefore get wisdom";
            "A soft answer turneth away wrath";
            "Where there is no vision, the people perish" ]);
         ("Ecclesiastes",
          [ "To every thing there is a season";
            "Vanity of vanities, saith the Preacher";
            "The sun also ariseth, and the sun goeth down";
            "Two are better than one";
            "Remember now thy Creator in the days of thy youth" ]);
         ("Isaiah",
          [ "They that wait upon the Lord shall renew their strength";
            "The wolf also shall dwell with the lamb";
            "How beautiful upon the mountains are the feet of him";
            "For my thoughts are not your thoughts";
            "Comfort ye, comfort ye my people" ]);
         ("Rasta_Wisdom",
          [ "Jah live inna I and I";
            "Love and unity is the key";
            "Give thanks and praise to the Most High";
            "Inity, not vanity";
            "Overstand, don't just understand";
            "Livity is the way of life";
            "Ital is vital";
            "No hurt, no harm in the heart";
            "Peace and love within the community";
            "Respect for all of Jah creation" ]) ];
     coding_application :=
       [ ("The Earth is Jah's and the fullness thereof",
          "Code should respect natural systems and environmental impact");
         ("The fear of the Lord is the beginning of wisdom",
          "Humility before complexity brings true understanding");
         ("To every thing there is a season",
          "Choose the right technology for the right time");
         ("They that wait upon the Lord shall renew their strength",
          "Patience in debugging leads to better solutions");
         ("Jah live inna I and I", "Divine wisdom exists within every programmer");
         ("Love and unity is the key", "Collaborative coding creates better systems");
         ("Overstand, don't just understand",
          "Deep comprehension beyond surface knowledge");
         ("Ital is vital", "Clean, natural code is essential for health");
         ("No hurt, no harm in the heart", "Code should not cause harm to users");
         ("Respect for all of Jah creation", "Inclusive design for all people") ] |}.

(** One element of the [relevant] list. *)
Record entry := {
  wisdom : string;
  book : string;
  application : string;
  relevance_score : Q
}.

(** The mapping returned by [get_wisdom_for_situation]. *)
Record result := {
  situation : string;
  guidance : list entry;
  blessing : string;
  meditation : string
}.

Definition _calculate_relevance (wisdom : string) (keywords : list string) : Q :=
  let wisdom_lower := Text.lower wisdom in
  let matches :=
    List.length (filter (fun keyword => Text.contains keyword wisdom_lower) keywords) in
  match keywords with
  | [] => 0%Q
  | _ => (inject_Z (Z.of_nat matches) / Qlen keywords)%Q
  end.

(** The body of the two nested [for] loops: the entries appended to
    [relevant], book by book and wisdom by wisdom. *)
Definition relevant_entries (self : t) (keywords : list string) : list entry :=
  flat_map
    (fun '(book, wisdoms) =>
       flat_map
         (fun wisdom =>
            if existsb (fun keyword => Text.contains keyword (Text.lower wisdom)) keywords
            then
              [ {| wisdom := wisdom;
                   book := book;
                   application :=
                     match dict_get wisdom (coding_application self) with
                     | Some a => a
                     | None => "Apply divine wisdom"
                     end;
                   relevance_score := _calculate_relevance wisdom keywords |} ]
            else [])
         wisdoms)
    (wisdom_database self).

(** The number of maxims of the corpus. *)
Definition corpus_size (self : t) : nat :=
  List.length (flat_map snd (wisdom_database self)).

Definition score_lt (a b : entry) : bool :=
  negb (Qle_bool (relevance_score b) (relevance_score a)).

Definition get_wisdom_for_situation (self : t) (situation : string) : result :=
  let keywords := Text.split (Text.lower situation) in
  let relevant := sort_desc score_lt (relevant_entries self keywords) in
  {| situation := situation;
     guidance := match relevant with [] => [] | _ => py_take 3 relevant end;
     blessing := "Jah guide your coding journey with wisdom and understanding";
     meditation := "Consider how this wisdom applies to your code and life" |}.

End ScripturalWisdom.

(** ** MD5, as [hashlib.md5(data).hexdigest()] computes it (RFC 1321) *)

Module MD5.

Local Open Scope Z_scope.

Definition wrap32 (x : Z) : Z := x mod 2 ^ 32.

Definition rotl32 (x c : Z) : Z :=
  wrap32 (Z.lor (Z.shiftl x c) (Z.shiftr x (32 - c))).

Definition not32 (x : Z) : Z := Z.lxor x 4294967295.

Definition shifts : list Z :=
  [ 7; 12; 17; 22; 7; 12; 17; 22; 7; 12; 17; 22; 7; 12; 17; 22;
    5; 9; 14; 20; 5; 9; 14; 20; 5; 9; 14; 20; 5; 9; 14; 20;
    4; 11; 16; 23; 4; 11; 16; 23; 4; 11; 16; 23; 4; 11; 16; 23;
    6; 10; 15; 21; 6; 10; 15; 21; 6; 10; 15; 21; 6; 10; 15; 21 ].

(** [floor(2^32 * abs(sin(i + 1)))] *)
Definition K : list Z :=
  [ 0xd76aa478; 0xe8c7b756; 0x242070db; 0xc1bdceee;
    0xf57c0faf; 0x4787c62a; 0xa8304613; 0xfd469501;
    0x698098d8; 0x8b44f7af; 0xffff5bb1; 0x895cd7be;
    0x6b901122; 0xfd987193; 0xa679438e; 0x49b40821;
    0xf61e2562; 0xc040b340; 0x265e5a51; 0xe9b6c7aa;
    0xd62f105d; 0x02441453; 0xd8a1e681; 0xe7d3fbc8;
    0x21e1cde6; 0xc33707d6; 0xf4d50d87; 0x455a14ed;
    0xa9e3e905; 0xfcefa3f8; 0x676f02d9; 0x8d2a4c8a;
    0xfffa3942; 0x8771f681; 0x6d9d6122; 0xfde5380c;
    0xa4beea44; 0x4bdecfa9; 0xf6bb4b60; 0xbebfbc70;
    0x289b7ec6; 0xeaa127fa; 0xd4ef3085; 0x04881d05;
    0xd9d4d039; 0xe6db99e5; 0x1fa27cf8; 0xc4ac5665;
    0xf4292244; 0x432aff97; 0xab9423a7; 0xfc93a039;
    0x655b59c3; 0x8f0ccc92; 0xffeff47d; 0x85845dd1;
    0x6fa87e4f; 0xfe2ce6e0; 0xa3014314; 0x4e0811a1;
    0xf7537e82; 0xbd3af235; 0x2ad7d2bb; 0xeb86d391 ].

Definition bytes_of (s : string) : list Z :=
  map (fun c => Z.of_nat (nat_of_ascii c)) (list_ascii_of_string s).

(** The [n] low bytes of [x], least significant first. *)
Definition le_bytes (n : nat) (x : Z) : list Z :=
  map (fun i => Z.land (Z.shiftr x (8 * Z.of_nat i)) 255) (seq 0 n).

Definition le_word (bytes : list Z) : Z :=
  fold_right (fun b acc => b + 256 * acc) 0 bytes.

(** The message followed by the bit 1, zeros up to 56 modulo 64 bytes,
    and the bit length on 64 bits. *)
Definition pad (msg : list Z) : list Z :=
  let len := List.length msg in
  (msg ++ 128 :: repeat 0 ((119 - len mod 64) mod 64)%nat
       ++ le_bytes 8 ((8 * Z.of_nat len) mod 2 ^ 64))%list.

Fixpoint chunks (fuel : nat) (l : list Z) : list (list Z) :=
  match fuel with
  | O => []
  | S fuel' =>
      match l with
      | [] => []
      | _ => firstn 64 l :: chunks fuel' (skipn 64 l)
      end
  end.

Definition word_at (block : list Z) (g : nat) : Z :=
  le_word (firstn 4 (skipn (4 * g) block)).

Definition state : Type := Z * Z * Z * Z.

Definition step (block : list Z) (st : state) (i : nat) : state :=
  let '(a, b, c, d) := st in
  let '(f, g) :=
    if (i <? 16)%nat then (Z.lor (Z.land b c) (Z.land (not32 b) d), i)
    else if (i <? 32)%nat
    then (Z.lor (Z.land d b) (Z.land (not32 d) c), ((5 * i + 1) mod 16)%nat)
    else if (i <? 48)%nat
    then (Z.lxor (Z.lxor b c) d, ((3 * i + 5) mod 16)%nat)
    else (Z.lxor c (Z.lor b (not32 d)), ((7 * i) mod 16)%nat) in
  let f' := wrap32 (f + a + nth i K 0 + word_at block g) in
  (d, wrap32 (b + rotl32 f' (nth i shifts 0)), b, c).

Definition compress (st : state) (block : list Z) : state :=
  let '(a0, b0, c0, d0) := st in
  let '(a, b, c, d) := fold_left (step block) (seq 0 64) st in
  (wrap32 (a0 + a), wrap32 (b0 + b), wrap32 (c0 + c), wrap32 (d0 + d)).

Definition digest (msg : list Z) : list Z :=
  let padded := pad msg in
  let '(a, b, c, d) :=
    fold_left compress (chunks (List.length padded) padded)
      (0x67452301, 0xefcdab89, 0x98badcfe, 0x10325476) in
  (le_bytes 4 a ++ le_bytes 4 b ++ le_bytes 4 c ++ le_bytes 4 d)%list.

Definition hex_digit (n : Z) : ascii :=
  nth (Z.to_nat n) (list_ascii_of_string "0123456789abcdef") "0"%char.

Definition hexdigest (msg : string) : string :=
  string_of_list_ascii
    (flat_map (fun b => [hex_digit (b / 16); hex_digit (b mod 16)])
       (digest (bytes_of msg))).

(** The value of one hexadecimal digit; [None] for any other character. *)
Definition hex_value (c : ascii) : option Z :=
  let n := Z.of_nat (nat_of_ascii c) in
  if (48 <=? n) && (n <=? 57) then Some (n - 48)
  else if (97 <=? n) && (n <=? 102) then Some (n - 87)
  else if (65 <=? n) && (n <=? 70) then Some (n - 55)
  else None.

(** [int(s, 16)] on a text of hexadecimal digits; a character that is no
    digit counts as 0 (a digest holds none). *)
Definition int16 (s : string) : Z :=
  fold_left
    (fun acc c => 16 * acc + match hex_value c with Some v => v | None => 0 end)
    (list_ascii_of_string s) 0.

End MD5.

(** ** SHA-256, as [hashlib.sha256(data).hexdigest()] computes it (FIPS 180-4) *)

Module SHA256.

Local Open Scope Z_scope.

Definition wrap32 (x : Z) : Z := x mod 2 ^ 32.

Definition rotr32 (x c : Z) : Z :=
  wrap32 (Z.lor (Z.shiftr x c) (Z.shiftl x (32 - c))).

(** The first 64 primes. *)
Definition primes : list Z :=
  [ 2; 3; 5; 7; 11; 13; 17; 19; 23; 29; 31; 37; 41; 43; 47; 53;
    59; 61; 67; 71; 73; 79; 83; 89; 97; 101; 103; 107; 109; 113; 127; 131;
    137; 139; 149; 151; 157; 163; 167; 173; 179; 181; 191; 193; 197; 199;
    211; 223; 227; 229; 233; 239; 241; 251; 257; 263; 269; 271; 277; 281;
    283; 293; 307; 311 ].

(** The integer cube root of [n], built bit by bit from bit [bits - 1]. *)
Fixpoint cube_root (bits : nat) (n acc : Z) : Z :=
  match bits with
  | O => acc
  | S b =>
      let candidate := acc + 2 ^ Z.of_nat b in
      cube_root b n (if candidate ^ 3 <=? n then candidate else acc)
  end.

(** The round constants: the first 32 bits of the fractional parts of the
    cube roots of the first 64 primes. *)
Definition K : list Z :=
  Eval vm_compute in map (fun p => wrap32 (cube_root 36 (p * 2 ^ 96) 0)) primes.

(** The initial hash value: the first 32 bits of the fractional parts of
    the square roots of the first 8 primes. *)
Definition H0 : list Z :=
  Eval vm_compute in map (fun p => wrap32 (Z.sqrt (p * 2 ^ 64))) (firstn 8 primes).

(** The [n] low bytes of [x], most significant first. *)
Definition be_bytes (n : nat) (x : Z) : list Z := rev (MD5.le_bytes n x).

Definition be_word (bytes : list Z) : Z :=
  fold_left (fun acc b => 256 * acc + b) bytes 0.

Definition pad (msg : list Z) : list Z :=
  let len := List.length msg in
  (msg ++ 128 :: repeat 0 ((119 - len mod 64) mod 64)%nat
       ++ be_bytes 8 ((8 * Z.of_nat len) mod 2 ^ 64))%list.

(** The message schedule: 16 words of the block, then 48 derived ones. *)
Definition schedule (block : list Z) : list Z :=
  fold_left
    (fun w t =>
       let w15 := nth (t - 15) w 0 in
       let w2 := nth (t - 2) w 0 in
       let s0 := Z.lxor (Z.lxor (rotr32 w15 7) (rotr32 w15 18)) (Z.shiftr w15 3) in
       let s1 := Z.lxor (Z.lxor (rotr32 w2 17) (rotr32 w2 19)) (Z.shiftr w2 10) in
       (w ++ [wrap32 (nth (t - 16) w 0 + s0 + nth (t - 7) w 0 + s1)])%list)
    (seq 16 48)
    (map (fun i => be_word (firstn 4 (skipn (4 * i) block))) (seq 0 16)).

Definition round (w : list Z) (st : list Z) (t : nat) : list Z :=
  match st with
  | [a; b; c; d; e; f; g; h] =>
      let S1 := Z.lxor (Z.lxor (rotr32 e 6) (rotr32 e 11)) (rotr32 e 25) in
      let ch := Z.lxor (Z.land e f) (Z.land (Z.lxor e 4294967295) g) in
      let t1 := wrap32 (h + S1 + ch + nth t K 0 + nth t w 0) in
      let S0 := Z.lxor (Z.lxor (rotr32 a 2) (rotr32 a 13)) (rotr32 a 22) in
      let maj := Z.lxor (Z.lxor (Z.land a b) (Z.land a c)) (Z.land b c) in
      let t2 := wrap32 (S0 + maj) in
      [wrap32 (t1 + t2); a; b; c; wrap32 (d + t1); e; f; g]
  | _ => st
  end.

Definition compress (st : list Z) (block : list Z) : list Z :=
  map (fun '(x, y) => wrap32 (x + y))
    (combine st (fold_left (round (schedule block)) (seq 0 64) st)).

Definition digest (msg : list Z) : list Z :=
  let padded := pad msg in
  flat_map (be_bytes 4)
    (fold_left compress (MD5.chunks (List.length padded) padded) H0).

Definition hexdigest (msg : string) : string :=
  string_of_list_ascii
    (flat_map (fun b => [MD5.hex_digit (b / 16); MD5.hex_digit (b mod 16)])
       (digest (MD5.bytes_of msg))).

End SHA256.

(** ** Dynamically typed values: what a [Dict[str, Any]] can hold *)

#[warnings="-register-all"] Inductive value : Type :=
| VNone
| VBool (b : bool)
| VInt (z : Z)
| VFloat (q : Q)
| VStr (s : string)
| VList (l : list value)
| VDict (d : list (string * value)).

Module Value.

Definition quote : string := String "039"%char EmptyString.
Definition dquote : string := String "034"%char EmptyString.
Definition backslash : string := String "092"%char EmptyString.

Definition hex2 (n : nat) : string :=
  String (MD5.hex_digit (Z.of_nat (n / 16)))
    (String (MD5.hex_digit (Z.of_nat (n mod 16))) EmptyString).

(** One character of [repr(s)], inside the quotes [q]. *)
Definition repr_char (q : ascii) (c : ascii) : string :=
  let n := nat_of_ascii c in
  if Ascii.eqb c "092"%char then backslash ++ backslash
  else if Ascii.eqb c q then backslash ++ String c EmptyString
  else if n =? 10 then backslash ++ "n"
  else if n =? 13 then backslash ++ "r"
  else if n =? 9 then backslash ++ "t"
  else if (n <? 32) || (n =? 127) then backslash ++ "x" ++ hex2 n
  else String c EmptyString.

(** [repr(s)] of a text: single quotes, unless the text holds a single
    quote and no double quote (exact on ASCII text). *)
Definition repr_str (s : string) : string :=
  let q :=
    if Text.contains quote s && negb (Text.contains dquote s)
    then "034"%char else "039"%char in
  String q
    (String.concat EmptyString (map (repr_char q) (list_ascii_of_string s))
     ++ String q EmptyString).

(** Up to [n] decimal digits of the fraction [r / d], without trailing
    zeros. *)
Fixpoint frac_digits (n : nat) (r d : Z) : string :=
  match n with
  | O => EmptyString
  | S n' =>
      if (r =? 0)%Z then EmptyString
      else Text.of_Z (10 * r / d) ++ frac_digits n' ((10 * r) mod d) d
  end.

(** [repr(x)] of a float, on its rational idealisation: the integer part,
    a point and at most 16 digits. *)
Definition repr_float (q : Q) : string :=
  let n := Z.abs (Qnum q) in
  let d := Z.pos (Qden q) in
  let digits := frac_digits 16 (n mod d)%Z d in
  (if (Qnum q <? 0)%Z then "-" else "")
  ++ Text.of_Z (n / d)
  ++ "."
  ++ (match digits with EmptyString => "0" | _ => digits end).

(** [repr(v)] *)
Fixpoint repr (v : value) : string :=
  match v with
  | VNone => "None"
  | VBool true => "True"
  | VBool false => "False"
  | VInt z => Text.of_Z z
  | VFloat q => repr_float q
  | VStr s => repr_str s
  | VList l => "[" ++ Text.join ", " (map repr l) ++ "]"
  | VDict d =>
      "{"
      ++ Text.join ", "
           (map (fun kv => match kv with
                           | (k, x) => repr_str k ++ ": " ++ repr x
                           end) d)
      ++ "}"
  end.

(** [str(v)], also what an f-string interpolates. *)
Definition str (v : value) : string :=
  match v with
  | VStr s => s
  | _ => repr v
  end.


Definition opt_str (o : option string) : value :=
  match o with Some s => VStr s | None => VNone end.

End Value.

(** ** The clock and the random source *)

(** What [datetime.now()] returns. *)
Record datetime := {
  year : nat;
  month : nat;
  day : nat;
  hour : nat;
  minute : nat;
  second : nat;
  microsecond : nat
}.

Module Datetime.

(** [d.date().isoformat()] *)
Definition date_isoformat (d : datetime) : string :=
  Text.of_nat_pad 4 (year d) ++ "-" ++ Text.of_nat_pad 2 (month d)
  ++ "-" ++ Text.of_nat_pad 2 (day d).

(** [d.isoformat()]: the microseconds are printed unless they are 0. *)
Definition isoformat (d : datetime) : string :=
  date_isoformat d ++ "T" ++ Text.of_nat_pad 2 (hour d) ++ ":"
  ++ Text.of_nat_pad 2 (minute d) ++ ":" ++ Text.of_nat_pad 2 (second d)
  ++ (match microsecond d with
      | O => ""
      | us => "." ++ Text.of_nat_pad 6 us
      end).

(** The day of the week of a Gregorian date, 0 for Sunday. *)
Definition day_of_week (d : datetime) : nat :=
  let y := if month d <? 3 then year d - 1 else year d in
  let t := nth (month d - 1) [0; 3; 2; 5; 0; 3; 5; 1; 4; 6; 2; 4] 0 in
  (y + y / 4 - y / 100 + y / 400 + t + day d) mod 7.

(** [d.strftime] with the format [%A], the name of the day. *)
Definition weekday_name (d : datetime) : string :=
  nth (day_of_week d)
    ["Sunday"; "Monday"; "Tuesday"; "Wednesday"; "Thursday"; "Friday"; "Saturday"]
    "".

End Datetime.

(** The inputs of one call that do not come from its arguments: every
    [datetime.now()] of the call reads [now], every [datetime.utcnow()]
    reads [utcnow], and the two [random.choice] draws of
    [_generate_wisdom_message] are [pick1] and [pick2].  Code that reads
    the clock once more after such a call has returned takes that later
    read as an input of its own. *)
Record env := {
  now : datetime;
  utcnow : datetime;
  pick1 : nat;
  pick2 : nat
}.

(** [random.choice(l)] when the generator draws index [pick mod len(l)]. *)
Definition choice {A} (pick : nat) (l : list A) (default : A) : A :=
  nth (pick mod List.length l) l default.

(** ** The two enumerations *)

Inductive DivinePrinciple :=
| DIVINE_ORDER | INFINITE_WISDOM | UNIVERSAL_LOVE | NATURAL_LAW | DIVINE_TIMING
| COSMIC_BALANCE | SACRED_PATTERN | SPIRITUAL_GUIDANCE | UNIVERSAL_TRUTH
| DIVINE_CREATION.

Module Principle.

Definition value (p : DivinePrinciple) : string :=
  match p with
  | DIVINE_ORDER => "divine_order"
  | INFINITE_WISDOM => "infinite_wisdom"
  | UNIVERSAL_LOVE => "universal_love"
  | NATURAL_LAW => "natural_law"
  | DIVINE_TIMING => "divine_timing"
  | COSMIC_BALANCE => "cosmic_balance"
  | SACRED_PATTERN => "sacred_pattern"
  | SPIRITUAL_GUIDANCE => "spiritual_guidance"
  | UNIVERSAL_TRUTH => "universal_truth"
  | DIVINE_CREATION => "divine_creation"
  end.

Definition eqb (a b : DivinePrinciple) : bool := String.eqb (value a) (value b).

End Principle.

Inductive DivineRevelationLevel :=
| HUMAN_UNDERSTANDING
| SPIRITUAL_INSIGHT
| DIVINE_REVELATION
| MYSTICAL_KNOWLEDGE
| COSMIC_CONSCIOUSNESS.

Module Level.

Definition members : list DivineRevelationLevel :=
  [ HUMAN_UNDERSTANDING; SPIRITUAL_INSIGHT; DIVINE_REVELATION;
    MYSTICAL_KNOWLEDGE; COSMIC_CONSCIOUSNESS ].

Definition value (l : DivineRevelationLevel) : string :=
  match l with
  | HUMAN_UNDERSTANDING => "human_understanding"
  | SPIRITUAL_INSIGHT => "spiritual_insight"
  | DIVINE_REVELATION => "divine_revelation"
  | MYSTICAL_KNOWLEDGE => "mystical_knowledge"
  | COSMIC_CONSCIOUSNESS => "cosmic_consciousness"
  end.

(** [DivineRevelationLevel(s)]: the member whose value is [s]; [None] is
    the [ValueError] of the enumeration. *)
Definition of_value (s : string) : option DivineRevelationLevel :=
  find (fun l => String.eqb (value l) s) members.

(** The position of a level in the declaration of the enumeration, which
    is the order of increasing depth. *)
Definition rank (l : DivineRevelationLevel) : nat :=
  match l with
  | HUMAN_UNDERSTANDING => 0
  | SPIRITUAL_INSIGHT => 1
  | DIVINE_REVELATION => 2
  | MYSTICAL_KNOWLEDGE => 3
  | COSMIC_CONSCIOUSNESS => 4
  end.

Definition lt (a b : DivineRevelationLevel) : Prop := rank a < rank b.

End Level.

(** ** JahWisdom *)

Record JahWisdom := {
  message : string;
  principle : DivinePrinciple;
  revelation_level : DivineRevelationLevel;
  timestamp : datetime;
  confirmation_signs : list string;
  scriptural_reference : option string;
  meditation_focus : option string
}.

Module Wisdom.

Definition encoded_message (w : JahWisdom) : string :=
  Text.take 16 (SHA256.hexdigest (message w)).

Definition to_dict (w : JahWisdom) : dict value :=
  [ ("message", VStr (message w));
    ("principle", VStr (Principle.value (principle w)));
    ("revelation_level", VStr (Level.value (revelation_level w)));
    ("timestamp", VStr (Datetime.isoformat (timestamp w)));
    ("confirmation_signs", VList (map VStr (confirmation_signs w)));
    ("scriptural_reference", Value.opt_str (scriptural_reference w));
    ("meditation_focus", Value.opt_str (meditation_focus w));
    ("encoded_message", VStr (encoded_message w)) ].

End Wisdom.

(** ** MysticalCodeOracle *)

Module MysticalCodeOracle.

Definition sacred_numbers : list (Z * string) :=
  [ (3, "Trinity - Body, Mind, Spirit");
    (7, "Divine perfection and completion");
    (12, "Divine government and perfect foundation");
    (40, "Testing, trial, probation");
    (144, "Divine government and chosen people");
    (153, "Divine election and grace");
    (666, "Warning - imperfection, falling short");
    (888, "Jesus - salvation and redemption") ]%Z.

(** [self.sacred_numbers.get(n, default)] *)
Definition sacred_number_meaning (n : Z) (default : string) : string :=
  match find (fun '(k, _) => (k =? n)%Z) sacred_numbers with
  | Some (_, m) => m
  | None => default
  end.

(** The selector: [int(md5(question.encode()).hexdigest()[:3], 16) % 1000]. *)
Definition sacred_number_of (question : string) : Z :=
  let question_hash := MD5.hexdigest question in
  (MD5.int16 (Text.take 3 question_hash) mod 1000)%Z.

Definition principle_mapping : list (string * DivinePrinciple) :=
  [ ("order", DIVINE_ORDER);
    ("wisdom", INFINITE_WISDOM);
    ("love", UNIVERSAL_LOVE);
    ("natural", NATURAL_LAW);
    ("time", DIVINE_TIMING);
    ("balance", COSMIC_BALANCE);
    ("pattern", SACRED_PATTERN);
    ("guide", SPIRITUAL_GUIDANCE);
    ("truth", UNIVERSAL_TRUTH);
    ("create", DIVINE_CREATION) ].

Definition _extract_principles (question : string) : list DivinePrinciple :=
  let question_lower := Text.lower question in
  let principles :=
    flat_map
      (fun '(keyword, principle) =>
         if Text.contains keyword question_lower then [principle] else [])
      principle_mapping in
  match principles with
  | [] => [DIVINE_ORDER]
  | _ => principles
  end.

(** [line_count % 7 == 0]: [None] is the [TypeError] of an operand that
    is no number (for a text operand [%] is the formatting operator,
    which raises unless the text is a format taking one argument;
    formats are not modelled and count as raising). *)
Definition multiple_of_7 (line_count : value) : option bool :=
  match line_count with
  | VInt z => Some (z mod 7 =? 0)%Z
  | VBool b => Some (negb b)
  | VFloat q => Some (Qeq_bool (q / 7) (inject_Z (Qfloor (q / 7))))
  | _ => None
  end.

Definition _find_divine_signs (e : env) (context : dict value)
  : option (list string) :=
  let m := minute (now e) in
  let signs1 :=
    if existsb (Nat.eqb m) [11; 22; 33]
    then ["Master number minute " ++ Text.of_Z (Z.of_nat m) ++ ": Spiritual insight"]
    else [] in
  match dict_get "line_count" context with
  | None => Some signs1
  | Some line_count =>
      match multiple_of_7 line_count with
      | None => None
      | Some true =>
          Some (app signs1
                  ["Divine perfection: " ++ Value.str line_count
                   ++ " lines (multiple of 7)"])
      | Some false => Some signs1
      end
  end.

Definition principle_messages : list (DivinePrinciple * list string) :=
  [ (DIVINE_ORDER,
     [ "All things in divine order - structure your code with purpose";
       "Divine arrangement brings clarity - organize with intention";
       "Order precedes power - structure enables function" ]);
    (INFINITE_WISDOM,
     [ "Seek wisdom from the infinite source within";
       "Divine wisdom flows through the humble coder";
       "Knowledge comes, wisdom lingers - seek deep understanding" ]);
    (UNIVERSAL_LOVE,
     [ "Code with love, for all are connected";
       "Love is the foundation of all creation - including code";
       "Let love guide every keystroke and decision" ]);
    (NATURAL_LAW,
     [ "Align with natural laws in your code design";
       "Nature's patterns are divine blueprints";
       "Code in harmony with universal principles" ]);
    (DIVINE_TIMING,
     [ "Everything in its perfect timing - patience yields perfection";
       "Divine timing brings synchronicity to your coding journey";
       "Wait on Jah - the right solution appears at the right time" ]) ].

Definition _generate_wisdom_message (e : env) (question : string)
    (principles : list DivinePrinciple) (sacred_number : Z) : string :=
  let message_base :=
    match principles with
    | [] =>
        (* the first draw of the call *)
        choice (pick1 e) ["Seek and you shall find"; "Ask and it shall be given"] ""
    | _ =>
        let principle := choice (pick1 e) principles DIVINE_ORDER in
        let messages :=
          match find (fun '(p, _) => Principle.eqb p principle) principle_messages with
          | Some (_, l) => l
          | None => ["Jah guide your path"]
          end in
        choice (pick2 e) messages ""
    end in
  let number_meaning :=
    sacred_number_meaning (sacred_number mod 100)%Z "Divine mystery" in
  message_base ++ ". Sacred number " ++ Text.of_Z sacred_number
  ++ " whispers: " ++ number_meaning.

Definition _determine_revelation_level (question : string) (context : dict value)
  : DivineRevelationLevel :=
  let question_length := String.length question in
  if Text.contains "why" (Text.lower question) && (50 <? question_length)
  then MYSTICAL_KNOWLEDGE
  else if Text.contains "how" (Text.lower question)
          && Text.contains "complex" (Text.lower (Value.str (VDict context)))
  then DIVINE_REVELATION
  else if Text.contains "what" (Text.lower question) && (30 <? question_length)
  then SPIRITUAL_INSIGHT
  else HUMAN_UNDERSTANDING.

Definition references : list (DivinePrinciple * string) :=
  [ (DIVINE_ORDER, "Genesis 1 - In the beginning");
    (INFINITE_WISDOM, "Proverbs 2:6 - For the Lord giveth wisdom");
    (UNIVERSAL_LOVE, "1 John 4:8 - God is love");
    (NATURAL_LAW, "Romans 1:20 - The invisible things of him");
    (DIVINE_TIMING, "Ecclesiastes 3:1 - To everything there is a season");
    (COSMIC_BALANCE, "Psalm 75:3 - The earth and all the inhabitants");
    (SACRED_PATTERN, "Exodus 25:40 - According to the pattern");
    (SPIRITUAL_GUIDANCE, "Psalm 32:8 - I will instruct thee and teach thee");
    (UNIVERSAL_TRUTH, "John 14:6 - I am the way, the truth, and the life");
    (DIVINE_CREATION, "Colossians 1:16 - For by him were all things created") ].

Definition _get_scriptural_reference (principles : list DivinePrinciple) : string :=
  match principles with
  | [] => "Proverbs 3:5-6 - Trust in the Lord with all thine heart"
  | p :: _ =>
      match find (fun '(k, _) => Principle.eqb k p) references with
      | Some (_, r) => r
      | None => "Psalm 23:1 - The Lord is my shepherd"
      end
  end.

(** [seek_guidance]: the wisdom returned and the new value of
    [self.revelation_history]; [None] when [_find_divine_signs] raises. *)
Definition seek_guidance (e : env) (revelation_history : list JahWisdom)
    (question : string) (context : dict value)
  : option (JahWisdom * list JahWisdom) :=
  let principles := _extract_principles question in
  match _find_divine_signs e context with
  | None => None
  | Some signs =>
      let sacred_number := sacred_number_of question in
      let number_meaning := sacred_number_meaning sacred_number "Divine mystery" in
      let wisdom_message :=
        _generate_wisdom_message e question principles sacred_number in
      let revelation_level := _determine_revelation_level question context in
      let scriptural_ref := _get_scriptural_reference principles in
      let wisdom :=
        {| message := wisdom_message;
           principle := match principles with p :: _ => p | [] => DIVINE_ORDER end;
           revelation_level := revelation_level;
           timestamp := utcnow e;
           confirmation_signs := signs;
           scriptural_reference := Some scriptural_ref;
           meditation_focus :=
             Some ("Meditate on sacred number " ++ Text.of_Z sacred_number
                   ++ ": " ++ number_meaning) |} in
      Some (wisdom, (revelation_history ++ [wisdom])%list)
  end.

End MysticalCodeOracle.

(** ** SacredCodingRitual *)

Module SacredCodingRitual.

(** A list of texts, as a value. *)
Definition strs (l : list string) : value := VList (map VStr l).

(** [context.get(key, default)] *)
Definition get_or (key : string) (default : value) (context : dict value) : value :=
  match dict_get key context with
  | Some v => v
  | None => default
  end.

Definition _interpret_sacred_time (time : datetime) : string :=
  let h := hour time in
  let m := minute time in
  let meanings1 :=
    if h =? 3 then ["Hour of spiritual awakening"]
    else if h =? 6 then ["Hour of new beginnings"]
    else if h =? 9 then ["Hour of completion"]
    else if h =? 12 then ["Hour of divine clarity"]
    else if h =? 15 then ["Hour of transformation"]
    else if h =? 18 then ["Hour of reflection"]
    else if h =? 21 then ["Hour of inspiration"]
    else if h =? 0 then ["Hour of renewal"]
    else [] in
  let meanings2 :=
    if m =? 11 then ["Master number 11: Spiritual insight"]
    else if m =? 22 then ["Master number 22: Master builder energy"]
    else if m =? 33 then ["Master number 33: Christ consciousness"]
    else [] in
  match app meanings1 meanings2 with
  | [] => "Divine moment for creation"
  | meanings => Text.join " | " meanings
  end.

Definition _morning_dedication (e : env) (context : dict value) : dict value :=
  let current_time := now e in
  [ ("ritual", VStr "morning_dedication");
    ("time", VStr (Datetime.isoformat current_time));
    ("prayer", VStr "
            Most High Jah, I dedicate this day's work to you.
            Guide my hands as I write code.
            Illuminate my mind with divine wisdom.
            Let my work serve the highest good.
            May my code bring blessing, not burden.
            Inity, love, and peace guide my every line.
            Give thanks and praise! 🙏
            ");
    ("affirmations",
     strs [ "I code with divine guidance";
            "My work serves a higher purpose";
            "Wisdom flows through me";
            "I create with love and intention";
            "My code brings positive change" ]);
    ("sacred_numbers",
     VDict [ ("hour", VInt (Z.of_nat (hour current_time)));
             ("minute", VInt (Z.of_nat (minute current_time)));
             ("meaning", VStr (_interpret_sacred_time current_time)) ]);
    ("instructions",
     strs [ "Take 3 deep breaths before starting";
            "Set positive intention for the day";
            "Give thanks for the ability to code";
            "Commit to serving through your work" ]) ].

Definition _code_blessing (e : env) (context : dict value) : dict value :=
  let module_name := get_or "module_name" (VStr "unknown") context in
  [ ("ritual", VStr "code_blessing");
    ("module", module_name);
    ("blessing_prayer",
     VStr ("
            Jah bless this code module '" ++ Value.str module_name
         ++ "'.
            May it function with divine perfection.
            May it serve with unconditional love.
            May it endure with eternal wisdom.
            May it connect with universal harmony.
            Let no bug or error corrupt its purpose.
            Let only good come from its execution.
            Blessed be this creation in Jah name. 🙏
            "));
    ("sacred_gestures",
     strs [ "Visualize light filling the code";
            "Place hands on keyboard with intention";
            "Speak blessing aloud";
            "Give thanks for successful creation" ]);
    ("protection_affirmations",
     strs [ "This code is protected by divine love";
            "Only positive energy interacts with this module";
            "Errors transform into learning opportunities";
            "This creation serves the highest good" ]) ].

Definition _debugging_meditation (e : env) (context : dict value) : dict value :=
  let issue := get_or "issue" (VStr "unknown problem") context in
  [ ("ritual", VStr "debugging_meditation");
    ("issue", issue);
    ("meditation_guidance",
     VStr ("
            Breathe deeply and center yourself.
            See the problem '" ++ Value.str issue
         ++ "' not as enemy, but as teacher.
            Ask for divine insight into the solution.
            Visualize the code flowing with perfect harmony.
            Release frustration, embrace understanding.
            Know that the solution already exists in divine mind.
            Allow it to reveal itself through you.
            "));
    ("divine_perspective",
     strs [ "Every bug is an opportunity for growth";
            "Complex problems reveal deeper patterns";
            "Patience in debugging builds spiritual strength";
            "The solution often comes when we release struggle" ]);
    ("practical_steps",
     strs [ "Step away and take 7 deep breaths";
            "Ask for divine guidance in solving";
            "Look for patterns rather than just errors";
            "Trust that the answer will come";
            "Give thanks for the learning opportunity" ]) ].

Definition _completion_thanksgiving (e : env) (context : dict value) : dict value :=
  let accomplishment := get_or "accomplishment" (VStr "coding work") context in
  [ ("ritual", VStr "completion_thanksgiving");
    ("accomplishment", accomplishment);
    ("thanksgiving_prayer",
     VStr ("
            Give thanks to the Most High!
            For completion of '" ++ Value.str accomplishment
         ++ "'.
            For wisdom received and applied.
            For challenges overcome and lessons learned.
            For the ability to create and serve.
            Jah guidance made this possible.
            All glory and honor to the Divine.
            Give thanks and praise! 🙏🌈
            "));
    ("gratitude_points",
     strs [ "Grateful for the opportunity to code";
            "Thankful for lessons learned";
            "Appreciative of challenges that made me grow";
            "Blessed to create something useful";
            "Humbled by the gift of understanding" ]);
    ("celebration_actions",
     strs [ "Take a moment to appreciate your work";
            "Share your accomplishment with community";
            "Offer help to others based on what you learned";
            "Rest and rejuvenate for next creation" ]) ].

Definition _evening_reflection (e : env) (context : dict value) : dict value :=
  [ ("ritual", VStr "evening_reflection");
    ("time", VStr (Datetime.isoformat (now e)));
    ("reflection_prayer", VStr "
            As the day ends, I reflect on my coding journey.
            I release all mistakes to divine forgiveness.
            I receive all lessons with gratitude.
            I celebrate all successes with humility.
            I prepare for rest and renewal.
            Tomorrow brings new opportunities for creation.
            Jah guide my dreams with inspiration.
            Peace and love fill my heart. 🙏
            ");
    ("review_questions",
     strs [ "What did I create today that serves others?";
            "What lesson did I learn that made me wiser?";
            "How did I contribute to community today?";
            "What will I do differently tomorrow?";
            "What am I most grateful for today?" ]);
    ("release_ritual",
     strs [ "Write down one challenge to release";
            "Breathe it out on the exhale";
            "Visualize it transforming into wisdom";
            "Give thanks for the growth it brought";
            "Set intention for peaceful rest" ]);
    ("dream_seeding",
     strs [ "Ask for divine inspiration in dreams";
            "Set intention to receive coding insights";
            "Trust that solutions come in stillness";
            "Welcome creative visions during rest" ]) ].

(** [self.ritual_steps]: the fixed registry. *)
Definition ritual_steps : dict (env -> dict value -> dict value) :=
  [ ("morning_dedication", _morning_dedication);
    ("code_blessing", _code_blessing);
    ("debugging_meditation", _debugging_meditation);
    ("completion_thanksgiving", _completion_thanksgiving);
    ("evening_reflection", _evening_reflection) ].

(** [context or {}]: an omitted ([None]) or empty context gives the
    empty mapping. *)
Definition context_or_empty (context : option (dict value)) : dict value :=
  match context with
  | None => []
  | Some [] => []
  | Some c => c
  end.

(** [perform_ritual(ritual_name, context=None)] *)
Definition perform_ritual (e : env) (ritual_name : string)
    (context : option (dict value)) : dict value :=
  match dict_get ritual_name ritual_steps with
  | None => [ ("error", VStr ("Unknown ritual: " ++ ritual_name)) ]
  | Some ritual_func => ritual_func e (context_or_empty context)
  end.

End SacredCodingRitual.

(** ** JahConsciousnessSystem *)

Module JahConsciousnessSystem.

Definition entry_to_value (g : ScripturalWisdom.entry) : value :=
  VDict [ ("wisdom", VStr (ScripturalWisdom.wisdom g));
          ("book", VStr (ScripturalWisdom.book g));
          ("application", VStr (ScripturalWisdom.application g));
          ("relevance_score", VFloat (ScripturalWisdom.relevance_score g)) ].

(** The mapping of [get_wisdom_for_situation], as a value. *)
Definition result_to_value (r : ScripturalWisdom.result) : value :=
  VDict [ ("situation", VStr (ScripturalWisdom.situation r));
          ("guidance", VList (map entry_to_value (ScripturalWisdom.guidance r)));
          ("blessing", VStr (ScripturalWisdom.blessing r));
          ("meditation", VStr (ScripturalWisdom.meditation r)) ].

(** [perform_daily_practice]: the state is [self.oracle.revelation_history];
    the result is the composite record and the new history ([None] if the
    oracle raises). *)
Definition perform_daily_practice (e : env) (revelation_history : list JahWisdom)
  : option (dict value * list JahWisdom) :=
  let morning := SacredCodingRitual.perform_ritual e "morning_dedication" None in
  let practices := [VDict morning] in
  let daily_scripture :=
    ScripturalWisdom.get_wisdom_for_situation ScripturalWisdom.init
      ("Coding work on " ++ Datetime.weekday_name (now e)) in
  match
    MysticalCodeOracle.seek_guidance e revelation_history
      "Guide my coding work today"
      [ ("day", VStr (Datetime.weekday_name (now e)));
        ("focus", VStr "service through code") ]
  with
  | None => None
  | Some (guidance, revelation_history') =>
      let evening_intent :=
        VDict
          [ ("practice", VStr "evening_intention_setting");
            ("affirmation",
             VStr "I complete this day with gratitude and prepare for divine inspiration in rest");
            ("questions",
             SacredCodingRitual.strs
               [ "How will I serve through my code today?";
                 "What wisdom do I seek today?";
                 "How will I share what I learn?" ]) ] in
      Some
        ([ ("date", VStr (Datetime.isoformat (now e)));
           ("daily_practices", VList practices);
           ("scripture", result_to_value daily_scripture);
           ("guidance", VDict (Wisdom.to_dict guidance));
           ("evening_intention", evening_intent);
           ("blessing",
            VStr "May your coding today be blessed with divine inspiration and purposeful creation 🌈🙏") ],
         revelation_history')
  end.

End JahConsciousnessSystem.

(** ** EnhancedModuleModification *)

Record EnhancedModuleModification := {
  modification_id : string;
  target_component : string;
  component_type : string;
  level : string;
  original_version : string;
  modified_version : string;
  description : string;
  rationale : string;
  author : string;
  harmony_score : option Q;
  community_impact : dict value;
  meditation_notes : list string
}.

(** ** JahConsciousARKController *)

Module Revelation.

(** One element of [revelations_received], as
    [seek_divine_coding_guidance] builds it. *)
Record t := {
  timestamp : string;
  question : string;
  guidance_received : string;
  revelation_level : string;
  principles : list string
}.

End Revelation.

Module JahConsciousARKController.

(** The mutable attributes of a controller: the history of
    [self.jah_system.oracle], [self.daily_practices] and
    [self.revelations_received]. *)
Record t := {
  jah_system : list JahWisdom;
  daily_practices : dict (dict value);
  revelations_received : list Revelation.t
}.

(** A controller after [__init__]. *)
Definition init : t :=
  {| jah_system := []; daily_practices := []; revelations_received := [] |}.


(** [self.revelations_received.append(revelation)] *)
Definition record (self : t) (revelation : Revelation.t) : t :=
  {| jah_system := jah_system self;
     daily_practices := daily_practices self;
     revelations_received := app (revelations_received self) [revelation] |}.

Definition level_scores : list (DivineRevelationLevel * Q) :=
  [ (HUMAN_UNDERSTANDING, 3 # 10);
    (SPIRITUAL_INSIGHT, 6 # 10);
    (DIVINE_REVELATION, 8 # 10);
    (MYSTICAL_KNOWLEDGE, 9 # 10);
    (COSMIC_CONSCIOUSNESS, 1) ]%Q.

(** The lookup key [revelation_level] after the [isinstance] test: a
    member of the enumeration, [None] (set by the [ValueError] handler)
    or an object that is no text. *)
Inductive level_key :=
| KMember (l : DivineRevelationLevel)
| KNone
| KObject (v : value).

(** The [revelation_level] of the [divine_wisdom] of the guidance, an
    absent mapping being empty and an absent level the empty text,
    followed by the conversion to the enumeration.  The result [None] is
    an exception: the [AttributeError] of a [divine_wisdom] that is no
    mapping. *)
Definition revelation_key (guidance : dict value) : option level_key :=
  let divine_wisdom :=
    match dict_get "divine_wisdom" guidance with
    | Some v => v
    | None => VDict []
    end in
  match divine_wisdom with
  | VDict w =>
      let revelation_level :=
        match dict_get "revelation_level" w with
        | Some v => v
        | None => VStr ""
        end in
      Some (match revelation_level with
            | VStr s =>
                match Level.of_value s with
                | Some l => KMember l
                | None => KNone
                end
            | v => KObject v
            end)
  | _ => None
  end.

(** [level_scores.get(revelation_level, 0.5)]: [None] is the [TypeError]
    of a key that cannot be hashed (a list or a mapping). *)
Definition level_scores_get (key : level_key) : option Q :=
  match key with
  | KMember l =>
      match find (fun '(k, _) => Nat.eqb (Level.rank k) (Level.rank l)) level_scores with
      | Some (_, q) => Some q
      | None => Some (5 # 10)
      end
  | KNone => Some (5 # 10)
  | KObject (VList _) | KObject (VDict _) => None
  | KObject _ => Some (5 # 10)
  end.

Definition guidance_score (guidance : dict value) : option Q :=
  match revelation_key guidance with
  | None => None
  | Some key => level_scores_get key
  end.

(** The [divine_alignment_score] of the analysis, 0.0 when absent; the
    argument is [None] when the caller passes [{}]. *)
Definition pattern_score (pattern_analysis : option DivinePatternRecognizer.analysis)
  : Q :=
  match pattern_analysis with
  | Some a => DivinePatternRecognizer.divine_alignment_score a
  | None => 0%Q
  end.

(** The value stored under [scriptural_alignment]; the argument is
    [None] when the caller passes [{}]. *)
Definition scriptural_score (scriptural_wisdom : option ScripturalWisdom.result)
  : Q :=
  match option_map ScripturalWisdom.guidance scriptural_wisdom with
  | Some ((_ :: _) as g) =>
      let relevance_scores := map ScripturalWisdom.relevance_score g in
      match relevance_scores with
      | [] => 0%Q
      | _ => (Qsum relevance_scores / Qlen relevance_scores)%Q
      end
  | _ => 5 # 10
  end.

(** [modification.harmony_score or 0.5]: [None] and [0.0] are falsy. *)
Definition vibration_score (modification : EnhancedModuleModification) : Q :=
  match harmony_score modification with
  | Some h => if Qeq_bool h 0 then 5 # 10 else h
  | None => 5 # 10
  end.

(** [_calculate_divine_alignment_score]; [None] when the lookup of the
    revelation level raises. *)
Definition _calculate_divine_alignment_score
    (modification : EnhancedModuleModification)
    (pattern_analysis : option DivinePatternRecognizer.analysis)
    (scriptural_wisdom : option ScripturalWisdom.result)
    (guidance : dict value) : option (dict Q) :=
  let scores := dict_set "pattern_alignment" (pattern_score pattern_analysis) [] in
  let scores :=
    dict_set "scriptural_alignment" (scriptural_score scriptural_wisdom) scores in
  let scores := dict_set "vibration_alignment" (vibration_score modification) scores in
  match guidance_score guidance with
  | None => None
  | Some g =>
      let scores := dict_set "guidance_alignment" g scores in
      Some
        (match scores with
         | [] => scores
         | _ =>
             dict_set "overall_divine_alignment"
               (Qsum (dict_values scores) / Qlen scores)%Q scores
         end)
  end.

(** [counts[key] = counts.get(key, 0) + 1] *)
Definition bump (counts : dict Z) (key : string) : dict Z :=
  dict_set key
    (match dict_get key counts with Some n => n | None => 0 end + 1)%Z counts.

(** [max(counts.items(), key=lambda x: x[1])]: the first item with the
    largest count; [None] is the [ValueError] of an empty sequence. *)
Definition max_item (items : dict Z) : option (string * Z) :=
  match items with
  | [] => None
  | first :: rest =>
      Some (fold_left
              (fun best item => if (snd best <? snd item)%Z then item else best)
              rest first)
  end.

(** [text[:budget]] followed by three dots if [len(text) > budget], else
    [text]. *)
Definition truncate (budget : nat) (text : string) : string :=
  if budget <? String.length text then Text.take budget text ++ "..." else text.

Definition timestamp_lt (a b : Revelation.t) : bool :=
  String.ltb (Revelation.timestamp a) (Revelation.timestamp b).

(** [get_divine_insights_report]; [None] would be an exception
    ([ZeroDivisionError]). *)
Definition get_divine_insights_report (self : t) : option (dict value) :=
  match revelations_received self with
  | [] =>
      Some [ ("message", VStr "No divine insights recorded yet");
             ("blessing", VStr "Seek and you shall find") ]
  | revelations =>
      let level_counts :=
        fold_left (fun counts r => bump counts (Revelation.revelation_level r))
          revelations [] in
      let principle_counts :=
        fold_left (fun counts r => fold_left bump (Revelation.principles r) counts)
          revelations [] in
      let most_common_level :=
        match max_item level_counts with Some m => m | None => ("none", 0%Z) end in
      let most_common_principle :=
        match max_item principle_counts with Some m => m | None => ("none", 0%Z) end in
      let recent_insights := py_take 5 (sort_desc timestamp_lt revelations) in
      match
        py_div (inject_Z (snd most_common_level)) (Qlen revelations),
        (match principle_counts with
         | [] => Some (VInt 0)
         | _ =>
             option_map VFloat
               (py_div (inject_Z (snd most_common_principle))
                  (inject_Z (fold_left Z.add (dict_values principle_counts) 0%Z)))
         end)
      with
      | Some level_percentage, Some principle_percentage =>
          Some
            [ ("total_insights", VInt (Z.of_nat (List.length revelations)));
              ("insights_by_level",
               VDict (map (fun '(k, n) => (k, VInt n)) level_counts));
              ("most_common_revelation_level",
               VDict [ ("level", VStr (fst most_common_level));
                       ("count", VInt (snd most_common_level));
                       ("percentage", VFloat level_percentage) ]);
              ("principles_applied",
               VDict (map (fun '(k, n) => (k, VInt n)) principle_counts));
              ("most_common_principle",
               VDict [ ("principle", VStr (fst most_common_principle));
                       ("count", VInt (snd most_common_principle));
                       ("percentage", principle_percentage) ]);
              ("recent_insights",
               VList
                 (map
                    (fun insight =>
                       VDict
                         [ ("time", VStr (Revelation.timestamp insight));
                           ("question", VStr (truncate 100 (Revelation.question insight)));
                           ("guidance",
                            VStr (truncate 150 (Revelation.guidance_received insight)));
                           ("level", VStr (Revelation.revelation_level insight)) ])
                    recent_insights));
              ("interpretation",
               VDict
                 [ ("high_level_insights",
                    VStr "You are receiving divine guidance regularly");
                   ("growth_opportunity",
                    VStr "Deepen meditation for higher revelation levels");
                   ("practice_suggestion",
                    VStr "Continue seeking guidance before major decisions") ]);
              ("blessing", VStr "May the flow of divine insights continue to guide and uplift your coding journey üôèüí´") ]
      | _, _ => None
      end
  end.

End JahConsciousARKController.

(** ** The daily-practice route *)

Module DivineGuidanceRouter.

Import JahConsciousARKController.


End DivineGuidanceRouter.

(** ** The random sample *)

(** [pool[j] = x] *)
Fixpoint set_nth {A} (j : nat) (x : A) (pool : list A) : list A :=
  match pool, j with
  | [], _ => []
  | _ :: rest, O => x :: rest
  | y :: rest, S j' => y :: set_nth j' x rest
  end.

(** The loop of [random.sample] on a population of at most 21 elements:
    at each round the generator gives an index below the number [m] of
    elements still in the pool, the element at that index is taken and
    the last of the [m] elements moves into its place. *)
Fixpoint sample_loop {A} (draws : list nat) (pool : list A) : list A :=
  match draws, pool with
  | draw :: draws', first :: _ =>
      let m := List.length pool in
      let j := draw mod m in
      nth j pool first
      :: sample_loop draws'
           (firstn (m - 1) (set_nth j (nth (m - 1) pool first) pool))
  | _, _ => []
  end.

(** [random.sample(population, k)], where [draws i] is the answer of the
    generator at round [i], reduced below the number of elements left;
    [None] is the [ValueError] of a sample larger than the population. *)
Definition sample {A} (draws : nat -> nat) (population : list A) (k : nat)
  : option (list A) :=
  if List.length population <? k then None
  else Some (sample_loop (map draws (seq 0 k)) population).

(** ** The code review of the oracle *)

Module MysticalCodeOracleReview.

(** The mapping of [analyze_code_for_divine_patterns], as a value. *)
Definition analysis_to_value (a : DivinePatternRecognizer.analysis) : value :=
  VDict
    [ ("sacred_patterns_found",
       VList (map VStr (DivinePatternRecognizer.sacred_patterns_found a)));
      ("divine_indicators",
       VList (map VStr (DivinePatternRecognizer.found_indicators a)));
      ("pattern_scores",
       VDict (map (fun '(k, q) => (k, VFloat q))
                (DivinePatternRecognizer.pattern_scores a)));
      ("divine_alignment_score",
       VFloat (DivinePatternRecognizer.divine_alignment_score a)) ].

(** [metrics.get(key, default)] *)
Definition metric_or (key : string) (default : Q) (metrics : dict Q) : Q :=
  match dict_get key metrics with
  | Some q => q
  | None => default
  end.

Definition _calculate_divine_metrics (code : string)
    (pattern_analysis : DivinePatternRecognizer.analysis) : dict Q :=
  let lines := Text.split_lines code in
  let metrics : dict Q :=
    match lines with
    | [] => []
    | _ =>
        let indent_levels :=
          flat_map
            (fun line =>
               if Text.truthy (Text.strip line)
               then [(Z.of_nat (String.length line)
                      - Z.of_nat (String.length (Text.lstrip line)))%Z]
               else [])
            lines in
        match indent_levels with
        | [] => []
        | _ =>
            let avg_indent :=
              (inject_Z (fold_left Z.add indent_levels 0%Z) / Qlen indent_levels)%Q in
            let variance :=
              (Qsum (map (fun i => (inject_Z i - avg_indent) ^ 2) indent_levels)
               / Qlen indent_levels)%Q in
            dict_set "order_score" (1 / (1 + variance))%Q []
        end
    end in
  let complexity := List.length (Text.split code) in
  let metrics :=
    dict_set "natural_law_score"
      (1 / (1 + inject_Z (Z.of_nat complexity) / 100))%Q metrics in
  let metrics :=
    dict_set "pattern_score"
      (DivinePatternRecognizer.divine_alignment_score pattern_analysis) metrics in
  match metrics with
  | [] => metrics
  | _ =>
      dict_set "overall_divine_alignment"
        (Qsum (dict_values metrics) / Qlen metrics)%Q metrics
  end.

Definition divine_recs : list string :=
  [ "Meditate on the purpose before coding";
    "Seek Jah's guidance for architectural decisions";
    "Code with the consciousness that all is connected";
    "Let divine timing guide your development pace";
    "Infuse each line with positive intention" ].

(** [_generate_divine_recommendations]; [draws] are the draws of its
    [random.sample]. *)
Definition _generate_divine_recommendations (draws : nat -> nat)
    (pattern_analysis : DivinePatternRecognizer.analysis) (metrics : dict Q)
  : option (list string) :=
  let recommendations :=
    if Qlt_le_dec (DivinePatternRecognizer.divine_alignment_score pattern_analysis)
         (5 # 10)
    then ["Seek more sacred patterns in your code structure"] else [] in
  let recommendations :=
    if Qlt_le_dec (metric_or "order_score" 1 metrics) (7 # 10)
    then (recommendations
          ++ ["Bring more divine order through consistent structure"])%list
    else recommendations in
  let recommendations :=
    if Qlt_le_dec (metric_or "natural_law_score" 1 metrics) (6 # 10)
    then (recommendations
          ++ ["Simplify to align with natural laws of elegance"])%list
    else recommendations in
  match sample draws divine_recs 2 with
  | None => None
  | Some general => Some (recommendations ++ general)%list
  end.

(** The mapping returned by [divine_code_review]. *)
Record review := {
  guidance : JahWisdom;
  pattern_analysis : DivinePatternRecognizer.analysis;
  scriptural_wisdom : ScripturalWisdom.result;
  divine_metrics : dict Q;
  recommendations : list string
}.

Definition review_to_dict (r : review) : dict value :=
  [ ("guidance", VDict (Wisdom.to_dict (guidance r)));
    ("pattern_analysis", analysis_to_value (pattern_analysis r));
    ("scriptural_wisdom",
     JahConsciousnessSystem.result_to_value (scriptural_wisdom r));
    ("divine_metrics",
     VDict (map (fun '(k, q) => (k, VFloat q)) (divine_metrics r)));
    ("blessing",
     VStr "May Jah guide your code with divine wisdom and perfect alignment 🙏");
    ("recommendations", VList (map VStr (recommendations r))) ].

(** [divine_code_review(code, context)]: the review and the new value of
    [self.revelation_history]; [None] when [seek_guidance] raises. *)
Definition divine_code_review (e : env) (draws : nat -> nat)
    (revelation_history : list JahWisdom) (code : string)
    (context : option (dict value))
  : option (review * list JahWisdom) :=
  let context := SacredCodingRitual.context_or_empty context in
  let pattern_analysis :=
    DivinePatternRecognizer.analyze_code_for_divine_patterns code in
  match
    MysticalCodeOracle.seek_guidance e revelation_history
      ("Code review for divine alignment: "
       ++ Value.str (SacredCodingRitual.get_or "purpose" (VStr "unknown") context))
      context
  with
  | None => None
  | Some (guidance, revelation_history') =>
      let situation_desc :=
        "Writing code with "
        ++ Value.str (SacredCodingRitual.get_or "complexity" (VStr "unknown") context)
        ++ " complexity" in
      let scriptural_wisdom :=
        ScripturalWisdom.get_wisdom_for_situation ScripturalWisdom.init
          situation_desc in
      let divine_metrics := _calculate_divine_metrics code pattern_analysis in
      match _generate_divine_recommendations draws pattern_analysis divine_metrics with
      | None => None
      | Some recommendations =>
          Some ({| guidance := guidance;
                   pattern_analysis := pattern_analysis;
                   scriptural_wisdom := scriptural_wisdom;
                   divine_metrics := divine_metrics;
                   recommendations := recommendations |},
                revelation_history')
      end
  end.

End MysticalCodeOracleReview.

(** ** The guidance of the system *)

Module DivineGuidance.

(** [any(word in text for word in words)] *)
Definition any_in (words : list string) (text : string) : bool :=
  existsb (fun word => Text.contains word text) words.

Definition _select_ritual_for_question (question : string) : string :=
  let question_lower := Text.lower question in
  if any_in ["morning"; "start"; "begin"; "new"] question_lower
  then "morning_dedication"
  else if any_in ["bless"; "consecrate"; "dedicate"] question_lower
  then "code_blessing"
  else if any_in ["problem"; "bug"; "error"; "debug"; "fix"] question_lower
  then "debugging_meditation"
  else if any_in ["complete"; "finish"; "done"; "accomplish"] question_lower
  then "completion_thanksgiving"
  else if any_in ["evening"; "end"; "reflect"; "review"] question_lower
  then "evening_reflection"
  else "code_blessing".

(** The mapping returned by [seek_divine_guidance]; [code_analysis] is
    [None] for the empty mapping, and [sacred_ritual] is the entry that
    the controller may add. *)
Record t := {
  divine_wisdom : JahWisdom;
  scriptural_guidance : ScripturalWisdom.result;
  code_analysis : option MysticalCodeOracleReview.review;
  ritual : dict value;
  sacred_ritual : option (dict value)
}.

Definition to_dict (g : t) : dict value :=
  ([ ("divine_wisdom", VDict (Wisdom.to_dict (divine_wisdom g)));
     ("scriptural_guidance",
      JahConsciousnessSystem.result_to_value (scriptural_guidance g));
     ("code_analysis",
      VDict (match code_analysis g with
             | Some r => MysticalCodeOracleReview.review_to_dict r
             | None => []
             end));
     ("ritual", VDict (ritual g));
     ("blessing",
      VStr "May Jah guide your coding with infinite wisdom and perfect timing 🙏");
     ("meditation",
      VStr "Contemplate: How does this guidance align with your soul's purpose?") ]
   ++ match sacred_ritual g with
      | Some r => [ ("sacred_ritual", VDict r) ]
      | None => []
      end)%list.

(** [seek_divine_guidance(question, code_context)]: the state is
    [self.oracle.revelation_history].  The clock and the draws of the
    question's own guidance and of the ritual are [e]; those of the code
    review are [e_review] and [draws].  [None] is an exception: of
    [seek_guidance], or the [AttributeError] of a [code] that is no
    text. *)
Definition seek_divine_guidance (e e_review : env) (draws : nat -> nat)
    (revelation_history : list JahWisdom) (question : string)
    (code_context : option (dict value))
  : option (t * list JahWisdom) :=
  let code_context := SacredCodingRitual.context_or_empty code_context in
  match MysticalCodeOracle.seek_guidance e revelation_history question code_context with
  | None => None
  | Some (wisdom, history1) =>
      let scriptural :=
        ScripturalWisdom.get_wisdom_for_situation ScripturalWisdom.init question in
      let reviewed :=
        match dict_get "code" code_context with
        | None => Some (None, history1)
        | Some (VStr code) =>
            match
              MysticalCodeOracleReview.divine_code_review e_review draws history1
                code (Some code_context)
            with
            | Some (r, history2) => Some (Some r, history2)
            | None => None
            end
        | Some _ => None
        end in
      match reviewed with
      | None => None
      | Some (code_analysis, history2) =>
          let ritual := _select_ritual_for_question question in
          let ritual_result :=
            SacredCodingRitual.perform_ritual e ritual (Some code_context) in
          Some ({| divine_wisdom := wisdom;
                   scriptural_guidance := scriptural;
                   code_analysis := code_analysis;
                   ritual := ritual_result;
                   sacred_ritual := None |},
                history2)
      end
  end.

End DivineGuidance.

(** ** The positive vibration analyzer *)

Inductive VibrationLevel := LOW | NEUTRAL | POSITIVE | IRATION.

Record RastaVibrationScore := {
  score : Q;
  vibration_level : VibrationLevel;
  affirmations : list string
}.

Module PositiveVibrationAnalyzer.

Definition positive_markers : list string :=
  ["love"; "peace"; "harmony"; "unity"; "blessing"].

Definition analyze (text : string) : RastaVibrationScore :=
  let text_lower := Text.lower text in
  let matches :=
    List.length
      (filter (fun marker => Text.contains marker text_lower) positive_markers) in
  let score := Qmin 1 ((2 # 10) + inject_Z (Z.of_nat matches) * (15 # 100)) in
  let level := if Qlt_le_dec score (5 # 10) then NEUTRAL else POSITIVE in
  let level := if Qlt_le_dec score (8 # 10) then level else IRATION in
  {| score := score;
     vibration_level := level;
     affirmations := ["Love and unity guide the code"; "Livity is the way"] |}.

End PositiveVibrationAnalyzer.

(** ** The baseline controller *)

Module EnhancedARKController.

(** [propose_enhanced_modification] *)
Definition propose_enhanced_modification (target_component modified_version
    description rationale level author : string)
    (apply_vibration_transform : bool) : EnhancedModuleModification :=
  {| modification_id := "mod_" ++ target_component;
     target_component := target_component;
     component_type := "module";
     level := level;
     original_version := "";
     modified_version := modified_version;
     description := description;
     rationale := rationale;
     author := author;
     harmony_score := if apply_vibration_transform then Some (75 # 100) else None;
     community_impact := [];
     meditation_notes := [] |}.

End EnhancedARKController.

(** [modification.add_meditation_note(note)] *)
Definition add_meditation_note (modification : EnhancedModuleModification)
    (note : string) : EnhancedModuleModification :=
  {| modification_id := modification_id modification;
     target_component := target_component modification;
     component_type := component_type modification;
     level := level modification;
     original_version := original_version modification;
     modified_version := modified_version modification;
     description := description modification;
     rationale := rationale modification;
     author := author modification;
     harmony_score := harmony_score modification;
     community_impact := community_impact modification;
     meditation_notes := (meditation_notes modification ++ [note])%list |}.

(** [modification.community_impact[key] = v] *)
Definition set_community_impact (modification : EnhancedModuleModification)
    (key : string) (v : value) : EnhancedModuleModification :=
  {| modification_id := modification_id modification;
     target_component := target_component modification;
     component_type := component_type modification;
     level := level modification;
     original_version := original_version modification;
     modified_version := modified_version modification;
     description := description modification;
     rationale := rationale modification;
     author := author modification;
     harmony_score := harmony_score modification;
     community_impact := dict_set key v (community_impact modification);
     meditation_notes := meditation_notes modification |}.

(** ** The guided operations of the controller *)

Module GuidedController.

Import JahConsciousARKController.

Definition sacred_hours : list nat := [3; 6; 9; 12; 15; 18; 21; 0].

(** [seek_divine_coding_guidance(question, code, context)]: the guidance
    and the controller afterwards.  The clock and the draws are those of
    [DivineGuidance.seek_divine_guidance]; the entries [code] and
    [sacred_timing] are written into the mapping of the caller when that
    is not empty.  The calls of the telemetry only write log lines and
    are left out. *)
Definition seek_divine_coding_guidance (e e_review : env) (draws : nat -> nat)
    (self : t) (question : string) (code : option string)
    (context : option (dict value)) : option (DivineGuidance.t * t) :=
  let guidance_context := SacredCodingRitual.context_or_empty context in
  let guidance_context :=
    match code with
    | Some c =>
        if Text.truthy c then dict_set "code" (VStr c) guidance_context
        else guidance_context
    | None => guidance_context
    end in
  let current_time := now e in
  let is_sacred_hour := existsb (Nat.eqb (hour current_time)) sacred_hours in
  let guidance_context :=
    dict_set "sacred_timing"
      (VDict [ ("hour", VInt (Z.of_nat (hour current_time)));
               ("minute", VInt (Z.of_nat (minute current_time)));
               ("second", VInt (Z.of_nat (second current_time)));
               ("is_sacred_hour", VBool is_sacred_hour) ])
      guidance_context in
  match
    DivineGuidance.seek_divine_guidance e e_review draws (jah_system self)
      question (Some guidance_context)
  with
  | None => None
  | Some (guidance, history) =>
      let divine_wisdom := DivineGuidance.divine_wisdom guidance in
      let revelation :=
        {| Revelation.timestamp := Datetime.isoformat (utcnow e);
           Revelation.question := question;
           Revelation.guidance_received := message divine_wisdom;
           Revelation.revelation_level :=
             Level.value (revelation_level divine_wisdom);
           Revelation.principles := [Principle.value (principle divine_wisdom)] |} in
      let guidance :=
        if is_sacred_hour || Text.contains "critical" (Text.lower question)
        then
          {| DivineGuidance.divine_wisdom := DivineGuidance.divine_wisdom guidance;
             DivineGuidance.scriptural_guidance :=
               DivineGuidance.scriptural_guidance guidance;
             DivineGuidance.code_analysis := DivineGuidance.code_analysis guidance;
             DivineGuidance.ritual := DivineGuidance.ritual guidance;
             DivineGuidance.sacred_ritual :=
               Some (SacredCodingRitual.perform_ritual e "code_blessing"
                       (Some [ ("module_name",
                                SacredCodingRitual.get_or "target" (VStr "code")
                                  guidance_context) ])) |}
        else guidance in
      Some (guidance,
            {| jah_system := history;
               daily_practices := daily_practices self;
               revelations_received :=
                 (revelations_received self ++ [revelation])%list |})
  end.

Definition sacred_recs : list string :=
  [ "Code with the consciousness that Jah lives in you";
    "Let each function be a prayer of service";
    "See variables as vessels of divine data";
    "View algorithms as expressions of cosmic order";
    "Let comments be wisdom teachings for others";
    "See debugging as spiritual purification";
    "View completion as divine fulfillment";
    "Let collaboration be communion in spirit" ].

(** [_generate_sacred_recommendations]; [pattern_analysis] is [None]
    when the caller passes [{}], and [draws] are the draws of its
    [random.sample]. *)
Definition _generate_sacred_recommendations (draws : nat -> nat)
    (alignment_scores : dict Q)
    (pattern_analysis : option DivinePatternRecognizer.analysis)
    (guidance : DivineGuidance.t) : option (list string) :=
  let recommendations :=
    if Qlt_le_dec
         (MysticalCodeOracleReview.metric_or "pattern_alignment" 0 alignment_scores)
         (6 # 10)
    then
      "Seek more divine patterns in code structure"
      :: (if Text.contains "fibonacci"
               (Value.str
                  (match pattern_analysis with
                   | Some a => MysticalCodeOracleReview.analysis_to_value a
                   | None => VDict []
                   end))
          then []
          else ["Consider Fibonacci sequences for natural flow"])
    else [] in
  let recommendations :=
    if Qlt_le_dec
         (MysticalCodeOracleReview.metric_or "scriptural_alignment" 0
            alignment_scores)
         (5 # 10)
    then (recommendations
          ++ ["Meditate on scriptural wisdom before coding"])%list
    else recommendations in
  let recommendations :=
    if Qlt_le_dec
         (MysticalCodeOracleReview.metric_or "vibration_alignment" 0
            alignment_scores)
         (7 # 10)
    then (recommendations
          ++ ["Elevate code vibrations through positive affirmations"])%list
    else recommendations in
  let wisdom := DivineGuidance.divine_wisdom guidance in
  let recommendations :=
    if Text.truthy (message wisdom)
    then (recommendations ++ [("Contemplate: " ++ message wisdom)%string])%list
    else recommendations in
  match sample draws sacred_recs 3 with
  | None => None
  | Some general => Some (recommendations ++ general)%list
  end.

(** [perform_sacred_code_review]: the result, the modification with its
    new meditation notes and the controller afterwards.  [draws] are the
    draws of the code review of the oracle and [sacred_draws] those of
    [_generate_sacred_recommendations]. *)
Definition perform_sacred_code_review (e e_review : env)
    (draws sacred_draws : nat -> nat) (self : t)
    (modification : EnhancedModuleModification)
    (include_divine_patterns include_scriptural_wisdom : bool)
  : option (dict value * EnhancedModuleModification * t) :=
  let pattern_analysis :=
    if include_divine_patterns
    then Some (DivinePatternRecognizer.analyze_code_for_divine_patterns
                 (modified_version modification))
    else None in
  let scriptural_wisdom :=
    if include_scriptural_wisdom
    then Some (ScripturalWisdom.get_wisdom_for_situation ScripturalWisdom.init
                 ("Code modification: " ++ description modification))
    else None in
  match
    seek_divine_coding_guidance e e_review draws self
      ("Code review for modification " ++ modification_id modification)
      (Some (modified_version modification))
      (Some [ ("modification_id", VStr (modification_id modification));
              ("description", VStr (description modification));
              ("rationale", VStr (rationale modification));
              ("author", VStr (author modification)) ])
  with
  | None => None
  | Some (guidance, self') =>
      match
        _calculate_divine_alignment_score modification pattern_analysis
          scriptural_wisdom (DivineGuidance.to_dict guidance)
      with
      | None => None
      | Some divine_alignment =>
          match
            _generate_sacred_recommendations sacred_draws divine_alignment
              pattern_analysis guidance
          with
          | None => None
          | Some sacred_recommendations =>
              let meditation :=
                if Qlt_le_dec
                     (MysticalCodeOracleReview.metric_or
                        "overall_divine_alignment" 0 divine_alignment)
                     (5 # 10)
                then
                  SacredCodingRitual.perform_ritual e "debugging_meditation"
                    (Some [ ("issue",
                             VStr ("Low divine alignment in modification "
                                   ++ modification_id modification)) ])
                else [ ("ritual", VStr "alignment_good");
                       ("message", VStr "Code is divinely aligned") ] in
              let result :=
                [ ("modification_id", VStr (modification_id modification));
                  ("divine_alignment_scores",
                   VDict (map (fun '(k, q) => (k, VFloat q)) divine_alignment));
                  ("pattern_analysis",
                   match pattern_analysis with
                   | Some a => MysticalCodeOracleReview.analysis_to_value a
                   | None => VDict []
                   end);
                  ("scriptural_wisdom",
                   match scriptural_wisdom with
                   | Some r => JahConsciousnessSystem.result_to_value r
                   | None => VDict []
                   end);
                  ("divine_guidance",
                   VDict (Wisdom.to_dict (DivineGuidance.divine_wisdom guidance)));
                  ("sacred_recommendations",
                   VList (map VStr sacred_recommendations));
                  ("meditation", VDict meditation);
                  ("blessing", VStr "May Jah's wisdom guide the refinement of this code üôè");
                  ("next_steps",
                   SacredCodingRitual.strs
                     [ "Contemplate the divine guidance received";
                       "Apply sacred recommendations with intention";
                       "Share wisdom gained with community";
                       "Give thanks for the learning opportunity" ]) ] in
              let modification :=
                fold_left
                  (fun m rec =>
                     add_meditation_note m ("Sacred Recommendation: " ++ rec))
                  (py_take 3 sacred_recommendations) modification in
              Some (result, modification, self')
          end
      end
  end.

(** [propose_divinely_guided_modification]: the modification and the
    controller afterwards; [None] is an exception, among them the
    [IndexError] of an empty list of maxims. *)
Definition propose_divinely_guided_modification (e e_review : env)
    (draws : nat -> nat) (self : t)
    (target_component modified_version description rationale level author : string)
    (seek_guidance perform_blessing : bool)
  : option (EnhancedModuleModification * t) :=
  let sought :=
    if seek_guidance
    then
      let question :=
        "Modification for " ++ target_component ++ ": " ++ description in
      match
        seek_divine_coding_guidance e e_review draws self question
          (Some modified_version)
          (Some [ ("target", VStr target_component);
                  ("purpose", VStr description);
                  ("rationale", VStr rationale);
                  ("author", VStr author) ])
      with
      | None => None
      | Some (divine_guidance, self') => Some (Some divine_guidance, self')
      end
    else Some (None, self) in
  match sought with
  | None => None
  | Some (divine_guidance, self') =>
      let rationale :=
        if perform_blessing
        then
          let blessing :=
            SacredCodingRitual.perform_ritual e "code_blessing"
              (Some [ ("module_name", VStr target_component);
                      ("code", VStr (Text.take 100 modified_version)) ]) in
          rationale ++ "

Divine Blessing: "
          ++ Value.str
               (SacredCodingRitual.get_or "blessing_prayer"
                  (VStr "Jah bless this code") blessing)
        else rationale in
      let modification :=
        EnhancedARKController.propose_enhanced_modification target_component
          modified_version description rationale level author true in
      match divine_guidance with
      | None => Some (modification, self')
      | Some divine_guidance =>
          let modification :=
            add_meditation_note modification
              ("Divine Guidance Received: "
               ++ message (DivineGuidance.divine_wisdom divine_guidance)) in
          match
            ScripturalWisdom.guidance
              (DivineGuidance.scriptural_guidance divine_guidance)
          with
          | [] => None
          | first :: _ =>
              let modification :=
                add_meditation_note modification
                  ("Scriptural Wisdom: " ++ ScripturalWisdom.wisdom first) in
              let modification :=
                set_community_impact modification "divine_analysis"
                  (match DivineGuidance.code_analysis divine_guidance with
                   | Some r =>
                       MysticalCodeOracleReview.analysis_to_value
                         (MysticalCodeOracleReview.pattern_analysis r)
                   | None => VDict []
                   end) in
              Some (modification, self')
          end
      end
  end.

End GuidedController.

(** ** The routes of the ritual and of the insights *)

Module DivineGuidanceRoutes.

Import JahConsciousARKController.

Definition valid_rituals : list string :=
  [ "morning_dedication"; "code_blessing"; "debugging_meditation";
    "completion_thanksgiving"; "evening_reflection" ].

(** [perform_sacred_ritual(ritual_name, context, current_user)]: [inl]
    is the detail of the [HTTPException] with status 400. *)
Definition perform_sacred_ritual (e : env) (ritual_name : string)
    (context : dict value) (current_user : value) : string + dict value :=
  if existsb (String.eqb ritual_name) valid_rituals
  then
    let result :=
      SacredCodingRitual.perform_ritual e ritual_name (Some context) in
    inr (dict_set "user" current_user
           (dict_set "blessing"
              (VStr "May this ritual bring divine alignment to your coding work")
              (dict_set "message"
                 (VStr ("Sacred ritual '" ++ ritual_name
                        ++ "' performed with intention ✨"))
                 result)))
  else inl ("Invalid ritual. Choose from: " ++ Text.join ", " valid_rituals).

(** [get_divine_insights_report(controller, current_user)], the route;
    [None] when the report of the controller raises. *)
Definition get_divine_insights_report (controller : t) (current_user : value)
  : option (dict value) :=
  match JahConsciousARKController.get_divine_insights_report controller with
  | None => None
  | Some report =>
      Some (dict_set "user" current_user
              (dict_set "encouragement"
                 (VStr "Continue seeking, and you shall continue finding")
                 (dict_set "message"
                    (VStr "Divine insights are blessings for your coding journey")
                    report)))
  end.

End DivineGuidanceRoutes.

(** ** The route of the sacred numbers *)

Module SacredNumbers.

Definition coding_applications : list (Z * string) :=
  [ (3, "Trinity in code: Input, Process, Output");
    (7, "Perfect modules - complete and functional");
    (12, "Complete API - well-structured interface");
    (40, "Testing period - thorough validation needed");
    (144, "Complete system - all components integrated");
    (153, "Graceful code - elegant and efficient") ]%Z.

Definition numerology_meanings : list (Z * string) :=
  [ (1, "New beginnings in code");
    (2, "Balance and partnership in development");
    (3, "Creativity and expression in coding");
    (4, "Stability and structure in systems");
    (5, "Change and adaptation in technology");
    (6, "Harmony and service in software");
    (7, "Wisdom and analysis in programming");
    (8, "Power and efficiency in code");
    (9, "Completion and fulfillment in projects");
    (11, "Inspiration and vision in architecture");
    (22, "Master building of systems");
    (33, "Christ-like service through code") ]%Z.

(** [table.get(n, default)] *)
Definition lookup (table : list (Z * string)) (n : Z) (default : string) : string :=
  match find (fun '(k, _) => (k =? n)%Z) table with
  | Some (_, m) => m
  | None => default
  end.

(** [int(digit)] for one character: [None] is the [ValueError] of a
    character that is no decimal digit. *)
Definition digit_value (c : ascii) : option Z :=
  let n := nat_of_ascii c in
  if (48 <=? n) && (n <=? 57) then Some (Z.of_nat (n - 48)) else None.

(** [sum(int(digit) for digit in str(n))] *)
Definition digit_sum (n : Z) : option Z :=
  fold_left
    (fun acc c =>
       match acc, digit_value c with
       | Some a, Some d => Some (a + d)%Z
       | _, _ => None
       end)
    (list_ascii_of_string (Text.of_Z n)) (Some 0%Z).

(** The [while] loop, for at most [fuel] rounds. *)
Fixpoint reduce (fuel : nat) (numerology : Z) : option Z :=
  if (9 <? numerology)%Z && negb (existsb (Z.eqb numerology) [11; 22; 33]%Z)
  then
    match fuel with
    | O => None
    | S fuel' =>
        match digit_sum numerology with
        | Some s => reduce fuel' s
        | None => None
        end
    end
  else Some numerology.

(** The reduced number: every round of the loop makes the number
    smaller, so as many rounds as the first digit sum are enough; [None]
    is the [ValueError] of the sign of a negative number. *)
Definition numerology_of (number : Z) : option Z :=
  match digit_sum number with
  | Some s => reduce (Z.to_nat s) s
  | None => None
  end.

(** [interpret_sacred_number(number, current_user)] *)
Definition interpret_sacred_number (number : Z) (current_user : value)
  : option (dict value) :=
  let meaning :=
    MysticalCodeOracle.sacred_number_meaning number
      "Divine mystery - pray for understanding" in
  let application :=
    lookup coding_applications number "Apply divine order to your code structure" in
  match numerology_of number with
  | None => None
  | Some numerology =>
      let numerology_meaning :=
        lookup numerology_meanings numerology "Divine guidance in your work" in
      Some
        [ ("number", VInt number);
          ("meaning", VStr meaning);
          ("coding_application", VStr application);
          ("numerology",
           VDict [ ("reduced_number", VInt numerology);
                   ("meaning", VStr numerology_meaning) ]);
          ("blessing",
           VStr ("May the sacred number " ++ Text.of_Z number
                 ++ " guide your coding with divine wisdom"));
          ("meditation",
           VStr ("Meditate on how " ++ Text.of_Z number
                 ++ " appears in your code and life"));
          ("user", current_user) ]
  end.

End SacredNumbers.

(** * Sample inputs *)

Definition sample_wisdom : dict value :=
  [ ("message", VStr "Jah guide your path");
    ("revelation_level", VStr "mystical_knowledge") ].

Definition login_context : dict value :=
  [ ("purpose", VStr "secure login"); ("complexity", VStr "medium") ].

Definition morning : env :=
  {| now := {| year := 2026; month := 11; day := 4; hour := 9; minute := 0;
               second := 5; microsecond := 120 |};
     utcnow := {| year := 2026; month := 11; day := 4; hour := 8; minute := 0;
                  second := 5; microsecond := 120 |};
     pick1 := 0;
     pick2 := 1 |}.

Definition evening : env :=
  {| now := {| year := 2026; month := 11; day := 4; hour := 18; minute := 11;
               second := 40; microsecond := 0 |};
     utcnow := {| year := 2026; month := 11; day := 4; hour := 17; minute := 11;
                  second := 40; microsecond := 0 |};
     pick1 := 2;
     pick2 := 0 |}.





Definition one_block_code : string :=
  "def bless():
    return 1".

Definition two_block_code : string :=
  "def bless():
    x = 1
    return x
def praise():
    y = 2
    z = 3
    return y".

Definition first_revelation : Revelation.t :=
  {| Revelation.timestamp := "2026-11-04T08:00:05.000120";
     Revelation.question := "How should I design this authentication system?";
     Revelation.guidance_received :=
       "Divine arrangement brings clarity - organize with intention. Sacred number 872 whispers: Divine mystery";
     Revelation.revelation_level := "divine_revelation";
     Revelation.principles := ["divine_order"] |}.

Definition second_revelation : Revelation.t :=
  {| Revelation.timestamp := "2026-11-04T17:11:40";
     Revelation.question := "Guide my coding work today";
     Revelation.guidance_received :=
       "Jah guide your path. Sacred number 110 whispers: Divine mystery";
     Revelation.revelation_level := "human_understanding";
     Revelation.principles := ["spiritual_guidance"] |}.

Definition sample_modification : EnhancedModuleModification :=
  {| modification_id := "mod_core";
     target_component := "core";
     component_type := "module";
     level := "code_optimization";
     original_version := "";
     modified_version := two_block_code;
     description := "Love and unity in the core";
     rationale := "order";
     author := "system";
     harmony_score := Some (75 # 100);
     community_impact := [];
     meditation_notes := [] |}.

Definition sample_jah_wisdom : JahWisdom :=
  {| message := "Jah guide your path. Sacred number 110 whispers: Divine mystery";
     principle := SPIRITUAL_GUIDANCE;
     revelation_level := SPIRITUAL_INSIGHT;
     timestamp := utcnow morning;
     confirmation_signs := [];
     scriptural_reference := Some "Psalm 32:8 - I will instruct thee and teach thee";
     meditation_focus := Some "Meditate on sacred number 110: Divine mystery" |}.

Definition anonymous_user : value :=
  VDict [ ("user_id", VStr "seeker_anonymous"); ("roles", VList [VStr "guest"]) ].

(** * Vocabulary of the properties *)

Definition unit_interval (x : Q) : Prop := (0 <= x <= 1)%Q.

Definition scan_ok (st : DivinePatternRecognizer.scan) : Prop :=
  Forall (fun n => 0 < n)%Z (DivinePatternRecognizer.function_lengths st)
  /\ (0 <= DivinePatternRecognizer.current_length st)%Z.


(** The context that [perform_daily_practice] hands to the oracle. *)
Definition daily_context (e : env) : dict value :=
  [ ("day", VStr (Datetime.weekday_name (now e)));
    ("focus", VStr "service through code") ].



Definition score_ge (a b : ScripturalWisdom.entry) : Prop :=
  (ScripturalWisdom.relevance_score b <= ScripturalWisdom.relevance_score a)%Q.

Definition hex_alphabet : list ascii := list_ascii_of_string "0123456789abcdef".

(** A text of [n] lower-case hexadecimal digits. *)
Definition hex_text (n : nat) (s : string) : Prop :=
  String.length s = n
  /\ Forall (fun c => In c hex_alphabet) (list_ascii_of_string s).

Definition is_byte (b : Z) : Prop := (0 <= b < 256)%Z.

(** A line that opens a block: [def] or [class] after the indentation. *)
Definition is_block_start (line : string) : bool :=
  Text.startswith (Text.strip line) "def "
  || Text.startswith (Text.strip line) "class ".

(** A non-blank line that opens no block. *)
Definition is_body_line (line : string) : bool :=
  negb (is_block_start line) && Text.truthy (Text.strip line).

Definition Zsum (l : list Z) : Z := fold_right Z.add 0%Z l.

(** What the scan has recorded after a prefix with [m] block starts and
    [b] body lines. *)
Definition scan_bounded (st : DivinePatternRecognizer.scan) (m b : nat) : Prop :=
  (0 <= DivinePatternRecognizer.current_length st)%Z
  /\ (Zsum (DivinePatternRecognizer.function_lengths st)
      + DivinePatternRecognizer.current_length st <= Z.of_nat b)%Z
  /\ (DivinePatternRecognizer.in_function st = true ->
      List.length (DivinePatternRecognizer.function_lengths st) + 1 <= m)
  /\ (DivinePatternRecognizer.in_function st = false ->
      DivinePatternRecognizer.function_lengths st = []
      /\ DivinePatternRecognizer.current_length st = 0%Z).

(** The count stored under a key, 0 when the key is absent. *)
Definition value_of (k : string) (counts : dict Z) : Z :=
  match dict_get k counts with Some n => n | None => 0%Z end.

(** The frequency table of a list of keys. *)
Definition counts_of (keys : list string) : dict Z :=
  fold_left JahConsciousARKController.bump keys [].

Definition level_counts_of (revelations : list Revelation.t) : dict Z :=
  counts_of (map Revelation.revelation_level revelations).

Definition principle_counts_of (revelations : list Revelation.t) : dict Z :=
  counts_of (flat_map Revelation.principles revelations).

(** The most common item of a table, as the report reads it. *)
Definition most_common_of (counts : dict Z) : string * Z :=
  match JahConsciousARKController.max_item counts with
  | Some m => m
  | None => ("none", 0%Z)
  end.

Definition counts_to_value (counts : dict Z) : value :=
  VDict (map (fun '(k, n) => (k, VInt n)) counts).

(** One element of [recent_insights]. *)
Definition insight_summary (insight : Revelation.t) : value :=
  VDict
    [ ("time", VStr (Revelation.timestamp insight));
      ("question",
       VStr (JahConsciousARKController.truncate 100 (Revelation.question insight)));
      ("guidance",
       VStr (JahConsciousARKController.truncate 150
               (Revelation.guidance_received insight)));
      ("level", VStr (Revelation.revelation_level insight)) ].

Definition recent_of (revelations : list Revelation.t) : list Revelation.t :=
  py_take 5 (sort_desc JahConsciousARKController.timestamp_lt revelations).


(** The [code] entry of the context that [seek_divine_coding_guidance]
    hands to the system: the code argument when it is not empty, else
    what the context of the caller holds. *)
Definition code_entry (code : option string) (context : option (dict value))
  : option value :=
  match code with
  | Some c =>
      if Text.truthy c then Some (VStr c)
      else dict_get "code" (SacredCodingRitual.context_or_empty context)
  | None => dict_get "code" (SacredCodingRitual.context_or_empty context)
  end.

(** The revelation that [seek_divine_coding_guidance] records for a
    wisdom. *)
Definition revelation_of (e : env) (question : string) (w : JahWisdom)
  : Revelation.t :=
  {| Revelation.timestamp := Datetime.isoformat (utcnow e);
     Revelation.question := question;
     Revelation.guidance_received := message w;
     Revelation.revelation_level := Level.value (revelation_level w);
     Revelation.principles := [Principle.value (principle w)] |}.

(** The sum of the digits of a decimal numeral. *)
Fixpoint usum (d : Decimal.uint) : Z :=
  match d with
  | Decimal.Nil => 0
  | Decimal.D0 d => usum d
  | Decimal.D1 d => 1 + usum d
  | Decimal.D2 d => 2 + usum d
  | Decimal.D3 d => 3 + usum d
  | Decimal.D4 d => 4 + usum d
  | Decimal.D5 d => 5 + usum d
  | Decimal.D6 d => 6 + usum d
  | Decimal.D7 d => 7 + usum d
  | Decimal.D8 d => 8 + usum d
  | Decimal.D9 d => 9 + usum d
  end%Z.

(** The loop of the numerology stops at [r]. *)
Definition reduced (r : Z) : Prop :=
  (0 <= r <= 9)%Z \/ In r [11; 22; 33]%Z.

(** * Properties *)

(** ** Shared lemmas *)

Lemma prefix_refl (s : string) : String.prefix s s = true.
Proof.
  induction s as [|c s IH]; simpl; [reflexivity|].
  destruct (ascii_dec c c) as [_|n]; [exact IH | now elim n].
Qed.

Lemma contains_refl (s : string) : Text.contains s s = true.
Proof.
  destruct s; simpl; [reflexivity|].
  change (String.prefix (String a s) (String a s) || Text.contains (String a s) s = true).
  now rewrite prefix_refl.
Qed.

Lemma contains_append (p s : string) : Text.contains s (p ++ s) = true.
Proof.
  induction p as [|c p IH]; simpl.
  - apply contains_refl.
  - rewrite IH. apply orb_true_r.
Qed.

Lemma dict_get_set_same {V} (k : string) (v : V) (d : dict V) :
  dict_get k (dict_set k v d) = Some v.
Proof.
  induction d as [|[k' v'] d IH]; simpl.
  - now rewrite String.eqb_refl.
  - destruct (String.eqb k k') eqn:E; simpl; rewrite E; [reflexivity | exact IH].
Qed.

Lemma dict_get_notin {V} (k : string) (d : dict V) :
  ~ In k (map fst d) -> dict_get k d = None.
Proof.
  induction d as [|[k' v] d IH]; simpl; intros H; [reflexivity|].
  destruct (String.eqb_spec k k') as [->|_].
  - elim H. now left.
  - apply IH. intros Hin. apply H. now right.
Qed.

(** ** The digests on their published test vectors *)

Lemma md5_test_vectors :
  MD5.hexdigest "" = "d41d8cd98f00b204e9800998ecf8427e"
  /\ MD5.hexdigest "abc" = "900150983cd24fb0d6963f7d28e17f72"
  /\ MD5.hexdigest "message digest" = "f96b697d7cb7938d525a2f31aaf161d0".
Proof. repeat split; vm_compute; reflexivity. Qed.

Lemma sha256_test_vectors :
  SHA256.hexdigest "abc"
  = "ba7816bf8f01cfea414140de5dae2223b00361a396177a9cb410ff61f20015ad"
  /\ SHA256.hexdigest ""
     = "e3b0c44298fc1c149afbf4c8996fb92427ae41e4649b934ca495991b7852b855".
Proof. repeat split; vm_compute; reflexivity. Qed.

(** ** The additive-recurrence test *)

(** C3: [_is_fibonacci_like] is false on every sequence shorter than 3;
    on a sequence of length at least 3 it is true exactly when every term
    from the third on is the sum of the two before it; it is true on
    1,1,2,3,5,8 and false on 1,1,2,4. *)
Theorem is_fibonacci_like_spec :
  (forall s : list Z,
      List.length s < 3 -> DivinePatternRecognizer._is_fibonacci_like s = false)
  /\ (forall s : list Z,
         3 <= List.length s ->
         (DivinePatternRecognizer._is_fibonacci_like s = true
          <-> forall i, 2 <= i < List.length s ->
                        nth i s 0%Z = (nth (i - 1) s 0 + nth (i - 2) s 0)%Z))
  /\ DivinePatternRecognizer._is_fibonacci_like [1; 1; 2; 3; 5; 8]%Z = true
  /\ DivinePatternRecognizer._is_fibonacci_like [1; 1; 2; 4]%Z = false.
Proof.
  unfold DivinePatternRecognizer._is_fibonacci_like.
  repeat split.
  - intros s Hs. apply Nat.ltb_lt in Hs. now rewrite Hs.
  - intros Hfib i Hi.
    destruct (Nat.ltb_spec (List.length s) 3) as [Hlt|_]; [lia|].
    rewrite forallb_forall in Hfib.
    apply Z.eqb_eq, Hfib, in_seq. lia.
  - intros Hrec.
    destruct (Nat.ltb_spec (List.length s) 3) as [Hlt|_]; [lia|].
    apply forallb_forall. intros i Hi. apply in_seq in Hi.
    apply Z.eqb_eq, Hrec. lia.
Qed.

Lemma is_fibonacci_like_spec_witness :
  DivinePatternRecognizer._is_fibonacci_like [1; 2]%Z = false
  /\ (DivinePatternRecognizer._is_fibonacci_like [2; 3; 5]%Z = true
      <-> forall i, 2 <= i < 3 ->
                    nth i [2; 3; 5]%Z 0%Z
                    = (nth (i - 1) [2; 3; 5] 0 + nth (i - 2) [2; 3; 5] 0)%Z).
Proof.
  split.
  - apply (proj1 is_fibonacci_like_spec [1; 2]%Z). simpl. lia.
  - apply (proj1 (proj2 is_fibonacci_like_spec) [2; 3; 5]%Z). simpl. lia.
Defined.

(** ** The revelation levels *)

Lemma of_value_value (l : DivineRevelationLevel) :
  Level.of_value (Level.value l) = Some l.
Proof. destruct l; reflexivity. Qed.

(** The scores mapping, key by key. *)
Lemma alignment_scores_shape m pa sw guidance :
  JahConsciousARKController._calculate_divine_alignment_score m pa sw guidance
  = match JahConsciousARKController.guidance_score guidance with
    | None => None
    | Some g =>
        let p := JahConsciousARKController.pattern_score pa in
        let s := JahConsciousARKController.scriptural_score sw in
        let v := JahConsciousARKController.vibration_score m in
        Some [ ("pattern_alignment", p);
               ("scriptural_alignment", s);
               ("vibration_alignment", v);
               ("guidance_alignment", g);
               ("overall_divine_alignment",
                (Qsum [p; s; v; g] / inject_Z 4)%Q) ]
    end.
Proof.
  unfold JahConsciousARKController._calculate_divine_alignment_score.
  destruct (JahConsciousARKController.guidance_score guidance); reflexivity.
Qed.

(** C9: the [guidance_alignment] score is read off the revelation level of
    the guidance by the table 0.3, 0.6, 0.8, 0.9, 1.0, with 0.5 for a level
    that is absent or is no member of the enumeration, and the table is
    strictly increasing along the order of the five levels. *)
Theorem guidance_alignment_mapping :
  (forall l,
      JahConsciousARKController.level_scores_get
        (JahConsciousARKController.KMember l)
      = Some (match l with
              | HUMAN_UNDERSTANDING => 3 # 10
              | SPIRITUAL_INSIGHT => 6 # 10
              | DIVINE_REVELATION => 8 # 10
              | MYSTICAL_KNOWLEDGE => 9 # 10
              | COSMIC_CONSCIOUSNESS => 1
              end)%Q)
  /\ (forall guidance w s,
         dict_get "divine_wisdom" guidance = Some (VDict w) ->
         dict_get "revelation_level" w = Some (VStr s) ->
         JahConsciousARKController.guidance_score guidance
         = match Level.of_value s with
           | Some l =>
               JahConsciousARKController.level_scores_get
                 (JahConsciousARKController.KMember l)
           | None => Some (5 # 10)
           end)
  /\ (forall guidance,
         dict_get "divine_wisdom" guidance = None ->
         JahConsciousARKController.guidance_score guidance = Some (5 # 10))
  /\ (forall guidance w,
         dict_get "divine_wisdom" guidance = Some (VDict w) ->
         dict_get "revelation_level" w = None ->
         JahConsciousARKController.guidance_score guidance = Some (5 # 10))
  /\ (forall a b qa qb,
         Level.lt a b ->
         JahConsciousARKController.level_scores_get
           (JahConsciousARKController.KMember a) = Some qa ->
         JahConsciousARKController.level_scores_get
           (JahConsciousARKController.KMember b) = Some qb ->
         (qa < qb)%Q)
  /\ (forall m pa sw guidance scores,
         JahConsciousARKController._calculate_divine_alignment_score m pa sw guidance
         = Some scores ->
         JahConsciousARKController.guidance_score guidance
         = dict_get "guidance_alignment" scores).
Proof.
  split; [intros []; reflexivity|].
  split.
  { intros guidance w s Hw Hs.
    unfold JahConsciousARKController.guidance_score,
      JahConsciousARKController.revelation_key.
    rewrite Hw, Hs. now destruct (Level.of_value s). }
  split.
  { intros guidance Hw.
    unfold JahConsciousARKController.guidance_score,
      JahConsciousARKController.revelation_key.
    now rewrite Hw. }
  split.
  { intros guidance w Hw Hs.
    unfold JahConsciousARKController.guidance_score,
      JahConsciousARKController.revelation_key.
    now rewrite Hw, Hs. }
  split.
  { intros a b qa qb Hlt Ha Hb. unfold Level.lt in Hlt.
    destruct a, b; simpl in Hlt; try lia;
      cbv in Ha, Hb; injection Ha as <-; injection Hb as <-; reflexivity. }
  intros m pa sw guidance scores H.
  rewrite alignment_scores_shape in H.
  destruct (JahConsciousARKController.guidance_score guidance); [|discriminate].
  injection H as <-. reflexivity.
Qed.

Lemma guidance_alignment_mapping_witness :
  JahConsciousARKController.guidance_score [("divine_wisdom", VDict sample_wisdom)]
  = Some (9 # 10)
  /\ JahConsciousARKController.guidance_score [("blessing", VStr "Jah bless")]
     = Some (5 # 10)
  /\ JahConsciousARKController.guidance_score
       [("divine_wisdom", VDict [("message", VStr "Jah guide your path")])]
     = Some (5 # 10)
  /\ (3 # 10 < 1)%Q
  /\ JahConsciousARKController.guidance_score [("divine_wisdom", VDict sample_wisdom)]
     = dict_get "guidance_alignment"
         [ ("pattern_alignment", 0%Q); ("scriptural_alignment", 5 # 10);
           ("vibration_alignment", 75 # 100); ("guidance_alignment", 9 # 10);
           ("overall_divine_alignment",
            (Qsum [0%Q; 5 # 10; 75 # 100; 9 # 10] / inject_Z 4)%Q) ].
Proof.
  split; [|split; [|split; [|split]]].
  - apply (proj1 (proj2 guidance_alignment_mapping)
             [("divine_wisdom", VDict sample_wisdom)] sample_wisdom
             "mystical_knowledge"); reflexivity.
  - apply (proj1 (proj2 (proj2 guidance_alignment_mapping))
             [("blessing", VStr "Jah bless")]); reflexivity.
  - apply (proj1 (proj2 (proj2 (proj2 guidance_alignment_mapping)))
             [("divine_wisdom", VDict [("message", VStr "Jah guide your path")])]
             [("message", VStr "Jah guide your path")]); reflexivity.
  - apply (proj1 (proj2 (proj2 (proj2 (proj2 guidance_alignment_mapping))))
             HUMAN_UNDERSTANDING COSMIC_CONSCIOUSNESS);
      [unfold Level.lt; simpl; lia | reflexivity | reflexivity].
  - apply (proj2 (proj2 (proj2 (proj2 (proj2 guidance_alignment_mapping))))
             sample_modification None None
             [("divine_wisdom", VDict sample_wisdom)]).
    reflexivity.
Defined.

(** [seek_guidance] returns a record whenever the context holds no
    [line_count]. *)
Lemma seek_guidance_returns e history question context :
  dict_get "line_count" context = None ->
  exists wisdom,
    MysticalCodeOracle.seek_guidance e history question context
    = Some (wisdom, (history ++ [wisdom])%list).
Proof.
  intros Hctx.
  unfold MysticalCodeOracle.seek_guidance, MysticalCodeOracle._find_divine_signs.
  rewrite Hctx. eexists. reflexivity.
Qed.

(** C10: [_determine_revelation_level] returns one of the first four
    levels, never [COSMIC_CONSCIOUSNESS]; the record that [seek_guidance]
    returns carries that level, and [seek_guidance] does return a record
    for every context without a [line_count]. *)
Theorem revelation_level_never_cosmic :
  (forall question context,
      In (MysticalCodeOracle._determine_revelation_level question context)
        [ HUMAN_UNDERSTANDING; SPIRITUAL_INSIGHT; DIVINE_REVELATION;
          MYSTICAL_KNOWLEDGE ]
      /\ MysticalCodeOracle._determine_revelation_level question context
         <> COSMIC_CONSCIOUSNESS)
  /\ (forall e history question context wisdom history',
         MysticalCodeOracle.seek_guidance e history question context
         = Some (wisdom, history') ->
         revelation_level wisdom
         = MysticalCodeOracle._determine_revelation_level question context
         /\ revelation_level wisdom <> COSMIC_CONSCIOUSNESS
         /\ history' = (history ++ [wisdom])%list)
  /\ (forall e history question context,
         dict_get "line_count" context = None ->
         exists wisdom,
           MysticalCodeOracle.seek_guidance e history question context
           = Some (wisdom, (history ++ [wisdom])%list)).
Proof.
  assert (Hlevel : forall question context,
             In (MysticalCodeOracle._determine_revelation_level question context)
               [ HUMAN_UNDERSTANDING; SPIRITUAL_INSIGHT; DIVINE_REVELATION;
                 MYSTICAL_KNOWLEDGE ]).
  { intros question context.
    unfold MysticalCodeOracle._determine_revelation_level.
    repeat match goal with
           | |- context [if ?c then _ else _] => destruct c
           end; simpl; auto. }
  assert (Hnot : forall question context,
             MysticalCodeOracle._determine_revelation_level question context
             <> COSMIC_CONSCIOUSNESS).
  { intros question context Heq.
    specialize (Hlevel question context). rewrite Heq in Hlevel.
    simpl in Hlevel. intuition discriminate. }
  split; [intros; split; auto|].
  split.
  - intros e history question context wisdom history' H.
    unfold MysticalCodeOracle.seek_guidance in H.
    destruct (MysticalCodeOracle._find_divine_signs e context); [|discriminate].
    injection H as <- <-. simpl. auto.
  - intros e history question context Hctx.
    now apply seek_guidance_returns.
Qed.

Lemma revelation_level_never_cosmic_witness :
  exists wisdom,
    MysticalCodeOracle.seek_guidance morning []
      "How should I design this authentication system?" login_context
    = Some (wisdom, ([] ++ [wisdom])%list)
    /\ revelation_level wisdom = DIVINE_REVELATION
    /\ revelation_level wisdom <> COSMIC_CONSCIOUSNESS.
Proof.
  destruct (proj2 (proj2 revelation_level_never_cosmic) morning []
              "How should I design this authentication system?" login_context
              eq_refl) as [wisdom Hw].
  exists wisdom. split; [exact Hw|].
  destruct (proj1 (proj2 revelation_level_never_cosmic) morning []
              "How should I design this authentication system?" login_context
              wisdom _ Hw) as [Hlevel [Hnot _]].
  split; [|exact Hnot].
  rewrite Hlevel. vm_compute. reflexivity.
Defined.

(** ** The selector *)

(** C4: the selector number depends on the question text alone and lies
    in [0, 1000): two calls of [seek_guidance] on the same text, whatever
    their clocks, random draws, contexts and histories, name the same
    sacred number in their meditation focus. *)
Theorem selector_is_a_function_of_the_text :
  forall question,
    (0 <= MysticalCodeOracle.sacred_number_of question < 1000)%Z
    /\ (forall e1 e2 history1 history2 context1 context2 w1 w2 h1 h2,
           MysticalCodeOracle.seek_guidance e1 history1 question context1
           = Some (w1, h1) ->
           MysticalCodeOracle.seek_guidance e2 history2 question context2
           = Some (w2, h2) ->
           meditation_focus w1 = meditation_focus w2
           /\ meditation_focus w1
              = Some ("Meditate on sacred number "
                      ++ Text.of_Z (MysticalCodeOracle.sacred_number_of question)
                      ++ ": "
                      ++ MysticalCodeOracle.sacred_number_meaning
                           (MysticalCodeOracle.sacred_number_of question)
                           "Divine mystery")).
Proof.
  intros question. split.
  - unfold MysticalCodeOracle.sacred_number_of.
    apply Z.mod_pos_bound. lia.
  - intros e1 e2 history1 history2 context1 context2 w1 w2 h1 h2 H1 H2.
    unfold MysticalCodeOracle.seek_guidance in H1, H2.
    destruct (MysticalCodeOracle._find_divine_signs e1 context1); [|discriminate].
    destruct (MysticalCodeOracle._find_divine_signs e2 context2); [|discriminate].
    injection H1 as <- _. injection H2 as <- _. split; reflexivity.
Qed.

Lemma selector_is_a_function_of_the_text_witness :
  exists w1 w2 h1 h2,
    MysticalCodeOracle.seek_guidance morning [] "Guide my coding work today" []
    = Some (w1, h1)
    /\ MysticalCodeOracle.seek_guidance evening h1 "Guide my coding work today"
         login_context
       = Some (w2, h2)
    /\ meditation_focus w1 = meditation_focus w2
    /\ MysticalCodeOracle.sacred_number_of "Guide my coding work today" = 110%Z.
Proof.
  destruct (seek_guidance_returns morning [] "Guide my coding work today" []
              eq_refl) as [w1 H1].
  destruct (seek_guidance_returns evening ([] ++ [w1])%list
              "Guide my coding work today" login_context eq_refl) as [w2 H2].
  exists w1, w2, ([] ++ [w1])%list, (([] ++ [w1]) ++ [w2])%list.
  split; [exact H1|]. split; [exact H2|]. split.
  - exact (proj1 (proj2 (selector_is_a_function_of_the_text
                           "Guide my coding work today")
                    morning evening _ _ _ _ _ _ _ _ H1 H2)).
  - vm_compute. reflexivity.
Defined.

(** ** The ritual dispatcher *)

(** C8: for a name outside the registry [perform_ritual] returns the
    record whose only field, [error], ends with the name; for a name in the
    registry and an omitted context it returns what the registered function
    returns on the empty mapping. *)
Theorem perform_ritual_unknown_and_default :
  (forall e ritual_name context,
      ~ In ritual_name (map fst SacredCodingRitual.ritual_steps) ->
      SacredCodingRitual.perform_ritual e ritual_name context
      = [("error", VStr ("Unknown ritual: " ++ ritual_name))]
      /\ exists text,
           dict_get "error" (SacredCodingRitual.perform_ritual e ritual_name context)
           = Some (VStr text)
           /\ Text.contains ritual_name text = true)
  /\ (forall e ritual_name ritual_func,
         dict_get ritual_name SacredCodingRitual.ritual_steps = Some ritual_func ->
         SacredCodingRitual.perform_ritual e ritual_name None = ritual_func e []).
Proof.
  split.
  - intros e ritual_name context Hnot.
    unfold SacredCodingRitual.perform_ritual.
    rewrite (dict_get_notin _ _ Hnot). split; [reflexivity|].
    exists ("Unknown ritual: " ++ ritual_name). split; [reflexivity|].
    apply contains_append.
  - intros e ritual_name ritual_func Hin.
    unfold SacredCodingRitual.perform_ritual. now rewrite Hin.
Qed.

Lemma perform_ritual_unknown_and_default_witness :
  SacredCodingRitual.perform_ritual morning "sunrise_chant" (Some login_context)
  = [("error", VStr "Unknown ritual: sunrise_chant")]
  /\ SacredCodingRitual.perform_ritual morning "code_blessing" None
     = SacredCodingRitual._code_blessing morning [].
Proof.
  split.
  - apply (proj1 perform_ritual_unknown_and_default morning "sunrise_chant"
             (Some login_context)).
    simpl. intros H.
    repeat (destruct H as [H|H]; [discriminate H|]). exact H.
  - apply (proj2 perform_ritual_unknown_and_default morning "code_blessing").
    reflexivity.
Defined.

(** ** Rational sums and means *)

Lemma Qlen_cons {A} (x : A) (l : list A) : (Qlen (x :: l) == Qlen l + 1)%Q.
Proof.
  unfold Qlen. simpl List.length. rewrite Nat2Z.inj_succ.
  unfold Z.succ. rewrite inject_Z_plus. reflexivity.
Qed.

Lemma Qlen_nonneg {A} (l : list A) : (0 <= Qlen l)%Q.
Proof.
  unfold Qlen. change 0%Q with (inject_Z 0). rewrite <- Zle_Qle. lia.
Qed.

Lemma Qlen_pos {A} (l : list A) : l <> [] -> (0 < Qlen l)%Q.
Proof.
  destruct l as [|x l]; [congruence|]. intros _.
  rewrite Qlen_cons. pose proof (Qlen_nonneg l). lra.
Qed.

Lemma fold_Qplus_bounds (l : list Q) :
  Forall unit_interval l ->
  forall a, (a <= fold_left Qplus l a <= a + Qlen l)%Q.
Proof.
  induction 1 as [|x l [Hx0 Hx1] _ IH]; intros a; cbn [fold_left].
  - change (Qlen (@nil Q)) with 0%Q. lra.
  - specialize (IH (a + x)%Q). rewrite Qlen_cons. lra.
Qed.

Lemma fold_Qplus_nonneg (l : list Q) :
  Forall (fun x => 0 <= x)%Q l -> forall a, (a <= fold_left Qplus l a)%Q.
Proof.
  induction 1 as [|x l Hx _ IH]; intros a; cbn [fold_left]; [lra|].
  specialize (IH (a + x)%Q). lra.
Qed.

(** The mean of a non-empty list of numbers of [0,1] is in [0,1]. *)
Lemma Qmean_unit (l : list Q) :
  l <> [] -> Forall unit_interval l -> unit_interval (Qsum l / Qlen l).
Proof.
  intros Hne Hl. pose proof (Qlen_pos l Hne) as Hpos.
  destruct (fold_Qplus_bounds l Hl 0) as [Hlo Hhi]. fold (Qsum l) in Hlo, Hhi.
  split.
  - apply Qle_shift_div_l; [exact Hpos | lra].
  - apply Qle_shift_div_r; [exact Hpos | lra].
Qed.

(** ** Retrieval of maxims *)

Lemma In_insert_desc {A} (lt : A -> A -> bool) (x y : A) (l : list A) :
  In y (insert_desc lt x l) -> y = x \/ In y l.
Proof.
  induction l as [|z l IH]; simpl.
  - intros [<-|[]]. now left.
  - destruct (lt x z); simpl.
    + intros [<-|H]; [right; now left|].
      destruct (IH H); [now left | right; now right].
    + intros [<-|H]; [now left | now right].
Qed.

Lemma In_sort_desc {A} (lt : A -> A -> bool) (y : A) (l : list A) :
  In y (sort_desc lt l) -> In y l.
Proof.
  induction l as [|x l IH]; simpl; [tauto|].
  intros H. destruct (In_insert_desc _ _ _ _ H) as [->|H']; [now left|].
  right. now apply IH.
Qed.

Lemma In_py_take {A} (n : nat) (y : A) (l : list A) : In y (py_take n l) -> In y l.
Proof. unfold py_take. revert l. induction n; intros [|x l]; simpl; intuition. Qed.

Lemma filter_length_pos {A} (f : A -> bool) (l : list A) :
  existsb f l = true -> 0 < List.length (filter f l).
Proof.
  induction l as [|x l IH]; simpl; [discriminate|].
  destruct (f x); simpl; [lia | exact IH].
Qed.

(** An entry is appended to [relevant] only with a positive score. *)
Lemma calculate_relevance_matched wisdom keywords :
  existsb (fun keyword => Text.contains keyword (Text.lower wisdom)) keywords = true ->
  (0 < ScripturalWisdom._calculate_relevance wisdom keywords <= 1)%Q.
Proof.
  intros Hex. unfold ScripturalWisdom._calculate_relevance.
  pose proof (filter_length_pos _ _ Hex) as Hpos.
  pose proof (filter_length
                (fun keyword => Text.contains keyword (Text.lower wisdom)) keywords)
    as Hle.
  set (matches := List.length (filter _ keywords)) in *.
  destruct keywords as [|k ks]; [discriminate|].
  assert (Hlen : (0 < Qlen (k :: ks))%Q) by (apply Qlen_pos; congruence).
  split.
  - apply Qlt_shift_div_l; [exact Hlen|].
    rewrite Qmult_0_l. change 0%Q with (inject_Z 0). rewrite <- Zlt_Qlt. lia.
  - apply Qle_shift_div_r; [exact Hlen|].
    rewrite Qmult_1_l. unfold Qlen. rewrite <- Zle_Qle. lia.
Qed.

Lemma relevant_entries_scores self keywords g :
  In g (ScripturalWisdom.relevant_entries self keywords) ->
  (0 < ScripturalWisdom.relevance_score g <= 1)%Q.
Proof.
  unfold ScripturalWisdom.relevant_entries. intros H.
  apply in_flat_map in H. destruct H as [[book wisdoms] [_ H]].
  apply in_flat_map in H. destruct H as [wisdom [_ H]].
  destruct (existsb _ keywords) eqn:Hex; [|contradiction].
  destruct H as [<-|[]]. simpl. now apply calculate_relevance_matched.
Qed.

Lemma guidance_scores self situation g :
  In g (ScripturalWisdom.guidance
          (ScripturalWisdom.get_wisdom_for_situation self situation)) ->
  (0 < ScripturalWisdom.relevance_score g <= 1)%Q.
Proof.
  unfold ScripturalWisdom.get_wisdom_for_situation.
  cbn [ScripturalWisdom.guidance]. intros H.
  apply (relevant_entries_scores self (Text.split (Text.lower situation))).
  apply (In_sort_desc ScripturalWisdom.score_lt).
  destruct (sort_desc _ _) eqn:E; [contradiction|].
  now apply In_py_take in H.
Qed.

Lemma relevant_entries_nil self : ScripturalWisdom.relevant_entries self [] = [].
Proof.
  unfold ScripturalWisdom.relevant_entries.
  induction (ScripturalWisdom.wisdom_database self) as [|[book wisdoms] db IH];
    cbn [flat_map]; [reflexivity|].
  rewrite IH, app_nil_r.
  induction wisdoms as [|w ws IHw]; cbn [flat_map existsb app];
    [reflexivity | exact IHw].
Qed.

(** C5, as the code has it: when the query has no keyword (an empty or
    blank situation) the guidance list is empty, whatever the corpus: a
    maxim is a candidate only if a keyword occurs in it.
    [_calculate_relevance] is 0 on an empty keyword list, and every entry
    that is returned has a positive score. *)
Theorem empty_query_has_no_guidance :
  (forall self situation,
      Text.split (Text.lower situation) = [] ->
      ScripturalWisdom.guidance
        (ScripturalWisdom.get_wisdom_for_situation self situation) = [])
  /\ (forall wisdom, ScripturalWisdom._calculate_relevance wisdom [] = 0%Q)
  /\ (forall self situation g,
         In g (ScripturalWisdom.guidance
                 (ScripturalWisdom.get_wisdom_for_situation self situation)) ->
         (0 < ScripturalWisdom.relevance_score g)%Q).
Proof.
  split; [|split].
  - intros self situation Hkw.
    unfold ScripturalWisdom.get_wisdom_for_situation.
    cbn [ScripturalWisdom.guidance].
    rewrite Hkw, relevant_entries_nil. reflexivity.
  - reflexivity.
  - intros self situation g H. now apply (guidance_scores self situation g).
Qed.

Lemma empty_query_has_no_guidance_witness :
  ScripturalWisdom.guidance
    (ScripturalWisdom.get_wisdom_for_situation ScripturalWisdom.init "   ") = []
  /\ exists g,
       In g (ScripturalWisdom.guidance
               (ScripturalWisdom.get_wisdom_for_situation ScripturalWisdom.init
                  "love and unity"))
       /\ ScripturalWisdom.wisdom g = "Love and unity is the key"
       /\ (0 < ScripturalWisdom.relevance_score g)%Q.
Proof.
  split.
  - apply (proj1 empty_query_has_no_guidance ScripturalWisdom.init "   ").
    reflexivity.
  - eexists. split; [vm_compute; left; reflexivity|].
    split; [reflexivity|].
    apply (proj2 (proj2 empty_query_has_no_guidance) ScripturalWisdom.init
             "love and unity").
    vm_compute. left. reflexivity.
Defined.

(** C5 as stated fails: on the corpus of the engine (30 maxims) and the
    empty situation the keyword list is empty and the guidance list holds
    no entry, not [min 3 30 = 3]. *)
Lemma empty_query_counterexample :
  ScripturalWisdom.corpus_size ScripturalWisdom.init = 30
  /\ Text.split (Text.lower "") = []
  /\ ScripturalWisdom.guidance
       (ScripturalWisdom.get_wisdom_for_situation ScripturalWisdom.init "") = []
  /\ List.length
       (ScripturalWisdom.guidance
          (ScripturalWisdom.get_wisdom_for_situation ScripturalWisdom.init ""))
     <> Nat.min 3 (ScripturalWisdom.corpus_size ScripturalWisdom.init).
Proof.
  split; [vm_compute; reflexivity|].
  split; [vm_compute; reflexivity|].
  split; [vm_compute; reflexivity|].
  vm_compute. discriminate.
Qed.

(** ** The structural pattern analyzer *)

Lemma split_lines_nonempty (s : string) : Text.split_lines s <> [].
Proof.
  induction s as [|c s IH]; simpl; [discriminate|].
  destruct (Ascii.eqb c "010"%char); [discriminate|].
  destruct (Text.split_lines s); discriminate.
Qed.

(** The [pattern_scores] mapping of an analysis: the indentation entry,
    if any, then the block-length entry, if a block length was recorded. *)
Lemma pattern_scores_analyze (code : string) :
  DivinePatternRecognizer.pattern_scores
    (DivinePatternRecognizer.analyze_code_for_divine_patterns code)
  = let scores1 : dict Q :=
      if DivinePatternRecognizer._is_fibonacci_like
           (DivinePatternRecognizer._analyze_indentation_pattern
              (Text.split_lines code))
      then [("fibonacci_indentation", 8 # 10)] else [] in
    match DivinePatternRecognizer._extract_function_lengths code with
    | [] => scores1
    | lengths =>
        dict_set "golden_ratio_alignment"
          (DivinePatternRecognizer._calculate_golden_ratio_alignment lengths)
          scores1
    end.
Proof.
  unfold DivinePatternRecognizer.analyze_code_for_divine_patterns.
  cbn [DivinePatternRecognizer.pattern_scores].
  pose proof (split_lines_nonempty code) as Hne.
  destruct (Text.split_lines code) as [|line lines] eqn:E; [congruence|].
  destruct (DivinePatternRecognizer._is_fibonacci_like _);
    destruct (DivinePatternRecognizer._extract_function_lengths code);
    reflexivity.
Qed.

Lemma scan_line_ok st line :
  scan_ok st -> scan_ok (DivinePatternRecognizer.scan_line st line).
Proof.
  intros [Hfl Hcur]. unfold DivinePatternRecognizer.scan_line.
  destruct (_ || _).
  - split; cbn; [|lia].
    destruct (DivinePatternRecognizer.in_function st); cbn; [|exact Hfl].
    destruct (Z.ltb_spec 0 (DivinePatternRecognizer.current_length st));
      [|exact Hfl].
    apply Forall_app. split; [exact Hfl|]. now constructor.
  - destruct (_ && _); [|now split].
    split; cbn; [exact Hfl | lia].
Qed.

(** Every recorded block length is positive. *)
Lemma extract_function_lengths_positive (code : string) :
  Forall (fun n => 0 < n)%Z (DivinePatternRecognizer._extract_function_lengths code).
Proof.
  unfold DivinePatternRecognizer._extract_function_lengths.
  set (st0 := {| DivinePatternRecognizer.in_function := false;
                 DivinePatternRecognizer.function_lengths := [];
                 DivinePatternRecognizer.current_length := 0 |}).
  assert (H0 : scan_ok st0) by (split; [constructor | cbn; lia]).
  assert (H : scan_ok (fold_left DivinePatternRecognizer.scan_line
                         (Text.split_lines code) st0)).
  { revert H0. generalize st0.
    induction (Text.split_lines code) as [|line lines IH]; intros st Hst;
      cbn [fold_left]; [exact Hst|].
    apply IH. now apply scan_line_ok. }
  destruct H as [Hfl Hcur].
  destruct (DivinePatternRecognizer.in_function _); cbn; [|exact Hfl].
  destruct (Z.ltb_spec 0 (DivinePatternRecognizer.current_length
                            (fold_left DivinePatternRecognizer.scan_line
                               (Text.split_lines code) st0))); [|exact Hfl].
  apply Forall_app. split; [exact Hfl|]. now constructor.
Qed.

Lemma flat_map_singletons {A B} (f : A -> list B) (g : A -> B) (l : list A) :
  (forall x, In x l -> f x = [g x]) -> flat_map f l = map g l.
Proof.
  induction l as [|x l IH]; intros H; cbn [flat_map map]; [reflexivity|].
  rewrite (H x (or_introl eq_refl)), IH; [reflexivity|].
  intros y Hy. apply H. now right.
Qed.

(** With positive lengths no ratio is skipped. *)
Lemma ratios_of_positive (lengths : list Z) :
  Forall (fun n => 0 < n)%Z lengths ->
  DivinePatternRecognizer.ratios_of lengths
  = map (fun i => (inject_Z (nth i lengths 0%Z)
                   / inject_Z (nth (i - 1) lengths 0%Z))%Q)
      (seq 1 (List.length lengths - 1)).
Proof.
  intros Hpos. unfold DivinePatternRecognizer.ratios_of.
  apply flat_map_singletons. intros i Hi. apply in_seq in Hi.
  rewrite Forall_forall in Hpos.
  assert (Hprev : (0 < nth (i - 1) lengths 0)%Z)
    by (apply Hpos, nth_In; lia).
  apply Z.ltb_lt in Hprev. now rewrite Hprev.
Qed.

Lemma golden_ratio_alignment_unit (lengths : list Z) :
  unit_interval (DivinePatternRecognizer._calculate_golden_ratio_alignment lengths).
Proof.
  unfold DivinePatternRecognizer._calculate_golden_ratio_alignment, unit_interval.
  destruct (List.length lengths <? 2); [lra|].
  destruct (DivinePatternRecognizer.ratios_of lengths) as [|r ratios]; [lra|].
  set (deviations := map _ (r :: ratios)).
  assert (Havg : (0 <= Qsum deviations / Qlen deviations)%Q).
  { apply Qle_shift_div_l; [apply Qlen_pos; discriminate|].
    rewrite Qmult_0_l. apply (fold_Qplus_nonneg deviations).
    apply Forall_forall. intros d Hd. apply in_map_iff in Hd.
    destruct Hd as [x [<- _]]. apply Qabs_nonneg. }
  split; [|apply Q.le_min_l].
  apply Q.min_glb; [lra|].
  apply Qle_shift_div_l; lra.
Qed.

(** C6, as the code has it: the block-length score is absent from
    [pattern_scores] only when no block length was recorded; with exactly
    one block length it is present and equal to 0; with two or more it is
    1 / (1 + mean of |ratio - 1.61803398875|) over the consecutive ratios,
    clamped to at most 1. *)
Theorem golden_ratio_score_spec :
  DivinePatternRecognizer.golden_ratio = 161803398875 # 100000000000
  /\ forall code,
      let lengths := DivinePatternRecognizer._extract_function_lengths code in
      let scores :=
        DivinePatternRecognizer.pattern_scores
          (DivinePatternRecognizer.analyze_code_for_divine_patterns code) in
      (lengths = [] -> dict_get "golden_ratio_alignment" scores = None)
      /\ (List.length lengths = 1 ->
          dict_get "golden_ratio_alignment" scores = Some 0%Q)
      /\ (2 <= List.length lengths ->
          let ratios :=
            map (fun i => (inject_Z (nth i lengths 0%Z)
                           / inject_Z (nth (i - 1) lengths 0%Z))%Q)
              (seq 1 (List.length lengths - 1)) in
          let deviations :=
            map (fun ratio => Qabs (ratio - DivinePatternRecognizer.golden_ratio))
              ratios in
          dict_get "golden_ratio_alignment" scores
          = Some (Qmin 1 (1 / (1 + Qsum deviations / Qlen deviations))))
      /\ (forall score,
            dict_get "golden_ratio_alignment" scores = Some score ->
            (0 <= score <= 1)%Q).
Proof.
  split; [reflexivity|]. intros code.
  pose proof (extract_function_lengths_positive code) as Hpos.
  cbv zeta. rewrite pattern_scores_analyze. cbv zeta.
  set (scores1 := if DivinePatternRecognizer._is_fibonacci_like _ then _ else _).
  assert (H1 : dict_get "golden_ratio_alignment" scores1 = None)
    by (subst scores1; destruct (DivinePatternRecognizer._is_fibonacci_like _);
        reflexivity).
  clearbody scores1.
  generalize dependent (DivinePatternRecognizer._extract_function_lengths code).
  intros lengths Hpos.
  split; [|split; [|split]].
  - intros ->. exact H1.
  - intros Hlen. destruct lengths as [|x [|y l]]; try discriminate.
    now rewrite dict_get_set_same.
  - intros Hlen.
    destruct lengths as [|x [|y l]]; cbn in Hlen; try lia.
    rewrite dict_get_set_same. f_equal.
    unfold DivinePatternRecognizer._calculate_golden_ratio_alignment.
    rewrite (ratios_of_positive _ Hpos).
    change (List.length (x :: y :: l) <? 2) with false.
    reflexivity.
  - intros score Hscore.
    destruct lengths as [|x l]; [congruence|].
    rewrite dict_get_set_same in Hscore. injection Hscore as <-.
    apply golden_ratio_alignment_unit.
Qed.

Lemma golden_ratio_score_spec_witness :
  dict_get "golden_ratio_alignment"
    (DivinePatternRecognizer.pattern_scores
       (DivinePatternRecognizer.analyze_code_for_divine_patterns one_block_code))
  = Some 0%Q
  /\ dict_get "golden_ratio_alignment"
       (DivinePatternRecognizer.pattern_scores
          (DivinePatternRecognizer.analyze_code_for_divine_patterns ""))
     = None
  /\ dict_get "golden_ratio_alignment"
       (DivinePatternRecognizer.pattern_scores
          (DivinePatternRecognizer.analyze_code_for_divine_patterns two_block_code))
     = Some (Qmin 1
               (1 / (1 + Qsum [Qabs (inject_Z 3 / inject_Z 2
                                     - DivinePatternRecognizer.golden_ratio)]
                         / Qlen [Qabs (inject_Z 3 / inject_Z 2
                                       - DivinePatternRecognizer.golden_ratio)])))
  /\ (0 <= 0 <= 1)%Q.
Proof.
  split; [|split; [|split]].
  - apply (proj1 (proj2 (proj2 golden_ratio_score_spec one_block_code))).
    reflexivity.
  - apply (proj1 (proj2 golden_ratio_score_spec "")). reflexivity.
  - apply (proj1 (proj2 (proj2 (proj2 golden_ratio_score_spec two_block_code)))).
    vm_compute. apply le_n.
  - apply (proj2 (proj2 (proj2 (proj2 golden_ratio_score_spec one_block_code)))).
    reflexivity.
Defined.

(** C6 as stated fails: a text with one block records one block length,
    fewer than 2, and the block-length score is present, with value 0. *)
Lemma golden_ratio_counterexample :
  DivinePatternRecognizer._extract_function_lengths one_block_code = [1%Z]
  /\ dict_get "golden_ratio_alignment"
       (DivinePatternRecognizer.pattern_scores
          (DivinePatternRecognizer.analyze_code_for_divine_patterns one_block_code))
     <> None.
Proof.
  split; [vm_compute; reflexivity|]. vm_compute. discriminate.
Qed.

(** ** The history store and the insight report *)

Lemma py_div_pos (a b : Q) : (0 < b)%Q -> py_div a b = Some (a / b)%Q.
Proof.
  intros Hb. unfold py_div.
  destruct (Qeq_bool b 0) eqn:E; [|reflexivity].
  apply Qeq_bool_eq in E. lra.
Qed.

Lemma dict_get_In {V} (k : string) (v : V) (d : dict V) :
  dict_get k d = Some v -> In v (dict_values d).
Proof.
  induction d as [|[k' v'] d IH]; cbn; [discriminate|].
  destruct (String.eqb k k'); [intros [= ->]; now left | intros H; right; auto].
Qed.

Lemma dict_set_values {V} (P : V -> Prop) (k : string) (v : V) (d : dict V) :
  Forall P (dict_values d) -> P v -> Forall P (dict_values (dict_set k v d)).
Proof.
  intros Hd Hv. induction d as [|[k' v'] d IH]; cbn.
  - now repeat constructor.
  - inversion Hd as [|? ? Hv' Hd']; subst.
    destruct (String.eqb k k'); cbn; constructor; auto.
Qed.

(** Every count of a frequency table is at least 1. *)
Lemma bump_counts (counts : dict Z) (key : string) :
  Forall (fun n => 1 <= n)%Z (dict_values counts) ->
  Forall (fun n => 1 <= n)%Z
    (dict_values (JahConsciousARKController.bump counts key)).
Proof.
  intros H. unfold JahConsciousARKController.bump.
  apply dict_set_values; [exact H|].
  destruct (dict_get key counts) as [n|] eqn:E; [|lia].
  apply dict_get_In in E. rewrite Forall_forall in H. specialize (H n E). lia.
Qed.

Lemma principle_counts_positive (revelations : list Revelation.t) :
  forall counts,
    Forall (fun n => 1 <= n)%Z (dict_values counts) ->
    Forall (fun n => 1 <= n)%Z
      (dict_values
         (fold_left
            (fun counts r =>
               fold_left JahConsciousARKController.bump (Revelation.principles r)
                 counts)
            revelations counts)).
Proof.
  induction revelations as [|r revelations IH]; intros counts H;
    cbn [fold_left]; [exact H|].
  apply IH. revert counts H.
  induction (Revelation.principles r) as [|p ps IHp]; intros counts H;
    cbn [fold_left]; [exact H|].
  apply IHp. now apply bump_counts.
Qed.

Lemma sum_counts_positive (l : list Z) :
  Forall (fun n => 1 <= n)%Z l ->
  forall a, (a + Z.of_nat (List.length l) <= fold_left Z.add l a)%Z.
Proof.
  induction 1 as [|x l Hx _ IH]; intros a; cbn [fold_left List.length]; [lia|].
  specialize (IH (a + x)%Z). lia.
Qed.

(** N calls of [record] on a new controller store N records. *)
Lemma record_all (revelations : list Revelation.t) :
  forall self,
    JahConsciousARKController.revelations_received
      (fold_left JahConsciousARKController.record revelations self)
    = (JahConsciousARKController.revelations_received self ++ revelations)%list.
Proof.
  induction revelations as [|r revelations IH]; intros self; cbn [fold_left].
  - now rewrite app_nil_r.
  - rewrite IH. cbn. now rewrite <- app_assoc.
Qed.

(** C7: [get_divine_insights_report] always returns a report; on an empty
    store it is the fixed two-field payload; after N >= 1 records its
    [total_insights] is N. *)
Theorem insights_report_total :
  (forall self,
      exists report,
        JahConsciousARKController.get_divine_insights_report self = Some report
        /\ (JahConsciousARKController.revelations_received self = [] ->
            report = [ ("message", VStr "No divine insights recorded yet");
                       ("blessing", VStr "Seek and you shall find") ])
        /\ (JahConsciousARKController.revelations_received self <> [] ->
            dict_get "total_insights" report
            = Some (VInt (Z.of_nat
                            (List.length
                               (JahConsciousARKController.revelations_received self))))))
  /\ (forall revelations,
         JahConsciousARKController.revelations_received
           (fold_left JahConsciousARKController.record revelations
              JahConsciousARKController.init)
         = revelations).
Proof.
  split; [|intros revelations; now rewrite record_all].
  intros self. unfold JahConsciousARKController.get_divine_insights_report.
  destruct (JahConsciousARKController.revelations_received self)
    as [|r revelations] eqn:E.
  { eexists. split; [reflexivity|]. split; [reflexivity | congruence]. }
  set (revs := r :: revelations).
  rewrite (py_div_pos _ (Qlen revs)) by (apply Qlen_pos; discriminate).
  pose proof (principle_counts_positive revs [] (Forall_nil _)) as Hpos.
  set (principle_counts :=
         fold_left
           (fun counts r0 =>
              fold_left JahConsciousARKController.bump (Revelation.principles r0)
                counts)
           revs []) in *.
  clearbody principle_counts.
  destruct principle_counts as [|pc pcs].
  { eexists. split; [reflexivity|].
    split; [intros H; discriminate H | reflexivity]. }
  rewrite py_div_pos.
  { eexists. split; [reflexivity|].
    split; [intros H; discriminate H | reflexivity]. }
  pose proof (sum_counts_positive _ Hpos 0%Z) as Hsum.
  change 0%Q with (inject_Z 0). rewrite <- Zlt_Qlt.
  cbn [List.length dict_values map] in Hsum |- *. lia.
Qed.

Lemma insights_report_total_witness :
  (exists report,
      JahConsciousARKController.get_divine_insights_report
        (fold_left JahConsciousARKController.record
           [first_revelation; second_revelation] JahConsciousARKController.init)
      = Some report
      /\ dict_get "total_insights" report = Some (VInt 2))
  /\ (exists report,
         JahConsciousARKController.get_divine_insights_report
           JahConsciousARKController.init
         = Some report
         /\ report = [ ("message", VStr "No divine insights recorded yet");
                       ("blessing", VStr "Seek and you shall find") ]).
Proof.
  split.
  - destruct (proj1 insights_report_total
                (fold_left JahConsciousARKController.record
                   [first_revelation; second_revelation]
                   JahConsciousARKController.init))
      as [report [Hreport [_ Htotal]]].
    exists report. split; [exact Hreport|].
    apply Htotal. discriminate.
  - destruct (proj1 insights_report_total JahConsciousARKController.init)
      as [report [Hreport [Hempty _]]].
    exists report. split; [exact Hreport|].
    apply Hempty. reflexivity.
Defined.

(** ** The alignment aggregator *)

Lemma Qlen_values {V} (d : dict V) : Qlen (dict_values d) = Qlen d.
Proof. unfold Qlen, dict_values. now rewrite length_map. Qed.

Lemma pattern_score_unit (code : option string) :
  unit_interval
    (JahConsciousARKController.pattern_score
       (option_map DivinePatternRecognizer.analyze_code_for_divine_patterns code)).
Proof.
  destruct code as [code|]; cbn [option_map JahConsciousARKController.pattern_score];
    [|unfold unit_interval; lra].
  assert (Hscore :
            DivinePatternRecognizer.divine_alignment_score
              (DivinePatternRecognizer.analyze_code_for_divine_patterns code)
            = match DivinePatternRecognizer.pattern_scores
                      (DivinePatternRecognizer.analyze_code_for_divine_patterns code)
              with
              | [] => 0%Q
              | _ :: _ =>
                  (Qsum (dict_values
                           (DivinePatternRecognizer.pattern_scores
                              (DivinePatternRecognizer.analyze_code_for_divine_patterns
                                 code)))
                   / Qlen (DivinePatternRecognizer.pattern_scores
                             (DivinePatternRecognizer.analyze_code_for_divine_patterns
                                code)))%Q
              end) by reflexivity.
  rewrite Hscore. clear Hscore.
  assert (Hall : Forall unit_interval
                   (dict_values
                      (DivinePatternRecognizer.pattern_scores
                         (DivinePatternRecognizer.analyze_code_for_divine_patterns
                            code)))).
  { rewrite pattern_scores_analyze. cbv zeta.
    set (scores1 := if DivinePatternRecognizer._is_fibonacci_like _ then _ else _).
    assert (H1 : Forall unit_interval (dict_values scores1)).
    { subst scores1. destruct (DivinePatternRecognizer._is_fibonacci_like _);
        repeat constructor; cbn; lra. }
    destruct (DivinePatternRecognizer._extract_function_lengths code); [exact H1|].
    apply dict_set_values; [exact H1 | apply golden_ratio_alignment_unit]. }
  destruct (DivinePatternRecognizer.pattern_scores _) as [|kv scores] eqn:E;
    [unfold unit_interval; lra|].
  rewrite <- Qlen_values. apply Qmean_unit; [discriminate | exact Hall].
Qed.





(** The guidance that the engine produces carries a serialized wisdom
    record, and its level is always found. *)
Lemma guidance_score_of_wisdom guidance (w : JahWisdom) :
  dict_get "divine_wisdom" guidance = Some (VDict (Wisdom.to_dict w)) ->
  JahConsciousARKController.guidance_score guidance
  = JahConsciousARKController.level_scores_get
      (JahConsciousARKController.KMember (revelation_level w)).
Proof.
  intros H.
  unfold JahConsciousARKController.guidance_score,
    JahConsciousARKController.revelation_key.
  rewrite H.
  change (dict_get "revelation_level" (Wisdom.to_dict w))
    with (Some (VStr (Level.value (revelation_level w)))).
  cbv beta iota zeta. now rewrite of_value_value.
Qed.



(** ** The daily practice *)

(** [perform_daily_practice] performs the morning ritual and asks the
    oracle once; its record is never empty. *)
Lemma perform_daily_practice_returns (e : env) (history : list JahWisdom) :
  exists practice wisdom,
    JahConsciousnessSystem.perform_daily_practice e history
    = Some (practice, (history ++ [wisdom])%list)
    /\ MysticalCodeOracle.seek_guidance e history "Guide my coding work today"
         (daily_context e)
       = Some (wisdom, (history ++ [wisdom])%list)
    /\ dict_get "daily_practices" practice
       = Some (VList [VDict (SacredCodingRitual._morning_dedication e [])])
    /\ dict_get "guidance" practice = Some (VDict (Wisdom.to_dict wisdom))
    /\ practice <> [].
Proof.
  destruct (seek_guidance_returns e history "Guide my coding work today"
              (daily_context e) eq_refl) as [wisdom Hw].
  unfold JahConsciousnessSystem.perform_daily_practice.
  fold (daily_context e). rewrite Hw.
  eexists. exists wisdom.
  split; [reflexivity|]. split; [reflexivity|].
  split; [reflexivity|]. split; [reflexivity | discriminate].
Qed.





(** * Further properties of the engine *)

(** ** The stable descending sort *)

Section SortDesc.

Context {A : Type} (lt : A -> A -> bool) (ge : A -> A -> Prop).

Hypothesis ge_trans : forall a b c, ge a b -> ge b c -> ge a c.
Hypothesis lt_true : forall a b, lt a b = true -> ge b a.
Hypothesis lt_false : forall a b, lt a b = false -> ge a b.

Lemma insert_desc_perm (x : A) (l : list A) :
  Permutation (insert_desc lt x l) (x :: l).
Proof.
  induction l as [|y l IH]; cbn [insert_desc]; [reflexivity|].
  destruct (lt x y); [|reflexivity].
  rewrite IH. apply perm_swap.
Qed.

Lemma sort_desc_perm (l : list A) : Permutation (sort_desc lt l) l.
Proof.
  induction l as [|x l IH]; cbn [sort_desc fold_right]; [reflexivity|].
  fold (sort_desc lt l). rewrite insert_desc_perm. now constructor.
Qed.

Lemma insert_desc_sorted (x : A) (l : list A) :
  StronglySorted ge l -> StronglySorted ge (insert_desc lt x l).
Proof.
  induction 1 as [|y l Hl IH Hy]; cbn [insert_desc].
  - repeat constructor.
  - destruct (lt x y) eqn:E.
    + constructor; [exact IH|].
      apply Forall_forall. intros z Hz.
      apply (Permutation_in _ (insert_desc_perm x l)) in Hz.
      destruct Hz as [<-|Hz]; [now apply lt_true|].
      rewrite Forall_forall in Hy. now apply Hy.
    + constructor; [now constructor|].
      constructor; [now apply lt_false|].
      apply Forall_forall. intros z Hz. rewrite Forall_forall in Hy.
      apply (ge_trans x y z); [now apply lt_false | now apply Hy].
Qed.

Lemma sort_desc_sorted (l : list A) : StronglySorted ge (sort_desc lt l).
Proof.
  induction l as [|x l IH]; cbn [sort_desc fold_right]; [constructor|].
  now apply insert_desc_sorted.
Qed.

(** Stability: inside a class [p] of elements that the order cannot
    tell apart, the sort keeps the original order. *)
Lemma sort_desc_stable (p : A -> bool) (l : list A) :
  (forall x y, lt x y = true -> p x = true -> p y = false) ->
  filter p (sort_desc lt l) = filter p l.
Proof.
  intros Hp.
  assert (Hins : forall x l', filter p (insert_desc lt x l') = filter p (x :: l')).
  { intros x l'. induction l' as [|y l' IH]; cbn [insert_desc]; [reflexivity|].
    destruct (lt x y) eqn:E; [|reflexivity].
    cbn [filter] in *. rewrite IH.
    destruct (p x) eqn:Ex; [|reflexivity].
    now rewrite (Hp x y E Ex). }
  induction l as [|x l IH]; cbn [sort_desc fold_right]; [reflexivity|].
  fold (sort_desc lt l). rewrite Hins. cbn [filter]. now rewrite IH.
Qed.

End SortDesc.

(** ** Ranking of the maxims *)

Lemma score_lt_true a b : ScripturalWisdom.score_lt a b = true -> score_ge b a.
Proof.
  unfold ScripturalWisdom.score_lt, score_ge. intros H.
  destruct (Qle_bool _ _) eqn:E; [discriminate|].
  destruct (Qlt_le_dec (ScripturalWisdom.relevance_score a)
              (ScripturalWisdom.relevance_score b)) as [Hlt|Hle].
  - now apply Qlt_le_weak.
  - apply Qle_bool_iff in Hle. congruence.
Qed.

Lemma score_lt_false a b : ScripturalWisdom.score_lt a b = false -> score_ge a b.
Proof.
  unfold ScripturalWisdom.score_lt, score_ge. intros H.
  apply negb_false_iff in H. now apply Qle_bool_iff.
Qed.

Lemma score_lt_class q a b :
  ScripturalWisdom.score_lt a b = true ->
  Qeq_bool (ScripturalWisdom.relevance_score a) q = true ->
  Qeq_bool (ScripturalWisdom.relevance_score b) q = false.
Proof.
  unfold ScripturalWisdom.score_lt. intros H Ha.
  apply Qeq_bool_iff in Ha.
  destruct (Qeq_bool (ScripturalWisdom.relevance_score b) q) eqn:Eb; [|reflexivity].
  apply Qeq_bool_iff in Eb.
  apply negb_true_iff in H.
  assert (Hle : (ScripturalWisdom.relevance_score b
                 <= ScripturalWisdom.relevance_score a)%Q) by (rewrite Ha, Eb; lra).
  apply Qle_bool_iff in Hle. congruence.
Qed.

(** X1: the guidance list of [get_wisdom_for_situation] is the first three
    entries (or all, if fewer) of the matching maxims put in order of
    non-increasing relevance, and maxims of equal relevance keep the order
    of the corpus. *)
Theorem guidance_is_top_three_ranked :
  forall self situation,
    let relevant :=
      ScripturalWisdom.relevant_entries self (Text.split (Text.lower situation)) in
    let guidance :=
      ScripturalWisdom.guidance
        (ScripturalWisdom.get_wisdom_for_situation self situation) in
    exists rest,
      Permutation (guidance ++ rest) relevant
      /\ StronglySorted score_ge (guidance ++ rest)
      /\ List.length guidance = Nat.min 3 (List.length relevant)
      /\ forall q,
           filter (fun g => Qeq_bool (ScripturalWisdom.relevance_score g) q)
             (guidance ++ rest)
           = filter (fun g => Qeq_bool (ScripturalWisdom.relevance_score g) q)
               relevant.
Proof.
  intros self situation relevant guidance.
  set (sorted := sort_desc ScripturalWisdom.score_lt relevant).
  assert (Hg : guidance = firstn 3 sorted).
  { subst guidance sorted relevant.
    unfold ScripturalWisdom.get_wisdom_for_situation.
    cbn [ScripturalWisdom.guidance]. unfold py_take.
    now destruct (sort_desc _ _). }
  exists (skipn 3 sorted). rewrite Hg, firstn_skipn.
  split; [apply sort_desc_perm|].
  split.
  { apply (sort_desc_sorted ScripturalWisdom.score_lt score_ge).
    - unfold score_ge. intros a b c Hab Hbc. lra.
    - apply score_lt_true.
    - apply score_lt_false. }
  split.
  { rewrite length_firstn. unfold sorted.
    now rewrite (Permutation_length (sort_desc_perm ScripturalWisdom.score_lt relevant)). }
  intros q. apply sort_desc_stable. intros x y. apply score_lt_class.
Qed.

(** ** Principles and references of a wisdom record *)

Lemma NoDup_map_filter {A B} (f : A -> B) (g : A -> bool) (l : list A) :
  NoDup (map f l) -> NoDup (map f (filter g l)).
Proof.
  induction l as [|x l IH]; cbn [map filter]; [auto|].
  intros H. inversion H as [|? ? Hnotin Hl]; subst.
  destruct (g x); cbn [map]; [|auto].
  constructor; [|auto].
  intros Hin. apply Hnotin. apply in_map_iff in Hin.
  destruct Hin as [y [Hy Hin]]. apply filter_In in Hin.
  apply in_map_iff. exists y. tauto.
Qed.

Lemma flat_map_filter_map {A B} (f : A -> B) (g : A -> bool) (l : list A) :
  flat_map (fun x => if g x then [f x] else []) l = map f (filter g l).
Proof.
  induction l as [|x l IH]; cbn [flat_map filter map]; [reflexivity|].
  rewrite IH. now destruct (g x).
Qed.

(** The principles found in a question, before the default is applied. *)
Lemma extracted_principles_filter (question : string) :
  flat_map
    (fun '(keyword, principle) =>
       if Text.contains keyword (Text.lower question) then [principle] else [])
    MysticalCodeOracle.principle_mapping
  = map snd
      (filter (fun kp => Text.contains (fst kp) (Text.lower question))
         MysticalCodeOracle.principle_mapping).
Proof.
  rewrite <- flat_map_filter_map. apply flat_map_ext. now intros [k p].
Qed.

Lemma reference_of_principle (p : DivinePrinciple) :
  exists r,
    MysticalCodeOracle._get_scriptural_reference [p] = r
    /\ In (p, r) MysticalCodeOracle.references
    /\ forall rest, MysticalCodeOracle._get_scriptural_reference (p :: rest) = r.
Proof.
  destruct p; eexists; (split; [reflexivity|]); (split; [|reflexivity]);
    cbn; tauto.
Qed.

(** X2: the principles extracted from a question are never empty and never
    repeat; each one is [DIVINE_ORDER] or the principle of a keyword that
    occurs in the question.  The record of [seek_guidance] carries the
    first of them, and its scriptural reference is the entry of that
    principle in the table of references: neither fallback reference is
    ever used. *)
Theorem wisdom_reference_matches_principle :
  (forall question,
      MysticalCodeOracle._extract_principles question <> []
      /\ NoDup (MysticalCodeOracle._extract_principles question)
      /\ forall p,
           In p (MysticalCodeOracle._extract_principles question) ->
           p = DIVINE_ORDER
           \/ exists keyword,
                In (keyword, p) MysticalCodeOracle.principle_mapping
                /\ Text.contains keyword (Text.lower question) = true)
  /\ (forall e history question context wisdom history',
         MysticalCodeOracle.seek_guidance e history question context
         = Some (wisdom, history') ->
         principle wisdom
         = hd DIVINE_ORDER (MysticalCodeOracle._extract_principles question)
         /\ In (principle wisdom) (MysticalCodeOracle._extract_principles question)
         /\ exists r,
              scriptural_reference wisdom = Some r
              /\ In (principle wisdom, r) MysticalCodeOracle.references).
Proof.
  assert (Hne : forall question,
             MysticalCodeOracle._extract_principles question <> []).
  { intros question. unfold MysticalCodeOracle._extract_principles.
    destruct (flat_map _ _); discriminate. }
  split.
  - intros question. split; [apply Hne|].
    unfold MysticalCodeOracle._extract_principles.
    rewrite extracted_principles_filter.
    set (found := filter _ MysticalCodeOracle.principle_mapping).
    assert (Hnd : NoDup (map snd found)).
    { apply NoDup_map_filter. cbn.
      repeat (constructor; [cbn; intuition discriminate|]). constructor. }
    assert (Hin : forall p, In p (map snd found) ->
                            exists keyword,
                              In (keyword, p) MysticalCodeOracle.principle_mapping
                              /\ Text.contains keyword (Text.lower question) = true).
    { intros p Hp. apply in_map_iff in Hp. destruct Hp as [[k p'] [Hp Hk]].
      cbn in Hp. subst p'. apply filter_In in Hk. exists k. exact Hk. }
    destruct (map snd found) as [|p0 ps] eqn:E.
    + split; [repeat constructor; intros []|].
      intros p [<-|[]]. now left.
    + split; [exact Hnd|]. intros p Hp. right. now apply Hin.
  - intros e history question context wisdom history' H.
    unfold MysticalCodeOracle.seek_guidance in H.
    destruct (MysticalCodeOracle._find_divine_signs e context); [|discriminate].
    injection H as <- _. cbn [principle scriptural_reference].
    specialize (Hne question).
    destruct (MysticalCodeOracle._extract_principles question) as [|p ps];
      [congruence|].
    cbn [hd]. split; [reflexivity|]. split; [now left|].
    destruct (reference_of_principle p) as [r [_ [Hin Hrest]]].
    exists r. split; [now rewrite Hrest | exact Hin].
Qed.

Lemma wisdom_reference_matches_principle_witness :
  exists wisdom history',
    MysticalCodeOracle.seek_guidance morning [] "Guide my coding work today" []
    = Some (wisdom, history')
    /\ principle wisdom = SPIRITUAL_GUIDANCE
    /\ scriptural_reference wisdom
       = Some "Psalm 32:8 - I will instruct thee and teach thee".
Proof.
  destruct (seek_guidance_returns morning [] "Guide my coding work today" []
              eq_refl) as [wisdom Hw].
  exists wisdom, ([] ++ [wisdom])%list. split; [exact Hw|].
  destruct (proj2 wisdom_reference_matches_principle morning []
              "Guide my coding work today" [] wisdom _ Hw)
    as [Hp [_ [r [Hr Hin]]]].
  split; [rewrite Hp; vm_compute; reflexivity|].
  rewrite Hr. f_equal.
  assert (Hp' : principle wisdom = SPIRITUAL_GUIDANCE)
    by (rewrite Hp; vm_compute; reflexivity).
  rewrite Hp' in Hin. cbn in Hin.
  repeat (destruct Hin as [Hin|Hin]; [inversion Hin; try reflexivity|]).
  destruct Hin.
Defined.

(** ** The shape of the digests *)

Lemma length_string_of_list_ascii (l : list ascii) :
  String.length (string_of_list_ascii l) = List.length l.
Proof. induction l; cbn; congruence. Qed.

Lemma le_bytes_shape (n : nat) (x : Z) :
  List.length (MD5.le_bytes n x) = n /\ Forall is_byte (MD5.le_bytes n x).
Proof.
  unfold MD5.le_bytes. split; [now rewrite length_map, length_seq|].
  apply Forall_forall. intros b Hb. apply in_map_iff in Hb.
  destruct Hb as [i [<- _]]. unfold is_byte.
  change 255%Z with (Z.ones 8). rewrite Z.land_ones by lia.
  apply Z.mod_pos_bound. lia.
Qed.

Lemma hex_digit_alphabet (n : Z) :
  (0 <= n < 16)%Z -> In (MD5.hex_digit n) hex_alphabet.
Proof.
  intros Hn. unfold MD5.hex_digit. apply nth_In.
  change (Z.to_nat n < 16). lia.
Qed.

(** Two digits per byte. *)
Lemma hex_of_bytes_shape (bytes : list Z) :
  Forall is_byte bytes ->
  hex_text (2 * List.length bytes)
    (string_of_list_ascii
       (flat_map (fun b => [MD5.hex_digit (b / 16); MD5.hex_digit (b mod 16)])
          bytes)).
Proof.
  intros Hb. unfold hex_text.
  rewrite length_string_of_list_ascii, list_ascii_of_string_of_list_ascii.
  induction Hb as [|b bytes Hb _ [IHlen IHall]]; cbn [flat_map List.length app].
  - split; [reflexivity | constructor].
  - unfold is_byte in Hb. split; [lia|].
    constructor;
      [apply hex_digit_alphabet; split;
         [apply Z.div_pos; lia | apply Z.div_lt_upper_bound; lia]|].
    constructor; [apply hex_digit_alphabet, Z.mod_pos_bound; lia | exact IHall].
Qed.

Lemma md5_digest_shape (msg : list Z) :
  List.length (MD5.digest msg) = 16 /\ Forall is_byte (MD5.digest msg).
Proof.
  unfold MD5.digest.
  destruct (fold_left MD5.compress _ _) as [[[a b] c] d].
  repeat rewrite length_app. repeat rewrite Forall_app.
  pose proof (le_bytes_shape 4 a) as [La Ha].
  pose proof (le_bytes_shape 4 b) as [Lb Hb].
  pose proof (le_bytes_shape 4 c) as [Lc Hc].
  pose proof (le_bytes_shape 4 d) as [Ld Hd].
  rewrite La, Lb, Lc, Ld. tauto.
Qed.

Lemma md5_hexdigest_shape (msg : string) : hex_text 32 (MD5.hexdigest msg).
Proof.
  unfold MD5.hexdigest.
  destruct (md5_digest_shape (MD5.bytes_of msg)) as [Hlen Hall].
  change 32 with (2 * 16). rewrite <- Hlen. now apply hex_of_bytes_shape.
Qed.

Lemma sha256_round_length w st t :
  List.length (SHA256.round w st t) = List.length st.
Proof.
  unfold SHA256.round.
  destruct st as [|a [|b [|c [|d [|e [|f [|g [|h [|i st]]]]]]]]]; reflexivity.
Qed.

Lemma sha256_compress_length st block :
  List.length (SHA256.compress st block) = List.length st.
Proof.
  unfold SHA256.compress. rewrite length_map, length_combine.
  assert (H : forall ts st0,
             List.length (fold_left (SHA256.round (SHA256.schedule block)) ts st0)
             = List.length st0).
  { induction ts as [|t ts IH]; intros st0; cbn [fold_left]; [reflexivity|].
    now rewrite IH, sha256_round_length. }
  rewrite H. apply Nat.min_id.
Qed.

Lemma sha256_digest_shape (msg : list Z) :
  List.length (SHA256.digest msg) = 32 /\ Forall is_byte (SHA256.digest msg).
Proof.
  unfold SHA256.digest.
  set (blocks := MD5.chunks _ _).
  assert (Hlen : List.length (fold_left SHA256.compress blocks SHA256.H0) = 8).
  { change 8 with (List.length SHA256.H0). generalize SHA256.H0.
    induction blocks as [|blk blocks IH]; intros st; cbn [fold_left];
      [reflexivity|].
    now rewrite IH, sha256_compress_length. }
  revert Hlen. generalize (fold_left SHA256.compress blocks SHA256.H0).
  intros words. change 32 with (4 * 8). intros <-.
  induction words as [|x words [IHlen IHall]]; cbn [flat_map List.length].
  - split; [reflexivity | constructor].
  - destruct (le_bytes_shape 4 x) as [Lx Hx].
    rewrite length_app, Forall_app. unfold SHA256.be_bytes at 1 3.
    rewrite length_rev, Lx. split; [lia|]. split; [|exact IHall].
    apply Forall_rev. exact Hx.
Qed.

Lemma sha256_hexdigest_shape (msg : string) : hex_text 64 (SHA256.hexdigest msg).
Proof.
  unfold SHA256.hexdigest.
  destruct (sha256_digest_shape (MD5.bytes_of msg)) as [Hlen Hall].
  change 64 with (2 * 32). rewrite <- Hlen. now apply hex_of_bytes_shape.
Qed.

Lemma list_of_take (n : nat) (s : string) :
  list_ascii_of_string (Text.take n s) = firstn n (list_ascii_of_string s).
Proof.
  unfold Text.take. revert s.
  induction n as [|n IH]; intros [|c s]; cbn; try reflexivity.
  now rewrite IH.
Qed.

Lemma length_list_of_string (s : string) :
  List.length (list_ascii_of_string s) = String.length s.
Proof. induction s; cbn; congruence. Qed.

(** A prefix of a text of hexadecimal digits. *)
Lemma hex_text_take (n m : nat) (s : string) :
  n <= m -> hex_text m s -> hex_text n (Text.take n s).
Proof.
  intros Hnm [Hlen Hall]. unfold hex_text.
  rewrite <- length_list_of_string, list_of_take.
  split.
  - rewrite length_firstn, length_list_of_string. lia.
  - apply Forall_forall. intros c Hc. rewrite Forall_forall in Hall.
    apply Hall. revert Hc. generalize (list_ascii_of_string s). clear.
    induction n as [|n IH]; intros [|x l]; cbn; try tauto.
    intros [<-|H]; [now left | right; now apply IH].
Qed.

Lemma hex_alphabet_value (c : ascii) :
  In c hex_alphabet -> exists v, MD5.hex_value c = Some v /\ (0 <= v < 16)%Z.
Proof.
  unfold hex_alphabet. cbn [list_ascii_of_string In]. intros H.
  repeat (destruct H as [<-|H]; [eexists; split; [vm_compute; reflexivity | lia]|]).
  destruct H.
Qed.

(** X3: the encoded message of a wisdom record is always 16 lower-case
    hexadecimal digits, and the three characters that [seek_guidance] cuts
    from the MD5 digest of the question are always hexadecimal digits, so
    that their conversion to an integer cannot fail and is below 4096. *)
Theorem digests_are_hexadecimal :
  (forall w, hex_text 16 (Wisdom.encoded_message w))
  /\ (forall question,
         hex_text 3 (Text.take 3 (MD5.hexdigest question))
         /\ Forall (fun c => MD5.hex_value c <> None)
              (list_ascii_of_string (Text.take 3 (MD5.hexdigest question)))
         /\ (0 <= MD5.int16 (Text.take 3 (MD5.hexdigest question)) < 4096)%Z).
Proof.
  split.
  - intros w. unfold Wisdom.encoded_message.
    apply (hex_text_take 16 64); [lia | apply sha256_hexdigest_shape].
  - intros question.
    assert (Hhex : hex_text 3 (Text.take 3 (MD5.hexdigest question)))
      by (apply (hex_text_take 3 32); [lia | apply md5_hexdigest_shape]).
    split; [exact Hhex|].
    destruct Hhex as [Hlen Hall].
    unfold MD5.int16. rewrite <- length_list_of_string in Hlen.
    destruct (list_ascii_of_string (Text.take 3 (MD5.hexdigest question)))
      as [|c1 [|c2 [|c3 [|c4 l]]]]; try discriminate.
    inversion Hall as [|? ? H1 Hall1]; subst.
    inversion Hall1 as [|? ? H2 Hall2]; subst.
    inversion Hall2 as [|? ? H3 _]; subst.
    destruct (hex_alphabet_value c1 H1) as [v1 [E1 B1]].
    destruct (hex_alphabet_value c2 H2) as [v2 [E2 B2]].
    destruct (hex_alphabet_value c3 H3) as [v3 [E3 B3]].
    split.
    + repeat constructor; congruence.
    + cbn [fold_left]. rewrite E1, E2, E3. lia.
Qed.

(** ** Ritual records *)

(** X4: the record returned by [perform_ritual] has an [error] field
    exactly when the name is not registered; for a registered name it has
    no [error] field and its [ritual] field is the name, whatever the
    context holds. *)
Theorem ritual_record_or_error :
  forall e ritual_name context,
    (In ritual_name (map fst SacredCodingRitual.ritual_steps) ->
     dict_get "error" (SacredCodingRitual.perform_ritual e ritual_name context)
     = None
     /\ dict_get "ritual" (SacredCodingRitual.perform_ritual e ritual_name context)
        = Some (VStr ritual_name))
    /\ (~ In ritual_name (map fst SacredCodingRitual.ritual_steps) ->
        dict_get "error" (SacredCodingRitual.perform_ritual e ritual_name context)
        = Some (VStr ("Unknown ritual: " ++ ritual_name))
        /\ dict_get "ritual" (SacredCodingRitual.perform_ritual e ritual_name context)
           = None).
Proof.
  intros e ritual_name context. split.
  - cbn [map fst SacredCodingRitual.ritual_steps In].
    intros [<-|[<-|[<-|[<-|[<-|[]]]]]]; split; reflexivity.
  - intros Hnot. unfold SacredCodingRitual.perform_ritual.
    rewrite (dict_get_notin _ _ Hnot). split; reflexivity.
Qed.

Lemma ritual_record_or_error_witness :
  dict_get "ritual"
    (SacredCodingRitual.perform_ritual evening "evening_reflection"
       (Some login_context))
  = Some (VStr "evening_reflection")
  /\ dict_get "error"
       (SacredCodingRitual.perform_ritual evening "Evening_Reflection" None)
     = Some (VStr "Unknown ritual: Evening_Reflection").
Proof.
  split.
  - apply (proj1 (ritual_record_or_error evening "evening_reflection"
                    (Some login_context))).
    cbn. tauto.
  - apply (proj2 (ritual_record_or_error evening "Evening_Reflection" None)).
    cbn. intros H.
    repeat (destruct H as [H|H]; [discriminate H|]). exact H.
Defined.

(** ** The analysis of a text *)

Lemma patterns_found_analyze (code : string) :
  DivinePatternRecognizer.sacred_patterns_found
    (DivinePatternRecognizer.analyze_code_for_divine_patterns code)
  = let found1 :=
      if DivinePatternRecognizer._is_fibonacci_like
           (DivinePatternRecognizer._analyze_indentation_pattern
              (Text.split_lines code))
      then ["fibonacci_indentation"] else [] in
    match DivinePatternRecognizer._extract_function_lengths code with
    | [] => found1
    | lengths =>
        if Qlt_le_dec (7 # 10)
             (DivinePatternRecognizer._calculate_golden_ratio_alignment lengths)
        then (found1 ++ ["golden_ratio_pattern"])%list
        else found1
    end.
Proof.
  unfold DivinePatternRecognizer.analyze_code_for_divine_patterns.
  cbn [DivinePatternRecognizer.sacred_patterns_found].
  pose proof (split_lines_nonempty code) as Hne.
  destruct (Text.split_lines code) as [|line lines] eqn:E; [congruence|].
  destruct (DivinePatternRecognizer._is_fibonacci_like _);
    destruct (DivinePatternRecognizer._extract_function_lengths code);
    reflexivity.
Qed.

(** X5: in an analysis the list of patterns found and the mapping of
    pattern scores agree: [fibonacci_indentation] is listed exactly when
    the indentation profile passes the additive test, and then its score
    0.8 is stored; [golden_ratio_pattern] is listed exactly when a
    block-length score above 0.7 is stored; nothing else is ever listed;
    and the aggregate score lies in [0,1]. *)
Theorem analysis_patterns_agree_with_scores :
  forall code,
    let a := DivinePatternRecognizer.analyze_code_for_divine_patterns code in
    let found := DivinePatternRecognizer.sacred_patterns_found a in
    let scores := DivinePatternRecognizer.pattern_scores a in
    (In "fibonacci_indentation" found
     <-> DivinePatternRecognizer._is_fibonacci_like
           (DivinePatternRecognizer._analyze_indentation_pattern
              (Text.split_lines code)) = true)
    /\ (In "fibonacci_indentation" found
        <-> dict_get "fibonacci_indentation" scores = Some (8 # 10))
    /\ (In "golden_ratio_pattern" found
        <-> exists g, dict_get "golden_ratio_alignment" scores = Some g
                      /\ (7 # 10 < g)%Q)
    /\ (forall name,
          In name found ->
          name = "fibonacci_indentation" \/ name = "golden_ratio_pattern")
    /\ unit_interval (DivinePatternRecognizer.divine_alignment_score a).
Proof.
  intros code a found scores. subst found scores a.
  split; [|split; [|split; [|split]]];
    try (rewrite patterns_found_analyze); try (rewrite pattern_scores_analyze);
    cbv zeta.
  - destruct (DivinePatternRecognizer._is_fibonacci_like _);
      destruct (DivinePatternRecognizer._extract_function_lengths code);
      try destruct (Qlt_le_dec _ _); cbn; intuition discriminate.
  - destruct (DivinePatternRecognizer._is_fibonacci_like _);
      destruct (DivinePatternRecognizer._extract_function_lengths code);
      try destruct (Qlt_le_dec _ _); cbn; intuition discriminate.
  - destruct (DivinePatternRecognizer._extract_function_lengths code) as [|x l].
    + destruct (DivinePatternRecognizer._is_fibonacci_like _); cbn;
        (split; [intuition discriminate | intros [g [Hg _]]; discriminate]).
    + rewrite dict_get_set_same.
      destruct (Qlt_le_dec _ _) as [Hlt|Hle].
      * split; [intros _; eexists; split; [reflexivity | exact Hlt]|].
        intros _. apply in_or_app. right. now left.
      * split.
        -- destruct (DivinePatternRecognizer._is_fibonacci_like _); cbn;
             intuition discriminate.
        -- intros [g [[= <-] Hg]]. lra.
  - intros name.
    destruct (DivinePatternRecognizer._is_fibonacci_like _);
      destruct (DivinePatternRecognizer._extract_function_lengths code);
      try destruct (Qlt_le_dec _ _); cbn; intuition.
  - exact (pattern_score_unit (Some code)).
Qed.

Lemma indicator_fold (c : string -> bool) (indicator : string) (keywords : list string) :
  forall found,
    fold_left
      (fun found keyword =>
         if c keyword && negb (existsb (String.eqb indicator) found)
         then (found ++ [indicator])%list else found)
      keywords found
    = if existsb c keywords && negb (existsb (String.eqb indicator) found)
      then (found ++ [indicator])%list else found.
Proof.
  induction keywords as [|k ks IH]; intros found; cbn [fold_left existsb];
    [reflexivity|].
  rewrite IH.
  destruct (c k) eqn:Ek; cbn [orb andb]; [|reflexivity].
  destruct (existsb (String.eqb indicator) found) eqn:Ef; cbn [negb].
  - rewrite Ef. now rewrite !andb_false_r.
  - rewrite existsb_app. cbn [existsb]. rewrite String.eqb_refl.
    now rewrite orb_true_r, andb_false_r.
Qed.

Lemma indicators_fold (c : string -> bool) (table : list (string * list string)) :
  forall found,
    NoDup (map fst table) ->
    (forall name, In name (map fst table) -> ~ In name found) ->
    fold_left
      (fun found '(indicator, keywords) =>
         fold_left
           (fun found keyword =>
              if c keyword && negb (existsb (String.eqb indicator) found)
              then (found ++ [indicator])%list else found)
           keywords found)
      table found
    = (found ++ map fst (filter (fun entry => existsb c (snd entry)) table))%list.
Proof.
  induction table as [|[indicator keywords] table IH]; intros found Hnd Hfresh;
    cbn [fold_left filter map].
  - now rewrite app_nil_r.
  - inversion Hnd as [|? ? Hnotin Hnd']; subst.
    rewrite indicator_fold.
    assert (Hf : existsb (String.eqb indicator) found = false).
    { destruct (existsb _ found) eqn:E; [|reflexivity].
      apply existsb_exists in E. destruct E as [x [Hx Heq]].
      apply String.eqb_eq in Heq. subst x.
      elim (Hfresh indicator); [now left | exact Hx]. }
    rewrite Hf. cbn [negb snd]. rewrite andb_true_r.
    destruct (existsb c keywords).
    + rewrite IH; [cbn [map fst]; now rewrite <- app_assoc | exact Hnd'|].
      intros name Hname Hin. apply in_app_or in Hin.
      destruct Hin as [Hin|[<-|[]]].
      * apply (Hfresh name); [now right | exact Hin].
      * contradiction.
    + apply IH; [exact Hnd'|].
      intros name Hname. apply Hfresh. now right.
Qed.

(** X6: the indicators of an analysis are the names of the groups of
    which a keyword occurs in the lower-cased text, each once, in the order
    of the table. *)
Theorem indicators_found_once_in_table_order :
  forall code,
    let found :=
      DivinePatternRecognizer.found_indicators
        (DivinePatternRecognizer.analyze_code_for_divine_patterns code) in
    found
    = map fst
        (filter
           (fun entry =>
              existsb (fun keyword => Text.contains keyword (Text.lower code))
                (snd entry))
           DivinePatternRecognizer.divine_indicators)
    /\ NoDup found
    /\ (forall name,
          In name found
          <-> exists keywords keyword,
                In (name, keywords) DivinePatternRecognizer.divine_indicators
                /\ In keyword keywords
                /\ Text.contains keyword (Text.lower code) = true).
Proof.
  intros code found.
  assert (Hnd : NoDup (map fst DivinePatternRecognizer.divine_indicators)).
  { cbn. repeat (constructor; [cbn; intuition discriminate|]). constructor. }
  assert (Hfound :
            found
            = map fst
                (filter
                   (fun entry =>
                      existsb
                        (fun keyword => Text.contains keyword (Text.lower code))
                        (snd entry))
                   DivinePatternRecognizer.divine_indicators)).
  { subst found.
    unfold DivinePatternRecognizer.analyze_code_for_divine_patterns.
    cbn [DivinePatternRecognizer.found_indicators].
    unfold DivinePatternRecognizer.scan_indicators.
    rewrite (indicators_fold
               (fun keyword => Text.contains keyword (Text.lower code))
               DivinePatternRecognizer.divine_indicators [] Hnd);
      [reflexivity | intros name _ []]. }
  split; [exact Hfound|]. rewrite Hfound.
  split; [now apply NoDup_map_filter|].
  intros name. split.
  - intros Hin. apply in_map_iff in Hin. destruct Hin as [[n kws] [Hn Hin]].
    cbn in Hn. subst n. apply filter_In in Hin. destruct Hin as [Hin Hex].
    cbn [snd] in Hex. apply existsb_exists in Hex. destruct Hex as [kw [Hkw Hc]].
    exists kws, kw. tauto.
  - intros [kws [kw [Hin [Hkw Hc]]]].
    apply in_map_iff. exists (name, kws). split; [reflexivity|].
    apply filter_In. split; [exact Hin|].
    cbn [snd]. apply existsb_exists. exists kw. tauto.
Qed.

(** ** The block-length score *)

Lemma inv_one_plus (a : Q) :
  (0 <= a)%Q ->
  (0 < 1 / (1 + a) <= 1)%Q /\ ((1 / (1 + a) == 1)%Q <-> (a == 0)%Q).
Proof.
  intros Ha.
  assert (Hpos : (0 < 1 + a)%Q) by lra.
  assert (Hmul : ((1 + a) * (1 / (1 + a)) == 1)%Q)
    by (apply Qmult_div_r; lra).
  split; [split|split].
  - apply Qlt_shift_div_l; lra.
  - apply Qle_shift_div_r; lra.
  - intros H. rewrite H in Hmul. lra.
  - intros H. rewrite H. reflexivity.
Qed.

Lemma Qsum_zero (l : list Q) :
  Forall (fun x => 0 <= x)%Q l ->
  forall a, (fold_left Qplus l a == a)%Q <-> Forall (fun x => x == 0)%Q l.
Proof.
  induction 1 as [|x l Hx Hl IH]; intros a; cbn [fold_left].
  - split; [constructor | reflexivity].
  - pose proof (fold_Qplus_nonneg l Hl (a + x)%Q) as Hge.
    split.
    + intros H. assert (Hx0 : (x == 0)%Q) by lra.
      constructor; [exact Hx0|]. apply (IH (a + x)%Q). lra.
    + intros H. inversion H as [|? ? Hx0 Hl0]; subst.
      apply (IH (a + x)%Q) in Hl0. lra.
Qed.

Lemma Qabs_zero (x : Q) : (Qabs x == 0)%Q <-> (x == 0)%Q.
Proof.
  split; intros H.
  - revert H. apply Qabs_case; intros; lra.
  - rewrite H. reflexivity.
Qed.

Lemma Qdiv_zero (a b : Q) : (0 < b)%Q -> ((a / b == 0)%Q <-> (a == 0)%Q).
Proof.
  intros Hb. split; intros H.
  - assert (Hmul : (b * (a / b) == a)%Q) by (apply Qmult_div_r; lra).
    rewrite H in Hmul. lra.
  - rewrite H. unfold Qdiv. apply Qmult_0_l.
Qed.

(** X7: for two or more positive block lengths (as the extractor records
    them) the clamp of the block-length score is idle: the score is
    1 / (1 + mean deviation), it is positive and at most 1, and it is 1
    exactly when every consecutive ratio equals the constant
    1.61803398875. *)
Theorem golden_score_clamp_is_idle :
  forall lengths,
    Forall (fun n => 0 < n)%Z lengths ->
    2 <= List.length lengths ->
    let ratios := DivinePatternRecognizer.ratios_of lengths in
    let deviations :=
      map (fun ratio => Qabs (ratio - DivinePatternRecognizer.golden_ratio)) ratios in
    let score := DivinePatternRecognizer._calculate_golden_ratio_alignment lengths in
    List.length ratios = List.length lengths - 1
    /\ (score == 1 / (1 + Qsum deviations / Qlen deviations))%Q
    /\ (0 < score <= 1)%Q
    /\ ((score == 1)%Q
        <-> Forall (fun ratio => ratio == DivinePatternRecognizer.golden_ratio)%Q
              ratios).
Proof.
  intros lengths Hpos Hlen ratios deviations score.
  assert (Hratios : List.length ratios = List.length lengths - 1).
  { subst ratios. rewrite (ratios_of_positive lengths Hpos).
    now rewrite length_map, length_seq. }
  assert (Hne : deviations <> []).
  { subst deviations. destruct ratios; [cbn in Hratios; lia | discriminate]. }
  assert (Hnonneg : Forall (fun x => 0 <= x)%Q deviations).
  { apply Forall_forall. intros d Hd. apply in_map_iff in Hd.
    destruct Hd as [r [<- _]]. apply Qabs_nonneg. }
  pose proof (Qlen_pos deviations Hne) as HL.
  assert (Havg : (0 <= Qsum deviations / Qlen deviations)%Q).
  { apply Qle_shift_div_l; [exact HL|].
    rewrite Qmult_0_l. apply (fold_Qplus_nonneg deviations Hnonneg). }
  destruct (inv_one_plus _ Havg) as [[Hlt Hle] Hone].
  assert (Hscore : (score == 1 / (1 + Qsum deviations / Qlen deviations))%Q).
  { subst score. unfold DivinePatternRecognizer._calculate_golden_ratio_alignment.
    assert (Hl : (List.length lengths <? 2) = false) by (apply Nat.ltb_ge; lia).
    rewrite Hl. fold ratios.
    destruct ratios as [|r rs] eqn:Er; [cbn in Hratios; lia|].
    cbv zeta. fold deviations. apply Q.min_r. exact Hle. }
  split; [exact Hratios|]. split; [exact Hscore|].
  split; [rewrite Hscore; split; assumption|].
  rewrite Hscore, Hone, (Qdiv_zero _ _ HL).
  unfold Qsum. rewrite (Qsum_zero deviations Hnonneg 0).
  subst deviations. rewrite Forall_map.
  split; intros H; apply Forall_forall; intros r Hr;
    rewrite Forall_forall in H; specialize (H r Hr).
  - apply (proj1 (Qabs_zero _)) in H. lra.
  - apply (proj2 (Qabs_zero _)). lra.
Qed.

Lemma golden_score_clamp_is_idle_witness :
  (0 < DivinePatternRecognizer._calculate_golden_ratio_alignment [2; 3]%Z <= 1)%Q
  /\ List.length (DivinePatternRecognizer.ratios_of [2; 3]%Z) = 1.
Proof.
  assert (Hpos : Forall (fun n => 0 < n)%Z [2; 3]%Z)
    by (repeat constructor).
  destruct (golden_score_clamp_is_idle [2; 3]%Z Hpos (le_n 2))
    as [Hlen [_ [Hscore _]]].
  split; [exact Hscore | exact Hlen].
Defined.

(** ** The block lengths of a text *)

Lemma Zsum_app (l : list Z) (x : Z) : Zsum (l ++ [x]) = (Zsum l + x)%Z.
Proof. unfold Zsum. induction l as [|y l IH]; cbn; [lia | rewrite IH; lia]. Qed.

Lemma scan_line_bounded st line m b :
  scan_bounded st m b ->
  scan_bounded (DivinePatternRecognizer.scan_line st line)
    (m + (if is_block_start line then 1 else 0))
    (b + (if is_body_line line then 1 else 0)).
Proof.
  intros [Hcur [Hsum [Hin Hout]]].
  unfold DivinePatternRecognizer.scan_line, is_body_line, is_block_start,
    scan_bounded.
  destruct (Text.startswith (Text.strip line) "def "
            || Text.startswith (Text.strip line) "class ");
    cbn [negb andb];
    destruct (DivinePatternRecognizer.in_function st) eqn:Ein;
    cbn [andb];
    try destruct (Text.truthy (Text.strip line));
    try destruct (Z.ltb_spec 0 (DivinePatternRecognizer.current_length st));
    cbn [DivinePatternRecognizer.in_function
           DivinePatternRecognizer.function_lengths
           DivinePatternRecognizer.current_length];
    rewrite ?Ein, ?Zsum_app, ?length_app; cbn [List.length];
    try (specialize (Hin eq_refl));
    try (destruct (Hout eq_refl) as [Hfl Hc]; rewrite ?Hfl in *; cbn [Zsum fold_right List.length] in * );
    repeat split; intros; try discriminate; try lia; auto.
Qed.

Lemma scan_lines_bounded (lines : list string) :
  forall st m b,
    scan_bounded st m b ->
    scan_bounded (fold_left DivinePatternRecognizer.scan_line lines st)
      (m + List.length (filter is_block_start lines))
      (b + List.length (filter is_body_line lines)).
Proof.
  induction lines as [|line lines IH]; intros st m b H; cbn [fold_left filter].
  - cbn. now rewrite !Nat.add_0_r.
  - apply (scan_line_bounded st line) in H. apply IH in H.
    destruct (is_block_start line), (is_body_line line); cbn [List.length];
      rewrite ?Nat.add_0_r in H;
      repeat rewrite <- Nat.add_assoc in H; exact H.
Qed.

(** X8: every block length recorded for a text is positive; there are
    never more block lengths than lines that open a block, and together
    they count at most the non-blank lines that open no block (the lines
    before the first block are not counted). *)
Theorem function_lengths_bounded_by_lines :
  forall code,
    let lines := Text.split_lines code in
    let lengths := DivinePatternRecognizer._extract_function_lengths code in
    Forall (fun n => 0 < n)%Z lengths
    /\ List.length lengths <= List.length (filter is_block_start lines)
    /\ (Zsum lengths <= Z.of_nat (List.length (filter is_body_line lines)))%Z.
Proof.
  intros code lines lengths.
  split; [apply extract_function_lengths_positive|].
  subst lengths. unfold DivinePatternRecognizer._extract_function_lengths.
  fold lines.
  set (st0 := {| DivinePatternRecognizer.in_function := false;
                 DivinePatternRecognizer.function_lengths := [];
                 DivinePatternRecognizer.current_length := 0 |}).
  assert (H0 : scan_bounded st0 0 0).
  { unfold scan_bounded. cbn.
    repeat split; intros; try discriminate; try lia; auto. }
  apply (scan_lines_bounded lines) in H0. cbn [Nat.add] in H0.
  destruct H0 as [Hcur [Hsum [Hin Hout]]].
  destruct (DivinePatternRecognizer.in_function _) eqn:Ein; cbn [andb].
  - specialize (Hin eq_refl).
    destruct (Z.ltb_spec 0 (DivinePatternRecognizer.current_length
                              (fold_left DivinePatternRecognizer.scan_line lines st0))).
    + rewrite Zsum_app, length_app. cbn [List.length]. lia.
    + lia.
  - destruct (Hout eq_refl) as [Hfl Hc]. rewrite Hfl. cbn. lia.
Qed.

(** ** The frequency tables of the insight report *)

Lemma dict_get_set_other {V} (k k' : string) (v : V) (d : dict V) :
  k <> k' -> dict_get k (dict_set k' v d) = dict_get k d.
Proof.
  intros Hne. induction d as [|[k0 v0] d IH]; cbn [dict_set dict_get].
  - destruct (String.eqb_spec k k'); [contradiction | reflexivity].
  - destruct (String.eqb_spec k' k0) as [->|Hk]; cbn [dict_get].
    + destruct (String.eqb_spec k k0); [contradiction | reflexivity].
    + destruct (String.eqb_spec k k0); [reflexivity | exact IH].
Qed.

Lemma dict_set_keys_In {V} (x k : string) (v : V) (d : dict V) :
  In x (map fst (dict_set k v d)) <-> x = k \/ In x (map fst d).
Proof.
  induction d as [|[k0 v0] d IH]; cbn [dict_set map fst In].
  - intuition.
  - destruct (String.eqb_spec k k0) as [->|Hk]; cbn [map fst In]; intuition.
Qed.

Lemma dict_set_keys_NoDup {V} (k : string) (v : V) (d : dict V) :
  NoDup (map fst d) -> NoDup (map fst (dict_set k v d)).
Proof.
  induction d as [|[k0 v0] d IH]; cbn [dict_set map fst]; intros H.
  - repeat constructor. intros [].
  - inversion H as [|? ? Hnotin Hd]; subst.
    destruct (String.eqb_spec k k0) as [->|Hk]; cbn [map fst].
    + now constructor.
    + constructor; [|auto].
      intros Hin. apply dict_set_keys_In in Hin. destruct Hin; congruence.
Qed.

Lemma dict_get_None_keys {V} (k : string) (d : dict V) :
  dict_get k d = None <-> ~ In k (map fst d).
Proof.
  split; [|apply dict_get_notin].
  induction d as [|[k0 v0] d IH]; cbn [dict_get map fst In]; [tauto|].
  destruct (String.eqb_spec k k0) as [->|Hk]; [discriminate|].
  intros H [Heq|Hin]; [congruence | now apply IH].
Qed.

Lemma Zsum_dict_set (k : string) (v : Z) (d : dict Z) :
  Zsum (dict_values (dict_set k v d))
  = (Zsum (dict_values d) - value_of k d + v)%Z.
Proof.
  unfold value_of, Zsum, dict_values.
  induction d as [|[k0 v0] d IH]; cbn [dict_set dict_get map snd fold_right].
  - lia.
  - destruct (String.eqb_spec k k0) as [->|Hk]; cbn [map snd fold_right].
    + lia.
    + rewrite IH. lia.
Qed.

Lemma bump_value (k key : string) (counts : dict Z) :
  value_of k (JahConsciousARKController.bump counts key)
  = (value_of k counts + (if String.eqb k key then 1 else 0))%Z.
Proof.
  unfold JahConsciousARKController.bump.
  destruct (String.eqb_spec k key) as [->|Hne].
  - unfold value_of at 1. rewrite dict_get_set_same. unfold value_of.
    reflexivity.
  - unfold value_of. rewrite dict_get_set_other by exact Hne. lia.
Qed.

Lemma fold_bump (keys : list string) :
  forall counts,
    NoDup (map fst counts) ->
    Forall (fun n => 1 <= n)%Z (dict_values counts) ->
    let table := fold_left JahConsciousARKController.bump keys counts in
    NoDup (map fst table)
    /\ Forall (fun n => 1 <= n)%Z (dict_values table)
    /\ Zsum (dict_values table)
       = (Zsum (dict_values counts) + Z.of_nat (List.length keys))%Z
    /\ (forall k,
          value_of k table
          = (value_of k counts + Z.of_nat (count_occ string_dec keys k))%Z)
    /\ (forall k, In k (map fst table) <-> In k (map fst counts) \/ In k keys).
Proof.
  induction keys as [|key keys IH]; intros counts Hnd Hpos; cbn [fold_left].
  - cbn. repeat split; auto; try lia; tauto.
  - destruct (IH (JahConsciousARKController.bump counts key)) as
      [Hnd' [Hpos' [Hsum [Hval Hkeys]]]].
    + now apply dict_set_keys_NoDup.
    + now apply bump_counts.
    + split; [exact Hnd'|]. split; [exact Hpos'|].
      split; [|split].
      * rewrite Hsum. unfold JahConsciousARKController.bump.
        rewrite Zsum_dict_set. unfold value_of. cbn [List.length]. lia.
      * intros k. rewrite Hval, bump_value. cbn [count_occ].
        destruct (string_dec key k) as [->|Hne].
        -- rewrite String.eqb_refl. lia.
        -- destruct (String.eqb_spec k key); [congruence | lia].
      * intros k. rewrite Hkeys. unfold JahConsciousARKController.bump.
        rewrite dict_set_keys_In. cbn [In]. intuition.
Qed.

(** The frequency table of a list of keys: distinct keys, each with the
    number of its occurrences. *)
Lemma counts_of_spec (keys : list string) :
  NoDup (map fst (counts_of keys))
  /\ Zsum (dict_values (counts_of keys)) = Z.of_nat (List.length keys)
  /\ forall k,
       dict_get k (counts_of keys)
       = if count_occ string_dec keys k =? 0 then None
         else Some (Z.of_nat (count_occ string_dec keys k)).
Proof.
  destruct (fold_bump keys [] (NoDup_nil _) (Forall_nil _))
    as [Hnd [Hpos [Hsum [Hval Hkeys]]]].
  fold (counts_of keys) in *.
  split; [exact Hnd|]. split; [exact Hsum|].
  intros k. specialize (Hval k). unfold value_of in Hval. cbn [dict_get] in Hval.
  destruct (dict_get k (counts_of keys)) as [n|] eqn:E.
  - apply dict_get_In in E. rewrite Forall_forall in Hpos.
    specialize (Hpos n E).
    destruct (Nat.eqb_spec (count_occ string_dec keys k) 0); [lia|].
    f_equal. lia.
  - destruct (Nat.eqb_spec (count_occ string_dec keys k) 0); [reflexivity | lia].
Qed.

Lemma fold_left_Zadd (l : list Z) : forall a, fold_left Z.add l a = (a + Zsum l)%Z.
Proof.
  unfold Zsum. induction l as [|x l IH]; intros a; cbn [fold_left fold_right];
    [lia | rewrite IH; lia].
Qed.

Lemma principle_counts_flat (revelations : list Revelation.t) :
  forall counts,
    fold_left
      (fun counts r =>
         fold_left JahConsciousARKController.bump (Revelation.principles r) counts)
      revelations counts
    = fold_left JahConsciousARKController.bump
        (flat_map Revelation.principles revelations) counts.
Proof.
  induction revelations as [|r revelations IH]; intros counts;
    cbn [fold_left flat_map]; [reflexivity|].
  now rewrite fold_left_app, IH.
Qed.

Lemma level_counts_map (revelations : list Revelation.t) :
  forall counts,
    fold_left
      (fun counts r =>
         JahConsciousARKController.bump counts (Revelation.revelation_level r))
      revelations counts
    = fold_left JahConsciousARKController.bump
        (map Revelation.revelation_level revelations) counts.
Proof.
  induction revelations as [|r revelations IH]; intros counts;
    cbn [fold_left map]; [reflexivity | apply IH].
Qed.

(** The fields of the report of a non-empty store. *)
Lemma report_fields (self : JahConsciousARKController.t) :
  JahConsciousARKController.revelations_received self <> [] ->
  exists report,
    JahConsciousARKController.get_divine_insights_report self = Some report
    /\ dict_get "insights_by_level" report
       = Some (counts_to_value
                 (level_counts_of
                    (JahConsciousARKController.revelations_received self)))
    /\ dict_get "principles_applied" report
       = Some (counts_to_value
                 (principle_counts_of
                    (JahConsciousARKController.revelations_received self)))
    /\ dict_get "most_common_revelation_level" report
       = (let level_counts :=
            level_counts_of (JahConsciousARKController.revelations_received self) in
          Some (VDict
                  [ ("level", VStr (fst (most_common_of level_counts)));
                    ("count", VInt (snd (most_common_of level_counts)));
                    ("percentage",
                     VFloat
                       (inject_Z (snd (most_common_of level_counts))
                        / Qlen (JahConsciousARKController.revelations_received
                                  self))) ]))
    /\ dict_get "most_common_principle" report
       = (let principle_counts :=
            principle_counts_of
              (JahConsciousARKController.revelations_received self) in
          Some (VDict
                  [ ("principle", VStr (fst (most_common_of principle_counts)));
                    ("count", VInt (snd (most_common_of principle_counts)));
                    ("percentage",
                     match principle_counts with
                     | [] => VInt 0
                     | _ =>
                         VFloat
                           (inject_Z (snd (most_common_of principle_counts))
                            / inject_Z (Zsum (dict_values principle_counts)))
                     end) ]))
    /\ dict_get "recent_insights" report
       = Some (VList
                 (map insight_summary
                    (recent_of
                       (JahConsciousARKController.revelations_received self)))).
Proof.
  intros Hne.
  unfold JahConsciousARKController.get_divine_insights_report.
  destruct (JahConsciousARKController.revelations_received self)
    as [|r revs]; [congruence|]. clear Hne.
  rewrite level_counts_map, principle_counts_flat.
  fold (counts_of (map Revelation.revelation_level (r :: revs))).
  fold (counts_of (flat_map Revelation.principles (r :: revs))).
  fold (level_counts_of (r :: revs)). fold (principle_counts_of (r :: revs)).
  cbv zeta.
  rewrite (py_div_pos _ (Qlen (r :: revs))) by (apply Qlen_pos; discriminate).
  rewrite fold_left_Zadd, Z.add_0_l.
  destruct (counts_of_spec (flat_map Revelation.principles (r :: revs)))
    as [_ [Hsum _]].
  fold (principle_counts_of (r :: revs)) in Hsum.
  destruct (principle_counts_of (r :: revs)) as [|pc pcs] eqn:Epc.
  { eexists. repeat split; reflexivity. }
  rewrite py_div_pos.
  { eexists. repeat split; reflexivity. }
  rewrite Hsum. change 0%Q with (inject_Z 0). rewrite <- Zlt_Qlt.
  destruct (flat_map Revelation.principles (r :: revs)) eqn:Ef;
    [unfold principle_counts_of in Epc; rewrite Ef in Epc; discriminate Epc
    | cbn [List.length]; lia].
Qed.

(** X9: in the report of a non-empty store the two frequency tables list
    each revelation level, and each principle, that occurs in the store
    exactly once, with the number of its occurrences; the level counts add
    up to the number of revelations. *)
Theorem report_frequency_tables :
  forall self,
    JahConsciousARKController.revelations_received self <> [] ->
    let revelations := JahConsciousARKController.revelations_received self in
    let levels := map Revelation.revelation_level revelations in
    let principles := flat_map Revelation.principles revelations in
    exists report level_counts principle_counts,
      JahConsciousARKController.get_divine_insights_report self = Some report
      /\ dict_get "insights_by_level" report
         = Some (VDict (map (fun '(k, n) => (k, VInt n)) level_counts))
      /\ dict_get "principles_applied" report
         = Some (VDict (map (fun '(k, n) => (k, VInt n)) principle_counts))
      /\ NoDup (map fst level_counts)
      /\ NoDup (map fst principle_counts)
      /\ (forall k,
            dict_get k level_counts
            = if count_occ string_dec levels k =? 0 then None
              else Some (Z.of_nat (count_occ string_dec levels k)))
      /\ (forall k,
            dict_get k principle_counts
            = if count_occ string_dec principles k =? 0 then None
              else Some (Z.of_nat (count_occ string_dec principles k)))
      /\ Zsum (dict_values level_counts) = Z.of_nat (List.length revelations)
      /\ Zsum (dict_values principle_counts) = Z.of_nat (List.length principles).
Proof.
  intros self Hne revelations levels principles.
  destruct (report_fields self Hne) as [report [Hr [Hl [Hp _]]]].
  exists report, (level_counts_of revelations), (principle_counts_of revelations).
  destruct (counts_of_spec levels) as [Hnd1 [Hsum1 Hget1]].
  destruct (counts_of_spec principles) as [Hnd2 [Hsum2 Hget2]].
  unfold levels in Hsum1. rewrite length_map in Hsum1.
  repeat split; assumption.
Qed.

Lemma report_frequency_tables_witness :
  exists report level_counts principle_counts,
    JahConsciousARKController.get_divine_insights_report
      (fold_left JahConsciousARKController.record
         [first_revelation; second_revelation] JahConsciousARKController.init)
    = Some report
    /\ dict_get "insights_by_level" report
       = Some (VDict (map (fun '(k, n) => (k, VInt n)) level_counts))
    /\ dict_get "principles_applied" report
       = Some (VDict (map (fun '(k, n) => (k, VInt n)) principle_counts))
    /\ Zsum (dict_values level_counts) = 2%Z.
Proof.
  destruct (report_frequency_tables
              (fold_left JahConsciousARKController.record
                 [first_revelation; second_revelation]
                 JahConsciousARKController.init))
    as [report [lc [pc [Hr [Hl [Hp [_ [_ [_ [_ [Hsum _]]]]]]]]]]].
  - discriminate.
  - exists report, lc, pc. repeat split; assumption.
Defined.

(** ** The most common level and principle of the insight report *)

Lemma dict_get_In_pair {V} (k : string) (v : V) (d : dict V) :
  dict_get k d = Some v -> In (k, v) d.
Proof.
  induction d as [|[k' v'] d IH]; cbn [dict_get In]; [discriminate|].
  destruct (String.eqb_spec k k') as [->|Hne].
  - intros [= ->]. now left.
  - intros H. right. auto.
Qed.

Lemma dict_get_NoDup {V} (k : string) (v : V) (d : dict V) :
  NoDup (map fst d) -> In (k, v) d -> dict_get k d = Some v.
Proof.
  induction d as [|[k' v'] d IH]; cbn [dict_get In map fst]; [intros _ []|].
  intros Hnd [Heq|Hin].
  - injection Heq as -> ->. now rewrite String.eqb_refl.
  - inversion Hnd as [|? ? Hnotin Hd]; subst.
    destruct (String.eqb_spec k k') as [->|Hne].
    + exfalso. apply Hnotin. apply (in_map fst) in Hin. exact Hin.
    + auto.
Qed.

(** [max] returns the first of the items with the largest count. *)
Lemma max_fold_spec (rest : list (string * Z)) :
  forall before best after,
    Forall (fun item => snd item < snd best)%Z before ->
    Forall (fun item => snd item <= snd best)%Z after ->
    exists before' after',
      (before ++ best :: after ++ rest
       = before'
           ++ fold_left
                (fun best item => if (snd best <? snd item)%Z then item else best)
                rest best
           :: after')%list
      /\ Forall
           (fun item =>
              snd item
              < snd (fold_left
                       (fun best item =>
                          if (snd best <? snd item)%Z then item else best)
                       rest best))%Z
           before'
      /\ Forall
           (fun item =>
              snd item
              <= snd (fold_left
                        (fun best item =>
                           if (snd best <? snd item)%Z then item else best)
                        rest best))%Z
           after'.
Proof.
  induction rest as [|item rest IH]; intros before best after Hb Ha;
    cbn [fold_left].
  - exists before, after. rewrite app_nil_r. auto.
  - destruct (Z.ltb_spec (snd best) (snd item)) as [Hlt|Hge].
    + destruct (IH (before ++ best :: after)%list item []) as
        [b' [a' [Heq [Hb' Ha']]]].
      * apply Forall_app. split.
        -- eapply Forall_impl; [|exact Hb]. cbn. intros; lia.
        -- constructor; [exact Hlt|].
           eapply Forall_impl; [|exact Ha]. cbn. intros; lia.
      * constructor.
      * exists b', a'. split; [|auto].
        rewrite <- Heq. cbn [app]. rewrite <- !app_assoc. cbn [app].
        reflexivity.
    + destruct (IH before best (after ++ [item])%list Hb) as
        [b' [a' [Heq [Hb' Ha']]]].
      * apply Forall_app. split; [exact Ha|]. repeat constructor. exact Hge.
      * exists b', a'. split; [|auto].
        rewrite <- Heq. rewrite <- !app_assoc. reflexivity.
Qed.

Lemma max_item_spec (items : dict Z) (m : string * Z) :
  JahConsciousARKController.max_item items = Some m ->
  exists before after,
    items = (before ++ m :: after)%list
    /\ Forall (fun item => snd item < snd m)%Z before
    /\ Forall (fun item => snd item <= snd m)%Z after.
Proof.
  unfold JahConsciousARKController.max_item.
  destruct items as [|first rest]; [discriminate|]. intros [= <-].
  destruct (max_fold_spec rest [] first [] (Forall_nil _) (Forall_nil _))
    as [b [a [Heq H]]].
  exists b, a. split; [exact Heq | exact H].
Qed.

(** The most common key of a non-empty list of keys. *)
Lemma most_common_counts (keys : list string) :
  keys <> [] ->
  exists k before after,
    most_common_of (counts_of keys)
    = (k, Z.of_nat (count_occ string_dec keys k))
    /\ counts_of keys
       = (before ++ (k, Z.of_nat (count_occ string_dec keys k)) :: after)%list
    /\ Forall
         (fun item => snd item < Z.of_nat (count_occ string_dec keys k))%Z
         before
    /\ Forall
         (fun item => snd item <= Z.of_nat (count_occ string_dec keys k))%Z
         after
    /\ (forall k', count_occ string_dec keys k' <= count_occ string_dec keys k)
    /\ 0 < count_occ string_dec keys k <= List.length keys.
Proof.
  intros Hne. destruct (counts_of_spec keys) as [Hnd [Hsum Hget]].
  unfold most_common_of.
  destruct (JahConsciousARKController.max_item (counts_of keys)) as [[k n]|] eqn:E.
  2:{ unfold JahConsciousARKController.max_item in E.
      destruct (counts_of keys); [|discriminate E].
      destruct keys; [congruence | cbn in Hsum; lia]. }
  destruct (max_item_spec _ _ E) as [before [after [Heq [Hb Ha]]]].
  cbn [snd] in Hb, Ha.
  assert (Hk : dict_get k (counts_of keys) = Some n).
  { apply dict_get_NoDup; [exact Hnd|]. rewrite Heq.
    apply in_or_app. right. now left. }
  pose proof (Hget k) as Hgk. rewrite Hk in Hgk.
  destruct (Nat.eqb_spec (count_occ string_dec keys k) 0) as [|Hpos];
    [discriminate Hgk|]. injection Hgk as ->.
  exists k, before, after.
  split; [reflexivity|]. split; [exact Heq|]. split; [exact Hb|].
  split; [exact Ha|]. split.
  - intros k'. pose proof (Hget k') as Hgk'.
    destruct (Nat.eqb_spec (count_occ string_dec keys k') 0) as [->|Hpos'];
      [lia|].
    apply dict_get_In_pair in Hgk'. rewrite Heq in Hgk'.
    rewrite Forall_forall in Hb, Ha.
    apply in_app_or in Hgk'. destruct Hgk' as [Hin|[Hin|Hin]].
    + specialize (Hb _ Hin). cbn [snd] in Hb. lia.
    + injection Hin as _ Hc. lia.
    + specialize (Ha _ Hin). cbn [snd] in Ha. lia.
  - split; [lia | apply count_occ_bound].
Qed.

Lemma ratio_unit (a b : Z) : (0 < a <= b)%Z -> (0 < inject_Z a / inject_Z b <= 1)%Q.
Proof.
  intros [Ha Hb].
  assert (Hb' : (0 < inject_Z b)%Q).
  { change 0%Q with (inject_Z 0). rewrite <- Zlt_Qlt. lia. }
  split.
  - apply Qlt_shift_div_l; [exact Hb'|]. rewrite Qmult_0_l.
    change 0%Q with (inject_Z 0). rewrite <- Zlt_Qlt. exact Ha.
  - apply Qle_shift_div_r; [exact Hb'|]. rewrite Qmult_1_l.
    rewrite <- Zle_Qle. exact Hb.
Qed.

(** X10: the report names as most common revelation level the first entry
    of its level table with the largest count; no level occurs more often
    in the store, and the percentage is that count over the number of
    revelations, a fraction in (0, 1]. *)
Theorem report_most_common_level :
  forall self,
    JahConsciousARKController.revelations_received self <> [] ->
    let revelations := JahConsciousARKController.revelations_received self in
    let levels := map Revelation.revelation_level revelations in
    exists report level before after,
      let count := Z.of_nat (count_occ string_dec levels level) in
      let percentage := (inject_Z count / Qlen revelations)%Q in
      JahConsciousARKController.get_divine_insights_report self = Some report
      /\ dict_get "most_common_revelation_level" report
         = Some (VDict [ ("level", VStr level);
                         ("count", VInt count);
                         ("percentage", VFloat percentage) ])
      /\ dict_get "insights_by_level" report
         = Some (VDict (map (fun '(k, n) => (k, VInt n))
                          (before ++ (level, count) :: after)))
      /\ Forall (fun item => snd item < count)%Z before
      /\ Forall (fun item => snd item <= count)%Z after
      /\ In level levels
      /\ (forall k,
            count_occ string_dec levels k <= count_occ string_dec levels level)
      /\ (0 < percentage <= 1)%Q.
Proof.
  intros self Hne revelations levels.
  destruct (report_fields self Hne) as [report [Hr [Hl [_ [Hm _]]]]].
  fold revelations in Hl, Hm. cbv zeta in Hm.
  destruct (most_common_counts levels) as
    [level [before [after [Hmc [Heq [Hb [Ha [Hmax Hcount]]]]]]]].
  { intros Hnil. apply Hne. apply map_eq_nil in Hnil. exact Hnil. }
  change (level_counts_of revelations) with (counts_of levels) in Hl, Hm.
  rewrite Hmc in Hm. cbn [fst snd] in Hm.
  exists report, level, before, after. cbv zeta.
  split; [exact Hr|]. split; [exact Hm|].
  split; [rewrite Hl; unfold counts_to_value; now rewrite Heq|].
  split; [exact Hb|]. split; [exact Ha|].
  split; [apply (count_occ_In string_dec); lia|].
  split; [exact Hmax|].
  apply ratio_unit. unfold levels in Hcount. rewrite length_map in Hcount.
  fold levels in Hcount. lia.
Qed.

Lemma report_most_common_level_witness :
  exists report level count percentage,
    JahConsciousARKController.get_divine_insights_report
      (fold_left JahConsciousARKController.record
         [first_revelation; second_revelation] JahConsciousARKController.init)
    = Some report
    /\ dict_get "most_common_revelation_level" report
       = Some (VDict [ ("level", VStr level);
                       ("count", VInt count);
                       ("percentage", VFloat percentage) ])
    /\ (0 < percentage <= 1)%Q.
Proof.
  destruct (report_most_common_level
              (fold_left JahConsciousARKController.record
                 [first_revelation; second_revelation]
                 JahConsciousARKController.init))
    as [report [level [before [after H]]]].
  - discriminate.
  - cbv zeta in H. destruct H as [Hr [Hm [_ [_ [_ [_ [_ Hp]]]]]]].
    eexists report, level, _, _. split; [exact Hr|]. split; [exact Hm|].
    exact Hp.
Defined.

(** X11: the most common principle of the report is the first entry of
    its principle table with the largest count, and its percentage is that
    count over the number of principle mentions, a fraction in (0, 1];
    when no revelation of the store names a principle the entry is the
    placeholder none with count 0 and the integer percentage 0. *)
Theorem report_most_common_principle :
  forall self,
    JahConsciousARKController.revelations_received self <> [] ->
    let revelations := JahConsciousARKController.revelations_received self in
    let principles := flat_map Revelation.principles revelations in
    exists report,
      JahConsciousARKController.get_divine_insights_report self = Some report
      /\ (principles = [] ->
          dict_get "principles_applied" report = Some (VDict [])
          /\ dict_get "most_common_principle" report
             = Some (VDict [ ("principle", VStr "none");
                             ("count", VInt 0);
                             ("percentage", VInt 0) ]))
      /\ (principles <> [] ->
          exists principle before after,
            let count := Z.of_nat (count_occ string_dec principles principle) in
            let percentage :=
              (inject_Z count / inject_Z (Z.of_nat (List.length principles)))%Q in
            dict_get "most_common_principle" report
            = Some (VDict [ ("principle", VStr principle);
                            ("count", VInt count);
                            ("percentage", VFloat percentage) ])
            /\ dict_get "principles_applied" report
               = Some (VDict (map (fun '(k, n) => (k, VInt n))
                                (before ++ (principle, count) :: after)))
            /\ Forall (fun item => snd item < count)%Z before
            /\ Forall (fun item => snd item <= count)%Z after
            /\ In principle principles
            /\ (forall k,
                  count_occ string_dec principles k
                  <= count_occ string_dec principles principle)
            /\ (0 < percentage <= 1)%Q).
Proof.
  intros self Hne revelations principles.
  destruct (report_fields self Hne) as [report [Hr [_ [Hp [_ [Hm _]]]]]].
  fold revelations in Hp, Hm. cbv zeta in Hm.
  exists report. split; [exact Hr|]. split.
  - intros Hnil. unfold principle_counts_of in Hp, Hm.
    fold principles in Hp, Hm. rewrite Hnil in Hp, Hm.
    split; [exact Hp | exact Hm].
  - intros Hsome.
    destruct (most_common_counts principles Hsome) as
      [principle [before [after [Hmc [Heq [Hb [Ha [Hmax Hcount]]]]]]]].
    destruct (counts_of_spec principles) as [_ [Hsum _]].
    unfold principle_counts_of in Hp, Hm. fold principles in Hp, Hm.
    rewrite Hmc, Hsum in Hm. cbn [fst snd] in Hm.
    exists principle, before, after. cbv zeta.
    split.
    { rewrite Hm. rewrite Heq.
      destruct before; reflexivity. }
    split; [rewrite Hp; unfold counts_to_value; now rewrite Heq|].
    split; [exact Hb|]. split; [exact Ha|].
    split; [apply (count_occ_In string_dec); lia|].
    split; [exact Hmax|].
    apply ratio_unit. lia.
Qed.

Lemma report_most_common_principle_witness :
  exists report principle count percentage,
    JahConsciousARKController.get_divine_insights_report
      (fold_left JahConsciousARKController.record
         [first_revelation; second_revelation] JahConsciousARKController.init)
    = Some report
    /\ dict_get "most_common_principle" report
       = Some (VDict [ ("principle", VStr principle);
                       ("count", VInt count);
                       ("percentage", VFloat percentage) ])
    /\ (0 < percentage <= 1)%Q.
Proof.
  destruct (report_most_common_principle
              (fold_left JahConsciousARKController.record
                 [first_revelation; second_revelation]
                 JahConsciousARKController.init))
    as [report [Hr [_ Hsome]]].
  - discriminate.
  - destruct Hsome as [principle [before [after H]]].
    + discriminate.
    + cbv zeta in H. destruct H as [Hm [_ [_ [_ [_ [_ Hpct]]]]]].
      eexists report, principle, _, _. split; [exact Hr|].
      split; [exact Hm | exact Hpct].
Defined.

(** ** The recent insights of the report *)





Lemma length_string_append (a b : string) :
  String.length (a ++ b) = String.length a + String.length b.
Proof.
  induction a as [|c a IH]; cbn [String.append String.length Nat.add];
    [reflexivity | now rewrite IH].
Qed.




(** ** The random sample *)

Lemma set_nth_app {A} (a : list A) (x y : A) (b : list A) :
  set_nth (List.length a) y (a ++ x :: b) = (a ++ y :: b)%list.
Proof.
  induction a as [|z a IH]; cbn [set_nth List.length app]; [reflexivity|].
  now rewrite IH.
Qed.

(** One round of the sample takes an element out of the pool. *)
Lemma sample_round_perm {A} (pool : list A) (d : A) (j : nat) :
  j < List.length pool ->
  Permutation
    (nth j pool d
     :: firstn (List.length pool - 1)
          (set_nth j (nth (List.length pool - 1) pool d) pool))
    pool.
Proof.
  intros Hj.
  destruct (nth_split pool d Hj) as [a [b [Hpool Hlen]]].
  set (x := nth j pool d) in *. clearbody x. subst j pool. clear Hj.
  destruct (exists_last (l := x :: b)) as [b' [y Hb]]; [discriminate|].
  assert (Hlast : nth (List.length (a ++ x :: b) - 1) (a ++ x :: b) d = y).
  { rewrite Hb, app_assoc, length_app. cbn [List.length].
    replace (List.length (a ++ b') + 1 - 1) with (List.length (a ++ b')) by lia.
    now rewrite nth_middle. }
  rewrite Hlast, set_nth_app.
  destruct b' as [|x' b'].
  - cbn [app] in Hb. injection Hb as Hx Hb'. subst y b.
    rewrite length_app. cbn [List.length].
    replace (List.length a + 1 - 1) with (List.length a + 0) by lia.
    rewrite firstn_app_2. cbn [firstn]. rewrite app_nil_r.
    apply Permutation_cons_append.
  - cbn [app] in Hb. injection Hb as Hx Hb'. subst x' b.
    rewrite !length_app. cbn [List.length]. rewrite length_app.
    cbn [List.length].
    replace (List.length a + S (List.length b' + 1) - 1)
      with (List.length a + S (List.length b')) by lia.
    rewrite firstn_app_2.
    change (y :: b' ++ [y])%list with ((y :: b') ++ [y])%list.
    replace (S (List.length b')) with (List.length (y :: b') + 0)
      by (cbn [List.length]; lia).
    rewrite firstn_app_2. cbn [firstn]. rewrite app_nil_r.
    rewrite Permutation_middle.
    apply Permutation_app_head.
    change (x :: b' ++ [y])%list with ((x :: b') ++ [y])%list.
    rewrite <- Permutation_cons_append. apply perm_swap.
Qed.

(** The sample is drawn without replacement: together with what is left
    of the pool it is a rearrangement of the population. *)
Lemma sample_loop_perm {A} (draws : list nat) :
  forall pool : list A,
    List.length draws <= List.length pool ->
    List.length (sample_loop draws pool) = List.length draws
    /\ exists rest, Permutation (sample_loop draws pool ++ rest) pool.
Proof.
  induction draws as [|draw draws IH]; intros pool Hlen.
  - split; [reflexivity|]. exists pool. reflexivity.
  - destruct pool as [|first pool']; [cbn in Hlen; lia|].
    cbn [sample_loop].
    remember (first :: pool') as pool eqn:Epool.
    assert (Hpool : List.length pool = S (List.length pool'))
      by (now rewrite Epool).
    assert (Hj : draw mod List.length pool < List.length pool).
    { apply Nat.mod_upper_bound. lia. }
    pose proof (sample_round_perm pool first _ Hj) as Hround.
    remember (firstn (List.length pool - 1)
                (set_nth (draw mod List.length pool)
                   (nth (List.length pool - 1) pool first) pool)) as pool1.
    assert (Hlen1 : List.length pool1 = List.length pool').
    { apply Permutation_length in Hround. cbn [List.length] in Hround. lia. }
    destruct (IH pool1) as [Hk [rest Hrest]].
    { cbn [List.length] in Hlen. lia. }
    split; [cbn [List.length]; now rewrite Hk|].
    exists rest. cbn [app].
    eapply Permutation_trans; [|exact Hround]. apply perm_skip. exact Hrest.
Qed.

Lemma sample_spec {A} (draws : nat -> nat) (population : list A) (k : nat) :
  k <= List.length population ->
  exists chosen rest,
    sample draws population k = Some chosen
    /\ List.length chosen = k
    /\ Permutation (chosen ++ rest) population.
Proof.
  intros Hk. unfold sample.
  destruct (Nat.ltb_spec (List.length population) k) as [Hlt|_]; [lia|].
  destruct (sample_loop_perm (map draws (seq 0 k)) population) as
    [Hlen [rest Hperm]].
  { now rewrite length_map, length_seq. }
  rewrite length_map, length_seq in Hlen.
  eexists _, rest. split; [reflexivity|]. split; assumption.
Qed.

(** ** The metrics and the recommendations of the code review *)

Lemma divine_metrics_shape (code : string)
    (pa : DivinePatternRecognizer.analysis) :
  MysticalCodeOracleReview._calculate_divine_metrics code pa
  = let indent_levels :=
      DivinePatternRecognizer._analyze_indentation_pattern
        (Text.split_lines code) in
    let n := (1 / (1 + Qlen (Text.split code) / 100))%Q in
    let p := DivinePatternRecognizer.divine_alignment_score pa in
    match indent_levels with
    | [] =>
        [ ("natural_law_score", n);
          ("pattern_score", p);
          ("overall_divine_alignment", (Qsum [n; p] / inject_Z 2)%Q) ]
    | _ =>
        let avg_indent :=
          (inject_Z (fold_left Z.add indent_levels 0%Z) / Qlen indent_levels)%Q in
        let variance :=
          (Qsum (map (fun i => (inject_Z i - avg_indent) ^ 2) indent_levels)
           / Qlen indent_levels)%Q in
        let o := (1 / (1 + variance))%Q in
        [ ("order_score", o);
          ("natural_law_score", n);
          ("pattern_score", p);
          ("overall_divine_alignment", (Qsum [o; n; p] / inject_Z 3)%Q) ]
    end.
Proof.
  unfold MysticalCodeOracleReview._calculate_divine_metrics,
    DivinePatternRecognizer._analyze_indentation_pattern.
  pose proof (split_lines_nonempty code) as Hne.
  destruct (Text.split_lines code) as [|line lines]; [congruence|].
  destruct (flat_map _ (line :: lines)); reflexivity.
Qed.

Lemma Zsum_constant (c : Z) (l : list Z) :
  Forall (eq c) l ->
  forall a, fold_left Z.add l a = (a + c * Z.of_nat (List.length l))%Z.
Proof.
  induction 1 as [|x l <- _ IH]; intros a; cbn [fold_left List.length]; [lia|].
  rewrite IH. lia.
Qed.

Lemma Qsquare_nonneg (x : Q) : (0 <= x ^ 2)%Q.
Proof. change (x ^ 2)%Q with (x * x)%Q. nra. Qed.

Lemma Qsquare_zero (x : Q) : (x ^ 2 == 0)%Q <-> (x == 0)%Q.
Proof.
  change (x ^ 2)%Q with (x * x)%Q. split; intros H; [nra | rewrite H; lra].
Qed.

Lemma Qminus_zero (a b : Q) : (a - b == 0)%Q <-> (a == b)%Q.
Proof. split; intros H; lra. Qed.

(** The spread of a list of integers about its mean is 0 exactly when
    the integers are all the same. *)
Lemma variance_zero (l : list Z) :
  l <> [] ->
  let avg := (inject_Z (fold_left Z.add l 0%Z) / Qlen l)%Q in
  let variance := (Qsum (map (fun i => (inject_Z i - avg) ^ 2) l) / Qlen l)%Q in
  (0 <= variance)%Q
  /\ ((variance == 0)%Q <-> exists c, Forall (eq c) l).
Proof.
  intros Hne avg variance.
  pose proof (Qlen_pos l Hne) as Hlen.
  assert (Hsq : Forall (fun x => 0 <= x)%Q
                  (map (fun i => (inject_Z i - avg) ^ 2)%Q l)).
  { apply Forall_forall. intros x Hx. apply in_map_iff in Hx.
    destruct Hx as [i [<- _]]. apply Qsquare_nonneg. }
  pose proof (fold_Qplus_nonneg _ Hsq 0%Q) as Hsum.
  fold (Qsum (map (fun i => (inject_Z i - avg) ^ 2)%Q l)) in Hsum.
  split.
  { unfold variance. apply Qle_shift_div_l; [exact Hlen | lra]. }
  assert (Hzero : (variance == 0)%Q
                  <-> Forall (fun i => inject_Z i == avg)%Q l).
  { unfold variance. split.
    - intros Hv.
      assert (Hs : (Qsum (map (fun i => (inject_Z i - avg) ^ 2) l) == 0)%Q).
      { assert (Hmul : (Qsum (map (fun i => (inject_Z i - avg) ^ 2) l)
                        == Qsum (map (fun i => (inject_Z i - avg) ^ 2) l)
                           / Qlen l * Qlen l)%Q) by (field; lra).
        rewrite Hmul, Hv. lra. }
      apply (proj1 (Qsum_zero _ Hsq 0%Q)) in Hs.
      rewrite Forall_forall in Hs |- *. intros i Hi.
      specialize (Hs _ (in_map _ _ _ Hi)). cbv beta in Hs.
      apply (proj1 (Qsquare_zero _)) in Hs. exact (proj1 (Qminus_zero _ _) Hs).
    - intros Hall.
      assert (Hs : (Qsum (map (fun i => (inject_Z i - avg) ^ 2) l) == 0)%Q).
      { apply (proj2 (Qsum_zero _ Hsq 0%Q)).
        apply Forall_forall. intros x Hx. apply in_map_iff in Hx.
        destruct Hx as [i [<- Hi]]. rewrite Forall_forall in Hall.
        specialize (Hall i Hi). apply (proj2 (Qsquare_zero _)).
        exact (proj2 (Qminus_zero _ _) Hall). }
      rewrite Hs. unfold Qdiv. lra. }
  rewrite Hzero. split.
  - intros Hall. destruct l as [|c l]; [congruence|]. exists c.
    rewrite Forall_forall in Hall |- *. intros i Hi.
    pose proof (Hall c (or_introl eq_refl)) as Hc. specialize (Hall i Hi).
    apply inject_Z_injective. now rewrite Hc, Hall.
  - intros [c Hc].
    assert (Havg : (avg == inject_Z c)%Q).
    { unfold avg. rewrite (Zsum_constant c l Hc), Z.add_0_l, inject_Z_mult.
      fold (Qlen l). field. lra. }
    apply Forall_forall. intros i Hi. rewrite Forall_forall in Hc.
    rewrite <- (Hc i Hi). now rewrite Havg.
Qed.

(** X13: the metrics of a code review: the natural-law score is
    100 / (100 + number of words), the order score is absent exactly when
    the code has no non-blank line and is 1 exactly when all non-blank
    lines are indented alike, the overall score is the mean of the two or
    three scores before it, and every metric lies in [0,1] when the
    pattern score does. *)
Theorem divine_metrics_in_unit_interval :
  forall code pattern_analysis,
    unit_interval
      (DivinePatternRecognizer.divine_alignment_score pattern_analysis) ->
    let metrics :=
      MysticalCodeOracleReview._calculate_divine_metrics code pattern_analysis in
    let indent_levels :=
      DivinePatternRecognizer._analyze_indentation_pattern
        (Text.split_lines code) in
    (forall key q, dict_get key metrics = Some q -> unit_interval q)
    /\ (exists n,
           dict_get "natural_law_score" metrics = Some n
           /\ (n == 100 / (100 + Qlen (Text.split code)))%Q
           /\ (0 < n)%Q)
    /\ dict_get "pattern_score" metrics
       = Some (DivinePatternRecognizer.divine_alignment_score pattern_analysis)
    /\ (dict_get "order_score" metrics = None <-> indent_levels = [])
    /\ (forall o,
           dict_get "order_score" metrics = Some o ->
           (0 < o)%Q /\ ((o == 1)%Q <-> exists c, Forall (eq c) indent_levels))
    /\ (exists overall,
           dict_get "overall_divine_alignment" metrics = Some overall
           /\ (overall
               == (MysticalCodeOracleReview.metric_or "order_score" 0 metrics
                   + MysticalCodeOracleReview.metric_or "natural_law_score" 0 metrics
                   + MysticalCodeOracleReview.metric_or "pattern_score" 0 metrics)
                  / (match indent_levels with [] => 2 | _ => 3 end))%Q).
Proof.
  intros code pa Hp metrics indent_levels.
  unfold metrics. rewrite divine_metrics_shape. cbv zeta. fold indent_levels.
  pose proof (Qlen_nonneg (Text.split code)) as Hwords.
  set (n := (1 / (1 + Qlen (Text.split code) / 100))%Q).
  assert (Hn : (0 < n <= 1)%Q)
    by (apply inv_one_plus; apply Qle_shift_div_l; lra).
  assert (Hn' : (n == 100 / (100 + Qlen (Text.split code)))%Q)
    by (unfold n; field; lra).
  set (p := DivinePatternRecognizer.divine_alignment_score pa) in *.
  destruct indent_levels as [|i indents] eqn:Ei.
  - assert (Hall : Forall unit_interval [n; p]).
    { repeat constructor; try apply Hp; lra. }
    pose proof (Qmean_unit [n; p] ltac:(discriminate) Hall) as Hmean.
    change (Qlen [n; p]) with (inject_Z 2) in Hmean.
    split.
    { intros key q. cbn [dict_get].
      repeat (destruct (String.eqb key _);
              [intros [= <-]; first [exact Hmean | exact Hp | split; lra]|]).
      discriminate. }
    split; [exists n; repeat split; [exact Hn' | lra]|].
    split; [reflexivity|]. split; [split; reflexivity|].
    split; [intros o H; discriminate H|].
    eexists. split; [reflexivity|].
    unfold MysticalCodeOracleReview.metric_or, Qsum. cbn. field.
  - set (l := i :: indents) in *.
    destruct (variance_zero l ltac:(discriminate)) as [Hv Hzero].
    cbv zeta in Hv, Hzero.
    set (variance :=
           (Qsum
              (map
                 (fun i0 =>
                    (inject_Z i0
                     - inject_Z (fold_left Z.add l 0%Z) / Qlen l) ^ 2) l)
            / Qlen l)%Q) in *.
    destruct (inv_one_plus variance Hv) as [Ho Hone].
    set (o := (1 / (1 + variance))%Q) in *.
    assert (Hall : Forall unit_interval [o; n; p]).
    { repeat constructor; try apply Hp; lra. }
    pose proof (Qmean_unit [o; n; p] ltac:(discriminate) Hall) as Hmean.
    change (Qlen [o; n; p]) with (inject_Z 3) in Hmean.
    split.
    { intros key q. cbn [dict_get].
      repeat (destruct (String.eqb key _);
              [intros [= <-]; first [exact Hmean | exact Hp | split; lra]|]).
      discriminate. }
    split; [exists n; repeat split; [exact Hn' | lra]|].
    split; [reflexivity|].
    split; [split; intros H; discriminate H|].
    split.
    { intros o' [= <-]. split; [lra|]. rewrite Hone. exact Hzero. }
    eexists. split; [reflexivity|].
    unfold MysticalCodeOracleReview.metric_or, Qsum. cbn. field.
Qed.

Lemma divine_metrics_in_unit_interval_witness :
  exists n,
    dict_get "natural_law_score"
      (MysticalCodeOracleReview._calculate_divine_metrics two_block_code
         (DivinePatternRecognizer.analyze_code_for_divine_patterns two_block_code))
    = Some n
    /\ (0 < n)%Q.
Proof.
  destruct (divine_metrics_in_unit_interval two_block_code
              (DivinePatternRecognizer.analyze_code_for_divine_patterns
                 two_block_code))
    as [_ [[n [Hn [_ Hpos]]] _]].
  - vm_compute. split; discriminate.
  - exists n. split; [exact Hn | exact Hpos].
Defined.

Lemma NoDup_divine_recs : NoDup MysticalCodeOracleReview.divine_recs.
Proof.
  unfold MysticalCodeOracleReview.divine_recs.
  repeat (constructor; [cbn [In]; intros H;
                        repeat (destruct H as [H|H]; [discriminate H|]);
                        exact H|]).
  constructor.
Qed.

(** X14: [_generate_divine_recommendations] never fails; it returns at
    most three specific recommendations, each exactly when its score is
    below its threshold, followed by two different entries of the list of
    five general maxims: between 2 and 5 recommendations in all. *)
Theorem divine_recommendations_shape :
  forall draws pattern_analysis metrics,
  exists specific general,
    MysticalCodeOracleReview._generate_divine_recommendations draws
      pattern_analysis metrics
    = Some (specific ++ general)%list
    /\ List.length general = 2
    /\ NoDup general
    /\ incl general MysticalCodeOracleReview.divine_recs
    /\ (In "Seek more sacred patterns in your code structure" specific
        <-> (DivinePatternRecognizer.divine_alignment_score pattern_analysis
             < 5 # 10)%Q)
    /\ (In "Bring more divine order through consistent structure" specific
        <-> (MysticalCodeOracleReview.metric_or "order_score" 1 metrics
             < 7 # 10)%Q)
    /\ (In "Simplify to align with natural laws of elegance" specific
        <-> (MysticalCodeOracleReview.metric_or "natural_law_score" 1 metrics
             < 6 # 10)%Q)
    /\ (forall r, In r specific -> ~ In r MysticalCodeOracleReview.divine_recs)
    /\ 2 <= List.length (specific ++ general) <= 5.
Proof.
  intros draws pa metrics.
  unfold MysticalCodeOracleReview._generate_divine_recommendations.
  destruct (sample_spec draws MysticalCodeOracleReview.divine_recs 2)
    as [general [rest [Hs [Hlen Hperm]]]]; [cbn; lia|].
  rewrite Hs.
  assert (Hnd : NoDup general).
  { apply (NoDup_app_remove_r _ rest).
    apply (Permutation_NoDup (Permutation_sym Hperm)), NoDup_divine_recs. }
  assert (Hincl : incl general MysticalCodeOracleReview.divine_recs).
  { intros x Hx. apply (Permutation_in _ Hperm). apply in_or_app. now left. }
  destruct (Qlt_le_dec _ (5 # 10)) as [H1|H1];
    destruct (Qlt_le_dec _ (7 # 10)) as [H2|H2];
    destruct (Qlt_le_dec _ (6 # 10)) as [H3|H3];
    (eexists _, general; split; [reflexivity|];
     split; [exact Hlen|]; split; [exact Hnd|]; split; [exact Hincl|];
     rewrite ?length_app, Hlen; cbn [app In List.length];
     repeat split; intros;
     repeat match goal with
       | H : _ \/ _ |- _ => destruct H
       | H : False |- _ => destruct H
       | H : _ = _ |- _ => first [discriminate H | subst]
       end;
     try lia; try lra; auto;
     try (unfold MysticalCodeOracleReview.divine_recs; cbn [In];
          intros Hin;
          repeat (destruct Hin as [Hin|Hin]; [discriminate Hin|]);
          exact Hin)).
Qed.

(** ** The positive vibration analyzer *)

(** X15: the vibration score of a text is 0.2 plus 0.15 for each of the
    five markers it contains, so it lies between 0.2 and 0.95 and the cap
    at 1 never acts; the level is never LOW: it is NEUTRAL for at most one
    marker, POSITIVE for two or three and IRATION for four or five. *)
Theorem vibration_level_by_markers :
  forall text,
    let r := PositiveVibrationAnalyzer.analyze text in
    let matches :=
      List.length
        (filter (fun marker => Text.contains marker (Text.lower text))
           PositiveVibrationAnalyzer.positive_markers) in
    (score r == (2 # 10) + inject_Z (Z.of_nat matches) * (15 # 100))%Q
    /\ (2 # 10 <= score r <= 95 # 100)%Q
    /\ vibration_level r <> LOW
    /\ (vibration_level r = NEUTRAL <-> matches <= 1)
    /\ (vibration_level r = POSITIVE <-> 2 <= matches <= 3)
    /\ (vibration_level r = IRATION <-> 4 <= matches).
Proof.
  intros text r matches. unfold r, PositiveVibrationAnalyzer.analyze.
  fold matches. cbv zeta. cbn [score vibration_level].
  assert (Hm : matches <= 5).
  { unfold matches.
    apply (Nat.le_trans _ _ _ (filter_length_le _ _)). cbn. lia. }
  clearbody matches.
  do 6 (destruct matches as [|matches];
        [vm_compute; repeat split; intros; try discriminate; try lia;
         try (exfalso; lia)|]).
  lia.
Qed.

(** ** The guidance of the system *)

Lemma selected_ritual_cases (question : string) :
  In (DivineGuidance._select_ritual_for_question question)
    (map fst SacredCodingRitual.ritual_steps).
Proof.
  unfold DivineGuidance._select_ritual_for_question.
  repeat match goal with
         | |- context [if ?c then _ else _] => destruct c
         end; cbn; tauto.
Qed.

Lemma registered_ritual_record e name context :
  In name (map fst SacredCodingRitual.ritual_steps) ->
  dict_get "error" (SacredCodingRitual.perform_ritual e name context) = None
  /\ dict_get "ritual" (SacredCodingRitual.perform_ritual e name context)
     = Some (VStr name).
Proof.
  cbn [map fst SacredCodingRitual.ritual_steps In].
  intros H.
  repeat (destruct H as [<-|H]; [split; reflexivity|]).
  destruct H.
Qed.

(** X16: the ritual selected for a question is always one of the five
    registered rituals, [code_blessing] when no keyword occurs in the
    question; so the ritual performed for it never yields an error
    record. *)
Theorem selected_ritual_is_registered :
  forall question,
    In (DivineGuidance._select_ritual_for_question question)
      (map fst SacredCodingRitual.ritual_steps)
    /\ (forall e context,
           dict_get "error"
             (SacredCodingRitual.perform_ritual e
                (DivineGuidance._select_ritual_for_question question) context)
           = None
           /\ dict_get "ritual"
                (SacredCodingRitual.perform_ritual e
                   (DivineGuidance._select_ritual_for_question question) context)
              = Some (VStr (DivineGuidance._select_ritual_for_question question)))
    /\ ((forall word,
            In word
              [ "morning"; "start"; "begin"; "new"; "bless"; "consecrate";
                "dedicate"; "problem"; "bug"; "error"; "debug"; "fix";
                "complete"; "finish"; "done"; "accomplish"; "evening"; "end";
                "reflect"; "review" ] ->
            Text.contains word (Text.lower question) = false) ->
        DivineGuidance._select_ritual_for_question question = "code_blessing").
Proof.
  intros question. split; [apply selected_ritual_cases|]. split.
  - intros e context. apply registered_ritual_record, selected_ritual_cases.
  - intros Hnone. unfold DivineGuidance._select_ritual_for_question,
      DivineGuidance.any_in. cbn [existsb].
    rewrite !Hnone by (cbn [In]; tauto). reflexivity.
Qed.

Lemma selected_ritual_is_registered_witness :
  DivineGuidance._select_ritual_for_question "How do I pray?" = "code_blessing".
Proof.
  apply (proj2 (proj2 (selected_ritual_is_registered "How do I pray?"))).
  intros word H. cbn [In] in H.
  repeat (destruct H as [<-|H]; [vm_compute; reflexivity|]).
  destruct H.
Defined.

Lemma seek_guidance_appends e history question context wisdom history' :
  MysticalCodeOracle.seek_guidance e history question context
  = Some (wisdom, history') ->
  history' = (history ++ [wisdom])%list
  /\ In (revelation_level wisdom)
       [ HUMAN_UNDERSTANDING; SPIRITUAL_INSIGHT; DIVINE_REVELATION;
         MYSTICAL_KNOWLEDGE ]
  /\ principle wisdom
     = hd DIVINE_ORDER (MysticalCodeOracle._extract_principles question)
  /\ message wisdom <> "".
Proof.
  unfold MysticalCodeOracle.seek_guidance.
  destruct (MysticalCodeOracle._find_divine_signs e context); [|discriminate].
  intros [= <- <-]. cbn [revelation_level principle message].
  split; [reflexivity|]. split; [|split].
  - unfold MysticalCodeOracle._determine_revelation_level.
    repeat match goal with
           | |- context [if ?c then _ else _] => destruct c
           end; cbn; tauto.
  - destruct (MysticalCodeOracle._extract_principles question); reflexivity.
  - unfold MysticalCodeOracle._generate_wisdom_message.
    intros H. apply (f_equal String.length) in H.
    rewrite !length_string_append in H. cbn [String.length] in H. lia.
Qed.

Lemma divine_recommendations_total draws pa metrics :
  exists recommendations,
    MysticalCodeOracleReview._generate_divine_recommendations draws pa metrics
    = Some recommendations
    /\ 2 <= List.length recommendations <= 5.
Proof.
  unfold MysticalCodeOracleReview._generate_divine_recommendations.
  destruct (sample_spec draws MysticalCodeOracleReview.divine_recs 2)
    as [general [rest [Hs [Hlen _]]]]; [cbn; lia|].
  rewrite Hs. eexists. split; [reflexivity|].
  rewrite length_app, Hlen.
  destruct (Qlt_le_dec _ (5 # 10)); destruct (Qlt_le_dec _ (7 # 10));
    destruct (Qlt_le_dec _ (6 # 10)); cbn [app List.length]; lia.
Qed.

Lemma divine_code_review_cases e draws history code context :
  match MysticalCodeOracleReview.divine_code_review e draws history code context with
  | None =>
      MysticalCodeOracle.seek_guidance e history
        ("Code review for divine alignment: "
         ++ Value.str
              (SacredCodingRitual.get_or "purpose" (VStr "unknown")
                 (SacredCodingRitual.context_or_empty context)))
        (SacredCodingRitual.context_or_empty context)
      = None
  | Some (r, history') =>
      MysticalCodeOracle.seek_guidance e history
        ("Code review for divine alignment: "
         ++ Value.str
              (SacredCodingRitual.get_or "purpose" (VStr "unknown")
                 (SacredCodingRitual.context_or_empty context)))
        (SacredCodingRitual.context_or_empty context)
      = Some (MysticalCodeOracleReview.guidance r, history')
      /\ MysticalCodeOracleReview.pattern_analysis r
         = DivinePatternRecognizer.analyze_code_for_divine_patterns code
      /\ MysticalCodeOracleReview.divine_metrics r
         = MysticalCodeOracleReview._calculate_divine_metrics code
             (DivinePatternRecognizer.analyze_code_for_divine_patterns code)
      /\ 2 <= List.length (MysticalCodeOracleReview.recommendations r) <= 5
  end.
Proof.
  unfold MysticalCodeOracleReview.divine_code_review.
  destruct (MysticalCodeOracle.seek_guidance e history _ _) as [[w h]|];
    [|reflexivity].
  destruct (divine_recommendations_total draws
              (DivinePatternRecognizer.analyze_code_for_divine_patterns code)
              (MysticalCodeOracleReview._calculate_divine_metrics code
                 (DivinePatternRecognizer.analyze_code_for_divine_patterns code)))
    as [recs [-> Hlen]].
  cbn. repeat split; try reflexivity; lia.
Qed.

(** What [seek_divine_guidance] returns, and when. *)
Lemma seek_divine_guidance_spec :
  forall e e_review draws history question code_context,
    let context := SacredCodingRitual.context_or_empty code_context in
    (forall g history',
        DivineGuidance.seek_divine_guidance e e_review draws history question
          code_context
        = Some (g, history') ->
        MysticalCodeOracle.seek_guidance e history question context
        = Some (DivineGuidance.divine_wisdom g,
                (history ++ [DivineGuidance.divine_wisdom g])%list)
        /\ DivineGuidance.sacred_ritual g = None
        /\ DivineGuidance.scriptural_guidance g
           = ScripturalWisdom.get_wisdom_for_situation ScripturalWisdom.init
               question
        /\ dict_get "error" (DivineGuidance.ritual g) = None
        /\ match dict_get "code" context with
           | None =>
               DivineGuidance.code_analysis g = None
               /\ history'
                  = (history ++ [DivineGuidance.divine_wisdom g])%list
           | Some v =>
               exists code r,
                 v = VStr code
                 /\ DivineGuidance.code_analysis g = Some r
                 /\ history'
                    = (history
                       ++ [ DivineGuidance.divine_wisdom g;
                            MysticalCodeOracleReview.guidance r ])%list
                 /\ MysticalCodeOracleReview.pattern_analysis r
                    = DivinePatternRecognizer.analyze_code_for_divine_patterns
                        code
                 /\ 2 <= List.length (MysticalCodeOracleReview.recommendations r)
                    <= 5
           end)
    /\ (dict_get "line_count" context = None ->
        (forall v, dict_get "code" context = Some v -> exists code, v = VStr code) ->
        exists g history',
          DivineGuidance.seek_divine_guidance e e_review draws history question
            code_context
          = Some (g, history')).
Proof.
  intros e e_review draws history question code_context context.
  unfold DivineGuidance.seek_divine_guidance. fold context. split.
  - intros g history'.
    destruct (MysticalCodeOracle.seek_guidance e history question context)
      as [[wisdom history1]|] eqn:Ew; [|discriminate].
    destruct (seek_guidance_appends _ _ _ _ _ _ Ew) as [-> _].
    destruct (dict_get "code" context) as [v|] eqn:Ecode.
    + destruct v as [| | | |code| |]; try discriminate.
      pose proof (divine_code_review_cases e_review draws
                    (history ++ [wisdom])%list code (Some context)) as Hr.
      destruct (MysticalCodeOracleReview.divine_code_review e_review draws
                  (history ++ [wisdom])%list code (Some context))
        as [[r history2]|]; [|discriminate].
      destruct Hr as [Hseek [Hpa [_ Hrecs]]].
      apply seek_guidance_appends in Hseek. destruct Hseek as [-> _].
      intros [= <- <-]. cbn [DivineGuidance.divine_wisdom
                             DivineGuidance.sacred_ritual DivineGuidance.ritual
                             DivineGuidance.code_analysis
                             DivineGuidance.scriptural_guidance].
      split; [reflexivity|]. split; [reflexivity|]. split; [reflexivity|].
      split; [apply registered_ritual_record, selected_ritual_cases|].
      exists code, r. rewrite <- app_assoc. cbn [app].
      repeat split; try reflexivity; try exact Hpa; lia.
    + intros [= <- <-]. cbn [DivineGuidance.divine_wisdom
                             DivineGuidance.sacred_ritual DivineGuidance.ritual
                             DivineGuidance.code_analysis
                             DivineGuidance.scriptural_guidance].
      split; [reflexivity|]. split; [reflexivity|]. split; [reflexivity|].
      split; [apply registered_ritual_record, selected_ritual_cases|].
      split; reflexivity.
  - intros Hline Hcode.
    destruct (seek_guidance_returns e history question context Hline)
      as [wisdom ->].
    destruct (dict_get "code" context) as [v|] eqn:Ecode.
    + destruct (Hcode v eq_refl) as [code ->].
      pose proof (divine_code_review_cases e_review draws
                    (history ++ [wisdom])%list code (Some context)) as Hr.
      destruct (MysticalCodeOracleReview.divine_code_review e_review draws
                  (history ++ [wisdom])%list code (Some context))
        as [[r history2]|]; [eexists _, _; reflexivity|].
      exfalso.
      assert (Hctx : SacredCodingRitual.context_or_empty (Some context) = context).
      { unfold context. destruct code_context as [[|kv c]|]; reflexivity. }
      rewrite Hctx in Hr.
      destruct (seek_guidance_returns e_review (history ++ [wisdom])%list
                  ("Code review for divine alignment: "
                   ++ Value.str
                        (SacredCodingRitual.get_or "purpose" (VStr "unknown")
                           context))
                  context Hline) as [w Hw].
      rewrite Hw in Hr. discriminate Hr.
    + eexists _, _. reflexivity.
Qed.

(** X17: when [seek_divine_guidance] returns, the history of the oracle
    has grown by the wisdom given for the question and, if the context
    holds a [code], by the guidance of the code review after it, and by
    nothing else; the ritual record is never an error record.  It does
    return whenever the context has no [line_count] and its [code], if
    any, is a text. *)
Theorem system_guidance_extends_history :
  forall e e_review draws history question code_context,
    let context := SacredCodingRitual.context_or_empty code_context in
    (forall g history',
        DivineGuidance.seek_divine_guidance e e_review draws history question
          code_context
        = Some (g, history') ->
        MysticalCodeOracle.seek_guidance e history question context
        = Some (DivineGuidance.divine_wisdom g,
                (history ++ [DivineGuidance.divine_wisdom g])%list)
        /\ DivineGuidance.sacred_ritual g = None
        /\ DivineGuidance.scriptural_guidance g
           = ScripturalWisdom.get_wisdom_for_situation ScripturalWisdom.init
               question
        /\ dict_get "error" (DivineGuidance.ritual g) = None
        /\ match dict_get "code" context with
           | None =>
               DivineGuidance.code_analysis g = None
               /\ history'
                  = (history ++ [DivineGuidance.divine_wisdom g])%list
           | Some v =>
               exists code r,
                 v = VStr code
                 /\ DivineGuidance.code_analysis g = Some r
                 /\ history'
                    = (history
                       ++ [ DivineGuidance.divine_wisdom g;
                            MysticalCodeOracleReview.guidance r ])%list
                 /\ MysticalCodeOracleReview.pattern_analysis r
                    = DivinePatternRecognizer.analyze_code_for_divine_patterns
                        code
                 /\ 2 <= List.length (MysticalCodeOracleReview.recommendations r)
                    <= 5
           end)
    /\ (dict_get "line_count" context = None ->
        (forall v, dict_get "code" context = Some v -> exists code, v = VStr code) ->
        exists g history',
          DivineGuidance.seek_divine_guidance e e_review draws history question
            code_context
          = Some (g, history')).
Proof. exact seek_divine_guidance_spec. Qed.

Lemma system_guidance_extends_history_witness :
  exists g history',
    DivineGuidance.seek_divine_guidance morning evening (fun i => i) []
      "How do I bless this module?" (Some [ ("code", VStr two_block_code) ])
    = Some (g, history').
Proof.
  apply (proj2 (system_guidance_extends_history morning evening (fun i => i) []
                  "How do I bless this module?"
                  (Some [ ("code", VStr two_block_code) ]))).
  - reflexivity.
  - intros v [= <-]. eexists. reflexivity.
Defined.

(** ** The guided operations of the controller *)

Lemma context_or_empty_some (d : dict value) :
  SacredCodingRitual.context_or_empty (Some d) = d.
Proof. destruct d; reflexivity. Qed.

Lemma seek_divine_coding_guidance_spec :
  forall e e_review draws self question code context,
    (forall g self',
        GuidedController.seek_divine_coding_guidance e e_review draws self
          question code context
        = Some (g, self') ->
        let w := DivineGuidance.divine_wisdom g in
        JahConsciousARKController.revelations_received self'
        = (JahConsciousARKController.revelations_received self
           ++ [revelation_of e question w])%list
        /\ In (revelation_level w)
             [ HUMAN_UNDERSTANDING; SPIRITUAL_INSIGHT; DIVINE_REVELATION;
               MYSTICAL_KNOWLEDGE ]
        /\ principle w
           = hd DIVINE_ORDER (MysticalCodeOracle._extract_principles question)
        /\ message w <> ""
        /\ JahConsciousARKController.daily_practices self'
           = JahConsciousARKController.daily_practices self
        /\ DivineGuidance.scriptural_guidance g
           = ScripturalWisdom.get_wisdom_for_situation ScripturalWisdom.init
               question
        /\ match code_entry code context with
           | None =>
               DivineGuidance.code_analysis g = None
               /\ JahConsciousARKController.jah_system self'
                  = (JahConsciousARKController.jah_system self ++ [w])%list
           | Some v =>
               exists c r,
                 v = VStr c
                 /\ DivineGuidance.code_analysis g = Some r
                 /\ JahConsciousARKController.jah_system self'
                    = (JahConsciousARKController.jah_system self
                       ++ [w; MysticalCodeOracleReview.guidance r])%list
                 /\ MysticalCodeOracleReview.pattern_analysis r
                    = DivinePatternRecognizer.analyze_code_for_divine_patterns c
           end
        /\ (DivineGuidance.sacred_ritual g = None
            <-> existsb (Nat.eqb (hour (now e))) GuidedController.sacred_hours
                || Text.contains "critical" (Text.lower question) = false)
        /\ (forall ritual,
               DivineGuidance.sacred_ritual g = Some ritual ->
               dict_get "error" ritual = None
               /\ dict_get "ritual" ritual = Some (VStr "code_blessing")))
    /\ (dict_get "line_count" (SacredCodingRitual.context_or_empty context) = None ->
        (forall v, code_entry code context = Some v -> exists c, v = VStr c) ->
        exists g self',
          GuidedController.seek_divine_coding_guidance e e_review draws self
            question code context
          = Some (g, self')).
Proof.
  intros e e_review draws self question code context.
  unfold GuidedController.seek_divine_coding_guidance.
  set (ctx0 := SacredCodingRitual.context_or_empty context).
  set (ctx1 := match code with
               | Some c =>
                   if Text.truthy c then dict_set "code" (VStr c) ctx0 else ctx0
               | None => ctx0
               end).
  set (timing := VDict _).
  set (gc := dict_set "sacred_timing" timing ctx1).
  assert (Hcode : dict_get "code" gc = code_entry code context).
  { unfold gc. rewrite dict_get_set_other by discriminate.
    unfold ctx1, code_entry. fold ctx0.
    destruct code as [c|]; [|reflexivity].
    destruct (Text.truthy c); [apply dict_get_set_same | reflexivity]. }
  assert (Hline : dict_get "line_count" gc = dict_get "line_count" ctx0).
  { unfold gc. rewrite dict_get_set_other by discriminate.
    unfold ctx1. destruct code as [c|]; [|reflexivity].
    destruct (Text.truthy c); [|reflexivity].
    now rewrite dict_get_set_other by discriminate. }
  destruct (seek_divine_guidance_spec e e_review draws
              (JahConsciousARKController.jah_system self) question (Some gc))
    as [Hinv Htotal].
  cbv zeta in Hinv, Htotal. rewrite context_or_empty_some in Hinv, Htotal.
  split.
  - intros g self'.
    destruct (DivineGuidance.seek_divine_guidance e e_review draws
                (JahConsciousARKController.jah_system self) question (Some gc))
      as [[g0 history]|]; [|discriminate].
    destruct (Hinv g0 history eq_refl) as [Hseek [Hnone [Hscr [_ Hanalysis]]]].
    destruct (seek_guidance_appends _ _ _ _ _ _ Hseek) as [_ [Hlevel [Hp Hmsg]]].
    rewrite Hcode in Hanalysis.
    intros H.
    match type of H with
    | context [if ?c then _ else _] => destruct c eqn:Es
    end;
      injection H as <- <-; cbv zeta;
      cbn [DivineGuidance.divine_wisdom DivineGuidance.scriptural_guidance
           DivineGuidance.code_analysis DivineGuidance.sacred_ritual
           JahConsciousARKController.revelations_received
           JahConsciousARKController.daily_practices
           JahConsciousARKController.jah_system];
      (split; [reflexivity|]; split; [exact Hlevel|]; split; [exact Hp|];
       split; [exact Hmsg|]; split; [reflexivity|]; split; [exact Hscr|];
       split;
       [destruct (code_entry code context) as [v|];
        [destruct Hanalysis as [c [r [Hv [Hr [Hh [Hpa _]]]]]];
         exists c, r; repeat split; assumption
        | exact Hanalysis]
       |]).
    + split; [split; discriminate|].
      intros ritual [= <-]. split; reflexivity.
    + split; [split; [reflexivity | intros _; exact Hnone]|].
      intros ritual H. rewrite Hnone in H. discriminate H.
  - intros Hl Hc. fold ctx0 in Hl.
    destruct Htotal as [g [history Hg]].
    + now rewrite Hline.
    + now rewrite Hcode.
    + rewrite Hg. eexists _, _. reflexivity.
Qed.

(** X18: a call of [seek_divine_coding_guidance] that returns appends
    exactly one revelation to the store of the controller: it carries the
    question, the non-empty message of the wisdom, one of the four level
    names that the oracle can give and exactly one principle, the first
    one extracted from the question.  The daily practices are untouched,
    and the history of the oracle grows by two records when the context
    handed on holds a code and by one otherwise. *)
Theorem coding_guidance_records_one_revelation :
  forall e e_review draws self question code context g self',
    GuidedController.seek_divine_coding_guidance e e_review draws self question
      code context
    = Some (g, self') ->
    exists r added,
      JahConsciousARKController.revelations_received self'
      = (JahConsciousARKController.revelations_received self ++ [r])%list
      /\ Revelation.question r = question
      /\ Revelation.guidance_received r = message (DivineGuidance.divine_wisdom g)
      /\ Revelation.guidance_received r <> ""
      /\ In (Revelation.revelation_level r)
           [ "human_understanding"; "spiritual_insight"; "divine_revelation";
             "mystical_knowledge" ]
      /\ Revelation.principles r
         = [ Principle.value
               (hd DIVINE_ORDER (MysticalCodeOracle._extract_principles question)) ]
      /\ JahConsciousARKController.daily_practices self'
         = JahConsciousARKController.daily_practices self
      /\ JahConsciousARKController.jah_system self'
         = (JahConsciousARKController.jah_system self ++ added)%list
      /\ List.length added
         = match code_entry code context with None => 1 | Some _ => 2 end.
Proof.
  intros e e_review draws self question code context g self' H.
  destruct (proj1 (seek_divine_coding_guidance_spec e e_review draws self
                     question code context) g self' H)
    as [Hrev [Hlevel [Hp [Hmsg [Hdaily [_ [Hcode _]]]]]]].
  exists (revelation_of e question (DivineGuidance.divine_wisdom g)).
  assert (Hnames :
            In (Level.value (revelation_level (DivineGuidance.divine_wisdom g)))
              [ "human_understanding"; "spiritual_insight"; "divine_revelation";
                "mystical_knowledge" ]).
  { cbn [In] in Hlevel |- *.
    repeat (destruct Hlevel as [<-|Hlevel]; [cbn; tauto|]). destruct Hlevel. }
  destruct (code_entry code context) as [v|].
  - destruct Hcode as [c [r [_ [_ [Hh _]]]]].
    exists [DivineGuidance.divine_wisdom g; MysticalCodeOracleReview.guidance r].
    cbn [revelation_of Revelation.question Revelation.guidance_received
         Revelation.revelation_level Revelation.principles].
    rewrite Hp in *. repeat split; assumption || reflexivity.
  - destruct Hcode as [_ Hh].
    exists [DivineGuidance.divine_wisdom g].
    cbn [revelation_of Revelation.question Revelation.guidance_received
         Revelation.revelation_level Revelation.principles].
    rewrite Hp in *. repeat split; assumption || reflexivity.
Qed.

Lemma coding_guidance_records_one_revelation_witness :
  exists g self' r,
    GuidedController.seek_divine_coding_guidance morning evening (fun i => i)
      JahConsciousARKController.init "How do I bless this module?"
      (Some two_block_code) None
    = Some (g, self')
    /\ JahConsciousARKController.revelations_received self' = [r]
    /\ Revelation.question r = "How do I bless this module?".
Proof.
  destruct (proj2 (seek_divine_coding_guidance_spec morning evening (fun i => i)
                     JahConsciousARKController.init
                     "How do I bless this module?" (Some two_block_code) None))
    as [g [self' Hg]].
  - reflexivity.
  - intros v [= <-]. eexists. reflexivity.
  - destruct (coding_guidance_records_one_revelation _ _ _ _ _ _ _ _ _ Hg)
      as [r [added [Hrev [Hq _]]]].
    exists g, self', r. split; [exact Hg|]. split; [exact Hrev | exact Hq].
Defined.

Lemma NoDup_sacred_recs : NoDup GuidedController.sacred_recs.
Proof.
  unfold GuidedController.sacred_recs.
  repeat (constructor; [cbn [In]; intros H;
                        repeat (destruct H as [H|H]; [discriminate H|]);
                        exact H|]).
  constructor.
Qed.

Lemma sacred_recommendations_cases draws scores pa g :
  message (DivineGuidance.divine_wisdom g) <> "" ->
  exists specific general,
    GuidedController._generate_sacred_recommendations draws scores pa g
    = Some (specific
            ++ ("Contemplate: " ++ message (DivineGuidance.divine_wisdom g))%string
               :: general)%list
    /\ List.length specific <= 4
    /\ List.length general = 3
    /\ NoDup general
    /\ incl general GuidedController.sacred_recs.
Proof.
  intros Hmsg. unfold GuidedController._generate_sacred_recommendations.
  cbv zeta.
  assert (Ht : Text.truthy (message (DivineGuidance.divine_wisdom g)) = true).
  { destruct (message (DivineGuidance.divine_wisdom g)); [congruence | reflexivity]. }
  rewrite Ht.
  destruct (sample_spec draws GuidedController.sacred_recs 3)
    as [general [rest [Hs [Hlen Hperm]]]]; [cbn; lia|].
  rewrite Hs.
  eexists _, general. split; [rewrite <- app_assoc; reflexivity|].
  split.
  { destruct (Qlt_le_dec _ (6 # 10)); destruct (Qlt_le_dec _ (5 # 10));
      destruct (Qlt_le_dec _ (7 # 10));
      try destruct (Text.contains "fibonacci" _);
      cbn [app List.length]; lia. }
  split; [exact Hlen|]. split.
  - apply (NoDup_app_remove_r _ rest).
    apply (Permutation_NoDup (Permutation_sym Hperm)), NoDup_sacred_recs.
  - intros x Hx. apply (Permutation_in _ Hperm). apply in_or_app. now left.
Qed.

Lemma add_notes_spec (prefix : string) (notes : list string) :
  forall m,
    let m' :=
      fold_left (fun m rec => add_meditation_note m (prefix ++ rec)) notes m in
    meditation_notes m'
    = (meditation_notes m ++ map (fun rec => (prefix ++ rec)%string) notes)%list
    /\ modification_id m' = modification_id m
    /\ modified_version m' = modified_version m
    /\ description m' = description m
    /\ rationale m' = rationale m
    /\ harmony_score m' = harmony_score m
    /\ community_impact m' = community_impact m.
Proof.
  induction notes as [|n notes IH]; intros m; cbn [fold_left map].
  - rewrite app_nil_r. repeat split; reflexivity.
  - destruct (IH (add_meditation_note m (prefix ++ n)))
      as [H1 [H2 [H3 [H4 [H5 [H6 H7]]]]]].
    cbv zeta in *. rewrite H1, H2, H3, H4, H5, H6, H7.
    cbn [add_meditation_note meditation_notes modification_id modified_version
         description rationale harmony_score community_impact].
    rewrite <- app_assoc. repeat split; reflexivity.
Qed.

Lemma guidance_to_dict_wisdom (g : DivineGuidance.t) :
  dict_get "divine_wisdom" (DivineGuidance.to_dict g)
  = Some (VDict (Wisdom.to_dict (DivineGuidance.divine_wisdom g))).
Proof. reflexivity. Qed.

Lemma review_context_entries (m : EnhancedModuleModification) :
  dict_get "line_count"
    (SacredCodingRitual.context_or_empty
       (Some [ ("modification_id", VStr (modification_id m));
               ("description", VStr (description m));
               ("rationale", VStr (rationale m));
               ("author", VStr (author m)) ]))
  = None
  /\ forall v,
       code_entry (Some (modified_version m))
         (Some [ ("modification_id", VStr (modification_id m));
                 ("description", VStr (description m));
                 ("rationale", VStr (rationale m));
                 ("author", VStr (author m)) ])
       = Some v ->
       exists c, v = VStr c.
Proof.
  split; [reflexivity|]. intros v. unfold code_entry.
  destruct (Text.truthy (modified_version m)).
  - intros [= <-]. eexists. reflexivity.
  - cbn. discriminate.
Qed.

(** What [perform_sacred_code_review] returns. *)
Lemma perform_sacred_code_review_spec :
  forall e e_review draws sacred_draws self m patterns scriptures,
  exists result m' self' g scores overall specific general,
    GuidedController.perform_sacred_code_review e e_review draws sacred_draws
      self m patterns scriptures
    = Some (result, m', self')
    /\ GuidedController.seek_divine_coding_guidance e e_review draws self
         ("Code review for modification " ++ modification_id m)
         (Some (modified_version m))
         (Some [ ("modification_id", VStr (modification_id m));
                 ("description", VStr (description m));
                 ("rationale", VStr (rationale m));
                 ("author", VStr (author m)) ])
       = Some (g, self')
    /\ JahConsciousARKController._calculate_divine_alignment_score m
         (if patterns
          then Some (DivinePatternRecognizer.analyze_code_for_divine_patterns
                       (modified_version m))
          else None)
         (if scriptures
          then Some (ScripturalWisdom.get_wisdom_for_situation
                       ScripturalWisdom.init
                       ("Code modification: " ++ description m))
          else None)
         (DivineGuidance.to_dict g)
       = Some scores
    /\ dict_get "overall_divine_alignment" scores = Some overall
    /\ dict_get "divine_alignment_scores" result
       = Some (VDict (map (fun '(k, q) => (k, VFloat q)) scores))
    /\ dict_get "sacred_recommendations" result
       = Some (VList
                 (map VStr
                    (specific
                     ++ ("Contemplate: "
                         ++ message (DivineGuidance.divine_wisdom g))%string
                        :: general)%list))
    /\ List.length specific <= 4
    /\ List.length general = 3
    /\ NoDup general
    /\ incl general GuidedController.sacred_recs
    /\ dict_get "meditation" result
       = Some (VDict
                 (if Qlt_le_dec overall (5 # 10)
                  then
                    SacredCodingRitual.perform_ritual e "debugging_meditation"
                      (Some [ ("issue",
                               VStr ("Low divine alignment in modification "
                                     ++ modification_id m)) ])
                  else [ ("ritual", VStr "alignment_good");
                         ("message", VStr "Code is divinely aligned") ]))
    /\ m'
       = fold_left
           (fun m rec => add_meditation_note m ("Sacred Recommendation: " ++ rec))
           (firstn 3
              (specific
               ++ ("Contemplate: "
                   ++ message (DivineGuidance.divine_wisdom g))%string
                  :: general)%list)
           m.
Proof.
  intros e e_review draws sacred_draws self m patterns scriptures.
  unfold GuidedController.perform_sacred_code_review.
  destruct (review_context_entries m) as [Hline Hcode].
  destruct (proj2 (seek_divine_coding_guidance_spec e e_review draws self
                     ("Code review for modification " ++ modification_id m)
                     (Some (modified_version m))
                     (Some [ ("modification_id", VStr (modification_id m));
                             ("description", VStr (description m));
                             ("rationale", VStr (rationale m));
                             ("author", VStr (author m)) ]))
              Hline Hcode) as [g [self' Hg]].
  rewrite Hg.
  destruct (proj1 (seek_divine_coding_guidance_spec _ _ _ _ _ _ _) g self' Hg)
    as [_ [_ [_ [Hmsg _]]]]. cbv zeta in Hmsg.
  rewrite alignment_scores_shape.
  rewrite (guidance_score_of_wisdom _ _ (guidance_to_dict_wisdom g)).
  assert (Hq : exists q,
             JahConsciousARKController.level_scores_get
               (JahConsciousARKController.KMember
                  (revelation_level (DivineGuidance.divine_wisdom g)))
             = Some q).
  { destruct (revelation_level (DivineGuidance.divine_wisdom g));
      eexists; reflexivity. }
  destruct Hq as [q Hq]. rewrite Hq. cbv beta iota zeta.
  match goal with
  | |- context [GuidedController._generate_sacred_recommendations
                  sacred_draws ?s ?p g] =>
      destruct (sacred_recommendations_cases sacred_draws s p g Hmsg)
        as [specific [general [Hrecs [Hspec [Hgen [Hnd Hincl]]]]]];
      rewrite Hrecs
  end.
  eexists _, _, self', g, _, _, specific, general.
  split; [reflexivity|]. split; [reflexivity|].
  split.
  { rewrite alignment_scores_shape.
    rewrite (guidance_score_of_wisdom _ _ (guidance_to_dict_wisdom g)), Hq.
    reflexivity. }
  split; [reflexivity|]. split; [reflexivity|]. split; [reflexivity|].
  split; [exact Hspec|]. split; [exact Hgen|]. split; [exact Hnd|].
  split; [exact Hincl|]. split; reflexivity.
Qed.

(** X19: [perform_sacred_code_review] returns for every modification and
    every choice of its two switches.  Its recommendations are between 4
    and 8, among them the contemplation of the wisdom message and, at the
    end, three different entries of the list of eight general maxims; the
    first three recommendations are added to the modification as
    meditation notes and nothing else of it changes; one revelation is
    recorded; and the meditation is the debugging ritual exactly when the
    overall alignment is below 0.5. *)
Theorem sacred_review_always_returns :
  forall e e_review draws sacred_draws self m patterns scriptures,
  exists result m' self' recommendations general scores overall meditation,
    GuidedController.perform_sacred_code_review e e_review draws sacred_draws
      self m patterns scriptures
    = Some (result, m', self')
    /\ dict_get "sacred_recommendations" result
       = Some (VList (map VStr recommendations))
    /\ 4 <= List.length recommendations <= 8
    /\ (exists specific wisdom_message,
           recommendations
           = (specific ++ ("Contemplate: " ++ wisdom_message)%string :: general)%list
           /\ wisdom_message <> "")
    /\ List.length general = 3
    /\ NoDup general
    /\ incl general GuidedController.sacred_recs
    /\ meditation_notes m'
       = (meditation_notes m
          ++ map (fun rec => ("Sacred Recommendation: " ++ rec)%string)
               (firstn 3 recommendations))%list
    /\ List.length (meditation_notes m') = List.length (meditation_notes m) + 3
    /\ modification_id m' = modification_id m
    /\ modified_version m' = modified_version m
    /\ harmony_score m' = harmony_score m
    /\ List.length (JahConsciousARKController.revelations_received self')
       = List.length (JahConsciousARKController.revelations_received self) + 1
    /\ dict_get "divine_alignment_scores" result
       = Some (VDict (map (fun '(k, q) => (k, VFloat q)) scores))
    /\ dict_get "overall_divine_alignment" scores = Some overall
    /\ dict_get "meditation" result = Some (VDict meditation)
    /\ ((overall < 5 # 10)%Q ->
        dict_get "ritual" meditation = Some (VStr "debugging_meditation"))
    /\ ((5 # 10 <= overall)%Q ->
        meditation = [ ("ritual", VStr "alignment_good");
                       ("message", VStr "Code is divinely aligned") ]).
Proof.
  intros e e_review draws sacred_draws self m patterns scriptures.
  destruct (perform_sacred_code_review_spec e e_review draws sacred_draws self m
              patterns scriptures)
    as [result [m' [self' [g [scores [overall [specific [general H]]]]]]]].
  destruct H as [Hr [Hg [Hscores [Hoverall [Hdict [Hrecs [Hspec [Hgen [Hnd
                [Hincl [Hmed Hm]]]]]]]]]]].
  destruct (proj1 (seek_divine_coding_guidance_spec _ _ _ _ _ _ _) g self' Hg)
    as [Hrev [_ [_ [Hmsg _]]]]. cbv zeta in Hrev, Hmsg.
  set (recs := (specific
                ++ ("Contemplate: "
                    ++ message (DivineGuidance.divine_wisdom g))%string
                   :: general)%list) in *.
  assert (Hlen : 4 <= List.length recs <= 8).
  { unfold recs. rewrite length_app. cbn [List.length]. lia. }
  destruct (add_notes_spec "Sacred Recommendation: " (firstn 3 recs) m)
    as [Hn [Hid [Hmv [_ [_ [Hh _]]]]]].
  cbv zeta in Hn, Hid, Hmv, Hh. rewrite <- Hm in Hn, Hid, Hmv, Hh.
  exists result, m', self', recs, general, scores, overall.
  eexists. split; [exact Hr|]. split; [exact Hrecs|]. split; [exact Hlen|].
  split; [exists specific, (message (DivineGuidance.divine_wisdom g));
          split; [reflexivity | exact Hmsg]|].
  split; [exact Hgen|]. split; [exact Hnd|]. split; [exact Hincl|].
  split; [exact Hn|].
  split; [rewrite Hn, length_app, length_map, length_firstn; lia|].
  split; [exact Hid|]. split; [exact Hmv|]. split; [exact Hh|].
  split; [rewrite Hrev, length_app; reflexivity|].
  split; [exact Hdict|]. split; [exact Hoverall|]. split; [exact Hmed|].
  destruct (Qlt_le_dec overall (5 # 10)) as [Hlt|Hle]; split; intros H;
    try reflexivity; lra.
Qed.

Lemma sacred_review_always_returns_witness :
  exists result m' self',
    GuidedController.perform_sacred_code_review morning evening (fun i => i)
      (fun i => 2 * i) JahConsciousARKController.init sample_modification
      true true
    = Some (result, m', self')
    /\ List.length (meditation_notes m') = 3.
Proof.
  destruct (sacred_review_always_returns morning evening (fun i => i)
              (fun i => 2 * i) JahConsciousARKController.init
              sample_modification true true)
    as [result [m' [self' [recs [general [scores [overall [meditation H]]]]]]]].
  exists result, m', self'.
  destruct H as [Hr [_ [_ [_ [_ [_ [_ [_ [Hlen _]]]]]]]]].
  split; [exact Hr | exact Hlen].
Defined.

(** ** The guided proposal *)

Lemma split_modification_for (rest : string) :
  Text.split (Text.lower ("Modification for " ++ rest))
  = "modification" :: "for" :: Text.split (Text.lower rest).
Proof. reflexivity. Qed.

Lemma relevant_entries_for (keywords : list string) :
  In "for" keywords ->
  ScripturalWisdom.relevant_entries ScripturalWisdom.init keywords <> [].
Proof.
  intros Hin Hnil.
  assert (Hex : existsb
                  (fun keyword =>
                     Text.contains keyword
                       (Text.lower
                          "Wisdom is the principal thing; therefore get wisdom"))
                  keywords = true).
  { apply existsb_exists. exists "for". split; [exact Hin | reflexivity]. }
  assert (H : In {| ScripturalWisdom.wisdom :=
                      "Wisdom is the principal thing; therefore get wisdom";
                    ScripturalWisdom.book := "Proverbs";
                    ScripturalWisdom.application := "Apply divine wisdom";
                    ScripturalWisdom.relevance_score :=
                      ScripturalWisdom._calculate_relevance
                        "Wisdom is the principal thing; therefore get wisdom"
                        keywords |}
                (ScripturalWisdom.relevant_entries ScripturalWisdom.init keywords)).
  { unfold ScripturalWisdom.relevant_entries.
    apply in_flat_map.
    exists ("Proverbs",
            [ "The fear of the Lord is the beginning of wisdom";
              "Trust in the Lord with all thine heart";
              "Wisdom is the principal thing; therefore get wisdom";
              "A soft answer turneth away wrath";
              "Where there is no vision, the people perish" ]).
    split; [cbn; tauto|].
    apply in_flat_map.
    exists "Wisdom is the principal thing; therefore get wisdom".
    split; [cbn; tauto|].
    rewrite Hex. left. reflexivity. }
  rewrite Hnil in H. destruct H.
Qed.

Lemma guidance_for_modification (target description : string) :
  ScripturalWisdom.guidance
    (ScripturalWisdom.get_wisdom_for_situation ScripturalWisdom.init
       ("Modification for " ++ target ++ ": " ++ description))
  <> [].
Proof.
  unfold ScripturalWisdom.get_wisdom_for_situation.
  cbn [ScripturalWisdom.guidance].
  rewrite split_modification_for.
  pose proof (relevant_entries_for
                ("modification" :: "for"
                 :: Text.split (Text.lower (target ++ ": " ++ description)))
                (or_intror (or_introl eq_refl))) as Hne.
  pose proof (sort_desc_perm ScripturalWisdom.score_lt
                (ScripturalWisdom.relevant_entries ScripturalWisdom.init
                   ("modification" :: "for"
                    :: Text.split (Text.lower (target ++ ": " ++ description)))))
    as Hperm.
  destruct (sort_desc _ _) as [|x l].
  - apply Permutation_nil in Hperm. congruence.
  - discriminate.
Qed.

Lemma proposal_context_entries (target mv description rationale author : string) :
  dict_get "line_count"
    (SacredCodingRitual.context_or_empty
       (Some [ ("target", VStr target); ("purpose", VStr description);
               ("rationale", VStr rationale); ("author", VStr author) ]))
  = None
  /\ code_entry (Some mv)
       (Some [ ("target", VStr target); ("purpose", VStr description);
               ("rationale", VStr rationale); ("author", VStr author) ])
     = (if Text.truthy mv then Some (VStr mv) else None).
Proof.
  split; [reflexivity|]. unfold code_entry.
  destruct (Text.truthy mv); reflexivity.
Qed.

(** What [propose_divinely_guided_modification] returns. *)
Lemma propose_divinely_guided_modification_spec :
  forall e e_review draws self target mv description0 rationale0 level0 author0
         seek bless,
  exists m self',
    GuidedController.propose_divinely_guided_modification e e_review draws self
      target mv description0 rationale0 level0 author0 seek bless
    = Some (m, self')
    /\ modification_id m = "mod_" ++ target
    /\ target_component m = target
    /\ modified_version m = mv
    /\ description m = description0
    /\ level m = level0
    /\ author m = author0
    /\ harmony_score m = Some (75 # 100)
    /\ rationale m
       = (if bless
          then
            rationale0 ++ "

Divine Blessing: "
            ++ Value.str
                 (SacredCodingRitual.get_or "blessing_prayer"
                    (VStr "Jah bless this code")
                    (SacredCodingRitual.perform_ritual e "code_blessing"
                       (Some [ ("module_name", VStr target);
                               ("code", VStr (Text.take 100 mv)) ])))
          else rationale0)
    /\ (if seek
        then
          exists g first rest,
            GuidedController.seek_divine_coding_guidance e e_review draws self
              ("Modification for " ++ target ++ ": " ++ description0)
              (Some mv)
              (Some [ ("target", VStr target); ("purpose", VStr description0);
                      ("rationale", VStr rationale0); ("author", VStr author0) ])
            = Some (g, self')
            /\ ScripturalWisdom.guidance
                 (ScripturalWisdom.get_wisdom_for_situation ScripturalWisdom.init
                    ("Modification for " ++ target ++ ": " ++ description0))
               = first :: rest
            /\ meditation_notes m
               = [ "Divine Guidance Received: "
                   ++ message (DivineGuidance.divine_wisdom g);
                   "Scriptural Wisdom: " ++ ScripturalWisdom.wisdom first ]
            /\ community_impact m
               = [ ("divine_analysis",
                    if Text.truthy mv
                    then MysticalCodeOracleReview.analysis_to_value
                           (DivinePatternRecognizer.analyze_code_for_divine_patterns
                              mv)
                    else VDict []) ]
        else meditation_notes m = [] /\ community_impact m = [] /\ self' = self).
Proof.
  intros e e_review draws self target mv description0 rationale0 level0 author0
    seek bless.
  unfold GuidedController.propose_divinely_guided_modification.
  destruct seek.
  - destruct (proposal_context_entries target mv description0 rationale0 author0)
      as [Hline Hcode].
    destruct (seek_divine_coding_guidance_spec e e_review draws self
                ("Modification for " ++ target ++ ": " ++ description0)
                (Some mv)
                (Some [ ("target", VStr target); ("purpose", VStr description0);
                        ("rationale", VStr rationale0);
                        ("author", VStr author0) ]))
      as [Hinv Htotal].
    destruct Htotal as [g [self' Hg]]; [exact Hline | |].
    { rewrite Hcode. destruct (Text.truthy mv); [|discriminate].
      intros v [= <-]. eexists. reflexivity. }
    rewrite Hg.
    destruct (Hinv g self' Hg) as [_ [_ [_ [_ [_ [Hscr [Hanalysis _]]]]]]].
    cbv zeta in Hscr, Hanalysis. rewrite Hcode in Hanalysis.
    pose proof (guidance_for_modification target description0) as Hne.
    rewrite <- Hscr in Hne.
    destruct (ScripturalWisdom.guidance (DivineGuidance.scriptural_guidance g))
      as [|first rest] eqn:Eg; [congruence|].
    rewrite Hscr in Eg.
    assert (Himpact :
              match DivineGuidance.code_analysis g with
              | Some r =>
                  MysticalCodeOracleReview.analysis_to_value
                    (MysticalCodeOracleReview.pattern_analysis r)
              | None => VDict []
              end
              = if Text.truthy mv
                then MysticalCodeOracleReview.analysis_to_value
                       (DivinePatternRecognizer.analyze_code_for_divine_patterns
                          mv)
                else VDict []).
    { destruct (Text.truthy mv).
      - destruct Hanalysis as [c [r [[= <-] [-> [_ ->]]]]]. reflexivity.
      - destruct Hanalysis as [-> _]. reflexivity. }
    eexists _, self'. split; [reflexivity|].
    cbn [set_community_impact add_meditation_note
         EnhancedARKController.propose_enhanced_modification
         modification_id target_component modified_version
         level author harmony_score rationale meditation_notes community_impact
         app dict_set].
    repeat (split; [reflexivity|]).
    exists g, first, rest. split; [reflexivity|]. split; [exact Eg|].
    split; [reflexivity|]. now rewrite Himpact.
  - eexists _, self. split; [reflexivity|].
    cbn [EnhancedARKController.propose_enhanced_modification
         modification_id target_component modified_version
         level author harmony_score rationale meditation_notes community_impact].
    repeat split; reflexivity.
Qed.

(** X20: [propose_divinely_guided_modification] returns a modification
    for all arguments: the index into the list of maxims cannot fail,
    because the question always holds the word [for], which occurs in a
    maxim of the corpus.  The modification is named after its target and
    has harmony 0.75; with guidance it carries exactly two meditation
    notes, the wisdom message and the best-ranked maxim for the question,
    and one revelation is recorded; without guidance it has no note and
    the controller is unchanged. *)
Theorem guided_proposal_always_returns :
  forall e e_review draws self target mv description0 rationale0 level0 author0
         seek bless,
  exists m self',
    GuidedController.propose_divinely_guided_modification e e_review draws self
      target mv description0 rationale0 level0 author0 seek bless
    = Some (m, self')
    /\ modification_id m = "mod_" ++ target
    /\ modified_version m = mv
    /\ harmony_score m = Some (75 # 100)
    /\ String.prefix rationale0 (rationale m) = true
    /\ (if bless then rationale m <> rationale0 else rationale m = rationale0)
    /\ (if seek
        then
          exists r first rest,
            JahConsciousARKController.revelations_received self'
            = (JahConsciousARKController.revelations_received self ++ [r])%list
            /\ Revelation.question r
               = "Modification for " ++ target ++ ": " ++ description0
            /\ ScripturalWisdom.guidance
                 (ScripturalWisdom.get_wisdom_for_situation ScripturalWisdom.init
                    ("Modification for " ++ target ++ ": " ++ description0))
               = first :: rest
            /\ meditation_notes m
               = [ "Divine Guidance Received: " ++ Revelation.guidance_received r;
                   "Scriptural Wisdom: " ++ ScripturalWisdom.wisdom first ]
            /\ exists impact, community_impact m = [ ("divine_analysis", impact) ]
        else meditation_notes m = [] /\ community_impact m = [] /\ self' = self).
Proof.
  intros e e_review draws self target mv description0 rationale0 level0 author0
    seek bless.
  destruct (propose_divinely_guided_modification_spec e e_review draws self
              target mv description0 rationale0 level0 author0 seek bless)
    as [m [self' [Hm [Hid [_ [Hmv [_ [_ [_ [Hh [Hr Hseek]]]]]]]]]]].
  exists m, self'. split; [exact Hm|]. split; [exact Hid|]. split; [exact Hmv|].
  split; [exact Hh|]. split; [|split].
  - rewrite Hr. destruct bless; [|apply prefix_refl].
    clear. induction rationale0 as [|c s IH]; cbn [String.append String.prefix].
    + reflexivity.
    + destruct (ascii_dec c c) as [_|Hne]; [exact IH | congruence].
  - rewrite Hr. destruct bless; [|reflexivity].
    intros H. apply (f_equal String.length) in H.
    rewrite !length_string_append in H. cbn [String.length] in H. lia.
  - destruct seek; [|exact Hseek].
    destruct Hseek as [g [first [rest [Hg [Hfirst [Hnotes Himpact]]]]]].
    destruct (proj1 (seek_divine_coding_guidance_spec _ _ _ _ _ _ _) g self' Hg)
      as [Hrev _]. cbv zeta in Hrev.
    eexists _, first, rest. split; [exact Hrev|].
    split; [reflexivity|]. split; [exact Hfirst|]. split; [exact Hnotes|].
    eexists. exact Himpact.
Qed.

(** ** The routes *)

(** X21: the ritual route answers with status 400 exactly for the names
    that are not registered, so the error record of [perform_ritual]
    never reaches a caller of the route; a response carries the ritual
    under its name, the user, and no [error] entry. *)
Theorem ritual_route_rejects_unknown_names :
  forall e ritual_name context current_user,
    DivineGuidanceRoutes.valid_rituals = map fst SacredCodingRitual.ritual_steps
    /\ match
         DivineGuidanceRoutes.perform_sacred_ritual e ritual_name context
           current_user
       with
       | inl detail =>
           ~ In ritual_name (map fst SacredCodingRitual.ritual_steps)
           /\ detail
              = "Invalid ritual. Choose from: morning_dedication, code_blessing, debugging_meditation, completion_thanksgiving, evening_reflection"
       | inr response =>
           In ritual_name (map fst SacredCodingRitual.ritual_steps)
           /\ dict_get "error" response = None
           /\ dict_get "ritual" response = Some (VStr ritual_name)
           /\ dict_get "user" response = Some current_user
       end.
Proof.
  intros e ritual_name context current_user. split; [reflexivity|].
  unfold DivineGuidanceRoutes.perform_sacred_ritual.
  destruct (existsb (String.eqb ritual_name) DivineGuidanceRoutes.valid_rituals)
    eqn:Ev.
  - apply existsb_exists in Ev. destruct Ev as [name [Hin Heq]].
    apply String.eqb_eq in Heq. subst name.
    change DivineGuidanceRoutes.valid_rituals
      with (map fst SacredCodingRitual.ritual_steps) in Hin.
    destruct (registered_ritual_record e ritual_name (Some context) Hin)
      as [Herr Hrit].
    split; [exact Hin|].
    rewrite !dict_get_set_other by discriminate.
    split; [exact Herr|]. split; [exact Hrit|]. apply dict_get_set_same.
  - split; [|reflexivity]. intros Hin.
    change (map fst SacredCodingRitual.ritual_steps)
      with DivineGuidanceRoutes.valid_rituals in Hin.
    assert (Ht : existsb (String.eqb ritual_name)
                   DivineGuidanceRoutes.valid_rituals = true).
    { apply existsb_exists. exists ritual_name. split; [exact Hin|].
      apply String.eqb_refl. }
    congruence.
Qed.

(** X22: for a controller without revelations the insight route answers
    with four entries; the message of the empty report is replaced by the
    message of the route, so what is left of the report is its
    blessing. *)
Theorem insights_route_hides_empty_message :
  forall controller current_user,
    JahConsciousARKController.revelations_received controller = [] ->
    DivineGuidanceRoutes.get_divine_insights_report controller current_user
    = Some [ ("message",
              VStr "Divine insights are blessings for your coding journey");
             ("blessing", VStr "Seek and you shall find");
             ("encouragement",
              VStr "Continue seeking, and you shall continue finding");
             ("user", current_user) ].
Proof.
  intros controller current_user H.
  unfold DivineGuidanceRoutes.get_divine_insights_report,
    JahConsciousARKController.get_divine_insights_report.
  rewrite H. reflexivity.
Qed.

Lemma insights_route_hides_empty_message_witness :
  dict_get "message"
    match
      DivineGuidanceRoutes.get_divine_insights_report
        JahConsciousARKController.init anonymous_user
    with
    | Some response => response
    | None => []
    end
  = Some (VStr "Divine insights are blessings for your coding journey").
Proof.
  rewrite (insights_route_hides_empty_message JahConsciousARKController.init
             anonymous_user eq_refl).
  reflexivity.
Defined.

(** ** The guidance of the daily practice *)

Lemma choice_singleton {A} (pick : nat) (x d : A) : choice pick [x] d = x.
Proof. unfold choice. cbn [List.length]. now rewrite Nat.mod_1_r. Qed.

(** The fields of the record that [seek_guidance] returns. *)
Lemma seek_guidance_fields e history question context w history' :
  MysticalCodeOracle.seek_guidance e history question context
  = Some (w, history') ->
  message w
  = MysticalCodeOracle._generate_wisdom_message e question
      (MysticalCodeOracle._extract_principles question)
      (MysticalCodeOracle.sacred_number_of question)
  /\ principle w
     = hd DIVINE_ORDER (MysticalCodeOracle._extract_principles question)
  /\ revelation_level w
     = MysticalCodeOracle._determine_revelation_level question context
  /\ scriptural_reference w
     = Some (MysticalCodeOracle._get_scriptural_reference
               (MysticalCodeOracle._extract_principles question))
  /\ meditation_focus w
     = Some ("Meditate on sacred number "
             ++ Text.of_Z (MysticalCodeOracle.sacred_number_of question)
             ++ ": "
             ++ MysticalCodeOracle.sacred_number_meaning
                  (MysticalCodeOracle.sacred_number_of question) "Divine mystery")
  /\ timestamp w = utcnow e
  /\ MysticalCodeOracle._find_divine_signs e context
     = Some (confirmation_signs w).
Proof.
  unfold MysticalCodeOracle.seek_guidance.
  destruct (MysticalCodeOracle._find_divine_signs e context); [|discriminate].
  intros [= <- _].
  cbn [message principle revelation_level scriptural_reference meditation_focus
       timestamp confirmation_signs].
  repeat split; try reflexivity;
    destruct (MysticalCodeOracle._extract_principles question); reflexivity.
Qed.

(** X23: the guidance of the daily practice does not vary: whatever the
    clock, the two random draws and the history, its message, principle,
    level, scriptural reference and meditation focus are the same; only
    its timestamp and its confirmation signs depend on the call. *)
Theorem daily_guidance_is_constant :
  forall e history,
  exists practice w,
    JahConsciousnessSystem.perform_daily_practice e history
    = Some (practice, (history ++ [w])%list)
    /\ dict_get "guidance" practice = Some (VDict (Wisdom.to_dict w))
    /\ message w
       = "Jah guide your path. Sacred number 110 whispers: Divine mystery"
    /\ principle w = SPIRITUAL_GUIDANCE
    /\ revelation_level w = HUMAN_UNDERSTANDING
    /\ scriptural_reference w
       = Some "Psalm 32:8 - I will instruct thee and teach thee"
    /\ meditation_focus w
       = Some "Meditate on sacred number 110: Divine mystery"
    /\ timestamp w = utcnow e.
Proof.
  intros e history.
  destruct (perform_daily_practice_returns e history)
    as [practice [w [Hp [Hw [_ [Hg _]]]]]].
  exists practice, w. split; [exact Hp|]. split; [exact Hg|].
  destruct (seek_guidance_fields _ _ _ _ _ _ Hw)
    as [Hm [Hpr [Hl [Hs [Hf [Ht _]]]]]].
  assert (Hprinciples :
            MysticalCodeOracle._extract_principles "Guide my coding work today"
            = [SPIRITUAL_GUIDANCE]) by (vm_compute; reflexivity).
  assert (Hnumber :
            MysticalCodeOracle.sacred_number_of "Guide my coding work today"
            = 110%Z) by (vm_compute; reflexivity).
  rewrite Hprinciples, Hnumber in Hm.
  rewrite Hprinciples in Hpr, Hs. rewrite Hnumber in Hf.
  split.
  { rewrite Hm. unfold MysticalCodeOracle._generate_wisdom_message.
    rewrite choice_singleton.
    change (find (fun '(p, _) => Principle.eqb p SPIRITUAL_GUIDANCE)
              MysticalCodeOracle.principle_messages)
      with (@None (DivinePrinciple * list string)).
    cbv beta iota. rewrite choice_singleton. vm_compute. reflexivity. }
  split; [exact Hpr|].
  split.
  { rewrite Hl. unfold MysticalCodeOracle._determine_revelation_level.
    change (Text.contains "why" (Text.lower "Guide my coding work today"))
      with false.
    change (Text.contains "how" (Text.lower "Guide my coding work today"))
      with false.
    change (Text.contains "what" (Text.lower "Guide my coding work today"))
      with false.
    reflexivity. }
  split; [rewrite Hs; reflexivity|].
  split; [rewrite Hf; vm_compute; reflexivity | exact Ht].
Qed.

(** ** The wisdom message *)

Lemma choice_In {A} (pick : nat) (l : list A) (d : A) :
  l <> [] -> In (choice pick l d) l.
Proof.
  intros Hne. unfold choice. apply nth_In. apply Nat.mod_upper_bound.
  destruct l; [congruence | discriminate].
Qed.

Lemma extract_principles_nonempty (question : string) :
  MysticalCodeOracle._extract_principles question <> [].
Proof.
  unfold MysticalCodeOracle._extract_principles.
  destruct (flat_map _ MysticalCodeOracle.principle_mapping); discriminate.
Qed.

(** The maxims among which the message of a principle is drawn. *)
Lemma principle_messages_cases (p : DivinePrinciple) :
  (exists l,
      find (fun '(k, _) => Principle.eqb k p) MysticalCodeOracle.principle_messages
      = Some (p, l)
      /\ In (p, l) MysticalCodeOracle.principle_messages
      /\ l <> [])
  \/ (find (fun '(k, _) => Principle.eqb k p) MysticalCodeOracle.principle_messages
      = None
      /\ forall l, ~ In (p, l) MysticalCodeOracle.principle_messages).
Proof.
  destruct p;
    first
      [ left; eexists; split; [reflexivity|]; split;
        [cbn; tauto | discriminate]
      | right; split; [reflexivity|];
        intros l H; cbn in H;
        repeat (destruct H as [H|H]; [discriminate H|]); exact H ].
Qed.

(** X24: the message of a wisdom record is a maxim followed by the sacred
    number of the question and a meaning.  The maxim belongs to one of
    the principles extracted from the question (not necessarily the one
    the record names), and is the fixed text Jah guide your path for the
    five principles that have no maxims; the meaning is read off the last
    two digits of the number, not off the number. *)
Theorem wisdom_message_structure :
  forall e history question context w history',
    MysticalCodeOracle.seek_guidance e history question context
    = Some (w, history') ->
    exists p base,
      In p (MysticalCodeOracle._extract_principles question)
      /\ ((exists l,
              In (p, l) MysticalCodeOracle.principle_messages /\ In base l)
          \/ ((forall l, ~ In (p, l) MysticalCodeOracle.principle_messages)
              /\ base = "Jah guide your path"))
      /\ message w
         = base ++ ". Sacred number "
           ++ Text.of_Z (MysticalCodeOracle.sacred_number_of question)
           ++ " whispers: "
           ++ MysticalCodeOracle.sacred_number_meaning
                (MysticalCodeOracle.sacred_number_of question mod 100)%Z
                "Divine mystery".
Proof.
  intros e history question context w history' H.
  destruct (seek_guidance_fields _ _ _ _ _ _ H) as [Hm _].
  rewrite Hm. unfold MysticalCodeOracle._generate_wisdom_message.
  pose proof (extract_principles_nonempty question) as Hne.
  pose proof (choice_In (pick1 e) _ DIVINE_ORDER Hne) as Hin.
  destruct (MysticalCodeOracle._extract_principles question) as [|p0 ps] eqn:E;
    [congruence|].
  set (p := choice (pick1 e) (p0 :: ps) DIVINE_ORDER) in *.
  exists p.
  destruct (principle_messages_cases p) as [[l [Hfind [Hl Hnel]]]|[Hfind Hnone]];
    rewrite Hfind.
  - exists (choice (pick2 e) l ""). split; [exact Hin|]. split; [|reflexivity].
    left. exists l. split; [exact Hl | now apply choice_In].
  - exists "Jah guide your path". split; [exact Hin|]. split.
    + right. split; [exact Hnone | reflexivity].
    + now rewrite choice_singleton.
Qed.

Lemma wisdom_message_structure_witness :
  exists w history' p base,
    MysticalCodeOracle.seek_guidance morning [] "Guide my coding work today" []
    = Some (w, history')
    /\ In p (MysticalCodeOracle._extract_principles "Guide my coding work today")
    /\ message w
       = base ++ ". Sacred number "
         ++ Text.of_Z
              (MysticalCodeOracle.sacred_number_of "Guide my coding work today")
         ++ " whispers: "
         ++ MysticalCodeOracle.sacred_number_meaning
              (MysticalCodeOracle.sacred_number_of "Guide my coding work today"
               mod 100)%Z
              "Divine mystery".
Proof.
  destruct (seek_guidance_returns morning [] "Guide my coding work today" []
              eq_refl) as [w Hw].
  destruct (wisdom_message_structure _ _ _ _ _ _ Hw) as [p [base [Hp [_ Hm]]]].
  exists w, ([] ++ [w])%list, p, base.
  split; [exact Hw|]. split; [exact Hp | exact Hm].
Defined.

(** ** The alignment of guidance that the oracle produced *)

(** X25: when the guidance handed to [_calculate_divine_alignment_score]
    carries a wisdom record of the oracle as [to_dict] serialises it, the
    level name is read back to the level the oracle determined: the
    guidance alignment is 0.3, 0.6, 0.8 or 0.9 by that level, never the
    fallback 0.5 and never 1.0, and the computation does not fail. *)
Theorem oracle_guidance_alignment :
  forall e history question context w history' m pa sw guidance,
    MysticalCodeOracle.seek_guidance e history question context
    = Some (w, history') ->
    dict_get "divine_wisdom" guidance = Some (VDict (Wisdom.to_dict w)) ->
    exists scores g,
      JahConsciousARKController._calculate_divine_alignment_score m pa sw guidance
      = Some scores
      /\ dict_get "guidance_alignment" scores = Some g
      /\ g = match MysticalCodeOracle._determine_revelation_level question context with
             | HUMAN_UNDERSTANDING => 3 # 10
             | SPIRITUAL_INSIGHT => 6 # 10
             | DIVINE_REVELATION => 8 # 10
             | MYSTICAL_KNOWLEDGE => 9 # 10
             | COSMIC_CONSCIOUSNESS => 1%Q
             end
      /\ In g [3 # 10; 6 # 10; 8 # 10; 9 # 10].
Proof.
  intros e history question context w history' m pa sw guidance Hw Hg.
  destruct (seek_guidance_fields _ _ _ _ _ _ Hw) as [_ [_ [Hl _]]].
  destruct (seek_guidance_appends _ _ _ _ _ _ Hw) as [_ [Hin _]].
  rewrite alignment_scores_shape, (guidance_score_of_wisdom _ _ Hg).
  rewrite <- Hl.
  destruct (revelation_level w); cbn [In] in Hin;
    try (exfalso; repeat (destruct Hin as [Hin|Hin]; [discriminate Hin|]);
         exact Hin);
    (eexists _, _; split; [reflexivity|]; split; [reflexivity|];
     split; [reflexivity|]; cbn [In]; tauto).
Qed.

Lemma oracle_guidance_alignment_witness :
  exists scores,
    JahConsciousARKController._calculate_divine_alignment_score
      sample_modification None None
      [ ("divine_wisdom",
         VDict
           (Wisdom.to_dict
              match
                MysticalCodeOracle.seek_guidance morning []
                  "Guide my coding work today" []
              with
              | Some (w, _) => w
              | None => sample_jah_wisdom
              end)) ]
    = Some scores
    /\ dict_get "guidance_alignment" scores = Some (3 # 10).
Proof.
  destruct (seek_guidance_returns morning [] "Guide my coding work today" []
              eq_refl) as [w Hw].
  rewrite Hw.
  destruct (oracle_guidance_alignment morning [] "Guide my coding work today" []
              w _ sample_modification None None
              [ ("divine_wisdom", VDict (Wisdom.to_dict w)) ] Hw eq_refl)
    as [scores [g [Hs [Hg [Heq _]]]]].
  exists scores. split; [exact Hs|]. rewrite Hg, Heq.
  unfold MysticalCodeOracle._determine_revelation_level.
  change (Text.contains "why" (Text.lower "Guide my coding work today"))
    with false.
  change (Text.contains "how" (Text.lower "Guide my coding work today"))
    with false.
  change (Text.contains "what" (Text.lower "Guide my coding work today"))
    with false.
  reflexivity.
Defined.

(** ** The reduction of a number to its digits *)

Lemma usum_revapp (d d' : Decimal.uint) :
  usum (Decimal.revapp d d') = (usum d + usum d')%Z.
Proof.
  revert d'. induction d; intros d'; cbn [Decimal.revapp usum];
    try rewrite IHd; cbn [usum]; lia.
Qed.

Lemma usum_rev (d : Decimal.uint) : usum (Decimal.rev d) = usum d.
Proof. unfold Decimal.rev. rewrite usum_revapp. cbn [usum]. lia. Qed.

Lemma usum_of_lu (d : Decimal.uint) :
  (0 <= usum d <= Z.of_N (DecimalPos.Unsigned.of_lu d))%Z
  /\ ((Z.of_N (DecimalPos.Unsigned.of_lu d) - usum d) mod 9 = 0)%Z
  /\ (10 <= Z.of_N (DecimalPos.Unsigned.of_lu d) ->
      usum d < Z.of_N (DecimalPos.Unsigned.of_lu d))%Z
  /\ (usum d = 0 <-> Z.of_N (DecimalPos.Unsigned.of_lu d) = 0)%Z.
Proof.
  induction d as [|d IH|d IH|d IH|d IH|d IH|d IH|d IH|d IH|d IH|d IH];
    cbn [usum DecimalPos.Unsigned.of_lu];
    [cbn; repeat split; intros; lia|..];
    destruct IH as [[H0 H1] [H9 [_ Hz]]];
    rewrite ?N2Z.inj_add, N2Z.inj_mul;
    set (v := Z.of_N (DecimalPos.Unsigned.of_lu d)) in *;
    set (s := usum d) in *;
    change (Z.of_N 10) with 10%Z; cbn [Z.of_N];
    (split; [lia|]; split;
     [match goal with
      | |- ((?a - ?b) mod 9 = 0)%Z =>
          replace (a - b)%Z with ((v - s) + v * 9)%Z by ring;
          rewrite Z.mod_add by lia; exact H9
      end
     | split; lia]).
Qed.

Lemma digit_fold_none (l : list ascii) :
  fold_left
    (fun acc c =>
       match acc, SacredNumbers.digit_value c with
       | Some a, Some d => Some (a + d)%Z
       | _, _ => None
       end)
    l None
  = None.
Proof. induction l as [|c l IH]; cbn [fold_left]; [reflexivity | exact IH]. Qed.

Lemma digit_fold_uint (d : Decimal.uint) :
  forall a,
    fold_left
      (fun acc c =>
         match acc, SacredNumbers.digit_value c with
         | Some a, Some d => Some (a + d)%Z
         | _, _ => None
         end)
      (list_ascii_of_string (NilEmpty.string_of_uint d)) (Some a)
    = Some (a + usum d)%Z.
Proof.
  induction d; intros a;
    cbn [NilEmpty.string_of_uint list_ascii_of_string fold_left usum];
    [f_equal; lia|..];
    (match goal with
     | |- context [SacredNumbers.digit_value ?c] =>
         let v := eval vm_compute in (SacredNumbers.digit_value c) in
         change (SacredNumbers.digit_value c) with v
     end;
     cbv beta iota; rewrite IHd; f_equal; lia).
Qed.

(** The digit sum of a number that is not negative. *)
Lemma digit_sum_nonneg (n : Z) :
  (0 <= n)%Z ->
  exists s,
    SacredNumbers.digit_sum n = Some s
    /\ (0 <= s <= n)%Z
    /\ ((n - s) mod 9 = 0)%Z
    /\ (10 <= n -> s < n)%Z
    /\ (s = 0 <-> n = 0)%Z.
Proof.
  intros Hn. unfold SacredNumbers.digit_sum, Text.of_Z.
  destruct n as [|p|p]; [| |lia].
  - exists 0%Z. split; [reflexivity|]. repeat split; intros; lia.
  - cbn [Z.to_int NilZero.string_of_int].
    pose proof (DecimalPos.Unsigned.of_to p) as Hof.
    rewrite DecimalPos.Unsigned.of_uint_alt in Hof.
    pose proof (usum_of_lu (Decimal.rev (Pos.to_uint p))) as Hu.
    rewrite Hof, usum_rev in Hu. cbn [Z.of_N] in Hu.
    exists (usum (Pos.to_uint p)). split; [|exact Hu].
    unfold NilZero.string_of_uint.
    destruct (Pos.to_uint p) as [|u|u|u|u|u|u|u|u|u|u] eqn:E;
      [reflexivity|..];
      match goal with
      | |- _ = Some (usum ?d) => exact (digit_fold_uint d 0%Z)
      end.
Qed.

Lemma digit_sum_negative (n : Z) : (n < 0)%Z -> SacredNumbers.digit_sum n = None.
Proof.
  intros Hn. unfold SacredNumbers.digit_sum, Text.of_Z.
  destruct n as [|p|p]; [lia | lia |].
  cbn [Z.to_int NilZero.string_of_int list_ascii_of_string fold_left].
  change (SacredNumbers.digit_value "-"%char) with (@None Z).
  apply digit_fold_none.
Qed.

Lemma mod9_diff (n s : Z) : ((n - s) mod 9 = 0 -> s mod 9 = n mod 9)%Z.
Proof.
  intros H. apply Z.mod_divide in H; [|lia]. destruct H as [k Hk].
  replace n with (s + k * 9)%Z by lia. now rewrite Z.mod_add by lia.
Qed.

Lemma reduce_spec (fuel : nat) :
  forall n,
    (0 <= n)%Z -> Z.to_nat n <= fuel ->
    exists r,
      SacredNumbers.reduce fuel n = Some r
      /\ reduced r
      /\ (r mod 9 = n mod 9)%Z
      /\ (r = 0 <-> n = 0)%Z.
Proof.
  induction fuel as [|fuel IH]; intros n Hn Hfuel.
  - assert (n = 0%Z) by lia. subst n. exists 0%Z.
    split; [reflexivity|]. split; [left; lia|]. split; [reflexivity | tauto].
  - cbn [SacredNumbers.reduce].
    destruct ((9 <? n)%Z && negb (existsb (Z.eqb n) [11; 22; 33]%Z)) eqn:Ec.
    + apply andb_true_iff in Ec. destruct Ec as [H9 _].
      apply Z.ltb_lt in H9.
      destruct (digit_sum_nonneg n Hn) as [s [Hs [Hrange [Hmod [Hlt Hz]]]]].
      rewrite Hs.
      destruct (IH s) as [r [Hr [Hred [Hm Hzero]]]]; [lia | lia |].
      exists r. split; [exact Hr|]. split; [exact Hred|]. split.
      * rewrite Hm. now apply mod9_diff.
      * rewrite Hzero, Hz. tauto.
    + exists n. split; [reflexivity|]. split; [|split; [reflexivity | tauto]].
      apply andb_false_iff in Ec. destruct Ec as [H9|Hm].
      * left. apply Z.ltb_ge in H9. lia.
      * right. apply negb_false_iff, existsb_exists in Hm.
        destruct Hm as [x [Hin Heq]]. apply Z.eqb_eq in Heq. now subst x.
Qed.

(** X26: the numerology of the route of the sacred numbers: for a number
    that is not negative the reduction ends, at a value from 0 to 9 or at
    one of the master numbers 11, 22 and 33; the value has the remainder
    of the number modulo 9 and is 0 only for the number 0.  A negative
    number makes the route fail, at the sign of its decimal text. *)
Theorem numerology_is_digital_root :
  forall number current_user,
    ((number < 0)%Z ->
     SacredNumbers.interpret_sacred_number number current_user = None)
    /\ ((0 <= number)%Z ->
        exists response r meaning,
          SacredNumbers.interpret_sacred_number number current_user
          = Some response
          /\ dict_get "numerology" response
             = Some (VDict [ ("reduced_number", VInt r);
                             ("meaning", VStr meaning) ])
          /\ reduced r
          /\ (r mod 9 = number mod 9)%Z
          /\ (r = 0 <-> number = 0)%Z
          /\ (meaning = "Divine guidance in your work" <-> number = 0%Z)
          /\ dict_get "number" response = Some (VInt number)
          /\ dict_get "user" response = Some current_user).
Proof.
  intros number current_user. unfold SacredNumbers.interpret_sacred_number,
    SacredNumbers.numerology_of. split.
  - intros Hn. now rewrite (digit_sum_negative number Hn).
  - intros Hn.
    destruct (digit_sum_nonneg number Hn) as [s [Hs [Hrange [Hmod [_ Hz]]]]].
    rewrite Hs.
    destruct (reduce_spec (Z.to_nat s) s) as [r [Hr [Hred [Hm Hzero]]]];
      [lia | lia |].
    rewrite Hr. eexists _, r, _. split; [reflexivity|].
    split; [reflexivity|]. split; [exact Hred|]. split; [|split; [|split]].
    + rewrite Hm. now apply mod9_diff.
    + rewrite Hzero, Hz. tauto.
    + rewrite <- Hz, <- Hzero. clear - Hred.
      unfold reduced in Hred. cbn [In] in Hred.
      assert (Hcases : In r [0; 1; 2; 3; 4; 5; 6; 7; 8; 9; 11; 22; 33]%Z).
      { cbn [In]. lia. }
      cbn [In] in Hcases.
      repeat (destruct Hcases as [<-|Hcases];
              [vm_compute; split; intros H; try reflexivity; discriminate H|]).
      destruct Hcases.
    + split; reflexivity.
Qed.

Lemma numerology_is_digital_root_witness :
  SacredNumbers.interpret_sacred_number (-7) anonymous_user = None
  /\ exists response r meaning,
       SacredNumbers.interpret_sacred_number 153 anonymous_user = Some response
       /\ dict_get "numerology" response
          = Some (VDict [ ("reduced_number", VInt r); ("meaning", VStr meaning) ])
       /\ (r mod 9 = 153 mod 9)%Z.
Proof.
  split.
  - apply (proj1 (numerology_is_digital_root (-7) anonymous_user)). lia.
  - destruct (proj2 (numerology_is_digital_root 153 anonymous_user))
      as [response [r [meaning [Hr [Hn [_ [Hm _]]]]]]]; [lia|].
    exists response, r, meaning. split; [exact Hr|]. split; [exact Hn | exact Hm].
Defined.
